(** * neuronumba: dynamics functions and narrowband power spectra

    A shallow embedding of
    - [neuronumba/simulator/models/naskar2021.py]  (plasticity variant),
    - [examples/papers/Deco2018/serotonin2A.py]    (fixed-gain variant),
    - [src/neuronumba/tools/filterps.py]           (spectral post-processing),
    and the properties of them that the specification states.

    The two dynamics functions are written once, over an interface of the
    numpy operations they call, and read in two ways: as a function on array
    values, and as a program on a store of arrays (for the frame property).
    The arithmetic itself is an interface too, read over the real numbers
    (exact arithmetic) and over IEEE 754 binary64. *)

From Stdlib Require Import String List ZArith Lia Bool Arith.
From Stdlib Require Import Reals Lra.
From Stdlib Require Import Floats.
Import ListNotations.

Set Implicit Arguments.

(** ** The arithmetic of a float64 array element *)

Class Float64 (F : Type) := {
  lit_0 : F;                       (* 0.0 *)
  lit_1 : F;                       (* 1.0 and 1. *)
  lit_1000 : F;                    (* 1000. *)
  lit_0_001 : F;                   (* 0.001 *)
  fadd : F -> F -> F;
  fsub : F -> F -> F;
  fmul : F -> F -> F;
  fdiv : F -> F -> F;
  fneg : F -> F;
  fexp : F -> F;                   (* np.exp on one element *)
  fclip : F -> F -> F -> F         (* np.clip x lo hi on one element *)
}.

(** Exact arithmetic: the formulas as the papers write them. *)
#[export] Instance Float64_R : Float64 R := {|
  lit_0 := 0%R;
  lit_1 := 1%R;
  lit_1000 := 1000%R;
  lit_0_001 := (1 / 1000)%R;
  fadd := Rplus;
  fsub := Rminus;
  fmul := Rmult;
  fdiv := Rdiv;
  fneg := Ropp;
  fexp := exp;
  fclip := fun x lo hi => Rmin (Rmax x lo) hi
|}.

(** IEEE 754 binary64, the element type of the source's arrays.  The
    exponential is the C library's and is a parameter [e] here. *)
Definition clip64 (x lo hi : float) : float :=
  if PrimFloat.ltb x lo then lo else if PrimFloat.ltb hi x then hi else x.

Definition Float64_binary64 (e : float -> float) : Float64 float := {|
  lit_0 := 0%float;
  lit_1 := 1%float;
  lit_1000 := 1000%float;
  lit_0_001 := 0x1.0624dd2f1a9fcp-10%float;
  fadd := PrimFloat.add;
  fsub := PrimFloat.sub;
  fmul := PrimFloat.mul;
  fdiv := PrimFloat.div;
  fneg := PrimFloat.opp;
  fexp := e;
  fclip := clip64
|}.

(** What IEEE 754 and Annex F of the C standard fix about [exp]:
    exp(+0) = exp(-0) = 1 exactly, and a NaN argument gives NaN. *)
Record libm_exp (e : float -> float) : Prop := {
  exp_pos_zero : e 0%float = 1%float;
  exp_neg_zero : e (-0)%float = 1%float;
  exp_nan : e nan = nan
}.

(** A concrete exponential, used only to run examples: scaling by 2^-10, a
    Taylor polynomial, and ten squarings.  It meets [libm_exp]; away from
    zero it approximates the library function. *)
Definition taylor64 (y : float) : float :=
  let h := fun (k : float) (acc : float) => (1 + y / k * acc)%float in
  h 1%float (h 2%float (h 3%float (h 4%float (h 5%float (h 6%float
    (h 7%float (h 8%float (h 9%float (h 10%float (h 11%float
      (h 12%float 1%float))))))))))).

Definition square64 (x : float) : float := (x * x)%float.

Definition exp64 (x : float) : float :=
  if PrimFloat.eqb x infinity then infinity
  else if PrimFloat.eqb x neg_infinity then 0%float
  else
    let t := taylor64 (x / 1024)%float in
    square64 (square64 (square64 (square64 (square64
      (square64 (square64 (square64 (square64 (square64 t))))))))).

(** ** numpy operands: a scalar or a one-dimensional array *)

Inductive nd (F : Type) : Type :=
| Scalar (x : F)
| Vec (v : list F).

Arguments Scalar {F} x.
Arguments Vec {F} v.

Section Broadcast.
Context {F : Type}.

Fixpoint map2 (f : F -> F -> F) (u v : list F) : list F :=
  match u, v with
  | a :: u', b :: v' => f a b :: map2 f u' v'
  | _, _ => []
  end.

(** Elementwise operations with numpy's broadcasting of scalars.  Two
    arrays of different lengths are outside the caller's contract. *)
Definition nd_map (f : F -> F) (a : nd F) : nd F :=
  match a with
  | Scalar x => Scalar (f x)
  | Vec v => Vec (map f v)
  end.

Definition nd_map2 (f : F -> F -> F) (a b : nd F) : nd F :=
  match a, b with
  | Scalar x, Scalar y => Scalar (f x y)
  | Scalar x, Vec v => Vec (map (f x) v)
  | Vec u, Scalar y => Vec (map (fun x => f x y) u)
  | Vec u, Vec v => Vec (map2 f u v)
  end.

Definition nd_get (d : F) (i : nat) (a : nd F) : F :=
  match a with
  | Scalar x => x
  | Vec v => nth i v d
  end.

Definition nd_list (a : nd F) : list F :=
  match a with
  | Scalar x => [x]
  | Vec v => v
  end.

(** [nd_fits n a]: [a] broadcasts against arrays of [n] regions. *)
Definition nd_fits (n : nat) (a : nd F) : Prop :=
  match a with
  | Scalar _ => True
  | Vec v => List.length v = n
  end.
End Broadcast.

(** ** The numpy operations the dynamics functions call

    [M] is the effect of a call, [arr] an operand (a Python float, an array
    or a view of one), [arr2] a two-dimensional array. *)

Class NumPy (F : Type) (M : Type -> Type) (arr arr2 : Type) := {
  mret : forall A : Type, A -> M A;
  mbind : forall A B : Type, M A -> (A -> M B) -> M B;
  np_lit : F -> arr;                       (* a float literal *)
  np_row : arr2 -> nat -> arr;             (* a[i, :], a view *)
  nb_carray : arr2 -> nat -> arr;          (* nb.carray(addr, (n,)), a view *)
  np_item : arr -> nat -> M arr;           (* a[k] of a 1-D array: a float *)
  np_clip : arr -> F -> F -> M arr;        (* np.clip(a, lo, hi), a.clip(lo, hi) *)
  np_exp : arr -> M arr;
  np_neg : arr -> M arr;
  np_add : arr -> arr -> M arr;
  np_sub : arr -> arr -> M arr;
  np_mul : arr -> arr -> M arr;
  np_div : arr -> arr -> M arr;
  np_stack : list arr -> M arr2
}.

Arguments mret {F M arr arr2 _ A} _.
Arguments mbind {F M arr arr2 _ A B} _ _.

Declare Scope np_scope.
Delimit Scope np_scope with np.

Notation "x <- c ;; k" := (mbind c (fun x => k))
  (at level 61, c at next level, right associativity) : np_scope.

Section Lifted.
Context {F : Type} {M : Type -> Type} {arr arr2 : Type}.
Context {FL : Float64 F} {NP : NumPy F M arr arr2}.

(** Python evaluates the left operand, then the right, then applies. *)
Definition lift1 (op : arr -> M arr) (a : M arr) : M arr :=
  mbind a op.

Definition lift2 (op : arr -> arr -> M arr) (a b : M arr) : M arr :=
  mbind a (fun x => mbind b (fun y => op x y)).

Definition var (x : arr) : M arr := mret x.
Definition lit (x : F) : M arr := mret (np_lit x).
Definition row (a : arr2) (i : nat) : M arr := mret (np_row a i).
Definition item (a : arr) (k : nat) : M arr := np_item a k.
Definition clip (a : M arr) (lo hi : F) : M arr :=
  mbind a (fun x => np_clip x lo hi).
Definition npexp (a : M arr) : M arr := lift1 np_exp a.

Fixpoint stack_args (l : list (M arr)) : M (list arr) :=
  match l with
  | [] => mret []
  | c :: l' => mbind c (fun x => mbind (stack_args l') (fun xs => mret (x :: xs)))
  end.

Definition stack (l : list (M arr)) : M arr2 :=
  mbind (stack_args l) np_stack.
End Lifted.

(** ** Reading 1: arrays as values

    No effect; an operand is a scalar or a list of elements, a
    two-dimensional array the list of its rows. *)

Definition Id (A : Type) : Type := A.

Section Values.
Context {F : Type} {FL : Float64 F}.

Definition flat_view (a : list (list F)) (n : nat) : list F :=
  firstn n (concat a).

#[export] Instance NumPy_values : NumPy F Id (nd F) (list (list F)) := {|
  mret := fun A (x : A) => x;
  mbind := fun A B (c : Id A) (k : A -> Id B) => k c;
  np_lit := Scalar;
  np_row := fun a i => Vec (nth i a []);
  nb_carray := fun a n => Vec (flat_view a n);
  np_item := fun a k => Scalar (nd_get lit_0 k a);
  np_clip := fun a lo hi => nd_map (fun x => fclip x lo hi) a;
  np_exp := nd_map fexp;
  np_neg := nd_map fneg;
  np_add := nd_map2 fadd;
  np_sub := nd_map2 fsub;
  np_mul := nd_map2 fmul;
  np_div := nd_map2 fdiv;
  np_stack := map nd_list
|}.
End Values.

(** ** Reading 2: arrays in a store

    The store is the list of the arrays allocated so far; a location is an
    index into it.  An operand is a Python float, an array of the store, or
    a view: a row of a two-dimensional array, or the flat prefix that
    [nb.carray] exposes.  Every numpy operation the dfuns use returns a new
    array (none is called with [out=], none is an augmented assignment), so
    each one reads its operands and allocates its result. *)

Inductive cell (F : Type) : Type :=
| Cell1 (v : list F)
| Cell2 (a : list (list F)).

Arguments Cell1 {F} v.
Arguments Cell2 {F} a.

Definition store (F : Type) : Type := list (cell F).
Definition loc : Type := nat.

Inductive ref (F : Type) : Type :=
| RFloat (x : F)
| RArr (l : loc)
| RRow (l : loc) (i : nat)
| RFlat (l : loc) (n : nat).

Arguments RFloat {F} x.
Arguments RArr {F} l.
Arguments RRow {F} l i.
Arguments RFlat {F} l n.

Definition State (F : Type) (A : Type) : Type := store F -> store F * A.

Section Store.
Context {F : Type} {FL : Float64 F}.

Definition cell2 (h : store F) (l : loc) : list (list F) :=
  match nth_error h l with
  | Some (Cell2 a) => a
  | _ => []
  end.

Definition deref (h : store F) (r : ref F) : nd F :=
  match r with
  | RFloat x => Scalar x
  | RArr l => match nth_error h l with
              | Some (Cell1 v) => Vec v
              | _ => Vec []
              end
  | RRow l i => Vec (nth i (cell2 h l) [])
  | RFlat l n => Vec (flat_view (cell2 h l) n)
  end.

Definition alloc (c : cell F) : State F loc :=
  fun h => (h ++ [c], List.length h).

(** The result of an elementwise operation: a float when every operand
    is one, a fresh array otherwise. *)
Definition fresh (a : nd F) : State F (ref F) :=
  match a with
  | Scalar x => fun h => (h, RFloat x)
  | Vec v => fun h => let (h', l) := alloc (Cell1 v) h in (h', RArr l)
  end.

Definition unop (f : F -> F) (a : ref F) : State F (ref F) :=
  fun h => fresh (nd_map f (deref h a)) h.

Definition binop (f : F -> F -> F) (a b : ref F) : State F (ref F) :=
  fun h => fresh (nd_map2 f (deref h a) (deref h b)) h.

#[export] Instance NumPy_store : NumPy F (State F) (ref F) loc := {|
  mret := fun A (x : A) h => (h, x);
  mbind := fun A B (c : State F A) (k : A -> State F B) h =>
             let (h', x) := c h in k x h';
  np_lit := RFloat;
  np_row := RRow;
  nb_carray := RFlat;
  np_item := fun a k h => (h, RFloat (nd_get lit_0 k (deref h a)));
  np_clip := fun a lo hi => unop (fun x => fclip x lo hi) a;
  np_exp := unop fexp;
  np_neg := unop fneg;
  np_add := binop fadd;
  np_sub := binop fsub;
  np_mul := binop fmul;
  np_div := binop fdiv;
  np_stack := fun l h =>
    alloc (Cell2 (map (fun r => nd_list (deref h r)) l)) h
|}.
End Store.

Notation "a + b" := (lift2 np_add a b) : np_scope.
Notation "a - b" := (lift2 np_sub a b) : np_scope.
Notation "a * b" := (lift2 np_mul a b) : np_scope.
Notation "a / b" := (lift2 np_div a b) : np_scope.
Notation "- a" := (lift1 np_neg a) : np_scope.
Notation "$ x" := (var x) (at level 1, x at level 0, format "$ x") : np_scope.
Notation "a .[ k ]" := (item a k) (at level 1, format "a .[ k ]") : np_scope.
Notation "a .[ i ,: ]" := (row a i) (at level 1, format "a .[ i ,: ]") : np_scope.

(** ** The plasticity variant: naskar2021.py *)

Module Naskar2021.

(** Indices into the parameter table, as the module declares them. *)
Definition t_glu := 0.
Definition t_gaba := 1.
Definition We := 2.
Definition Wi := 3.
Definition I0 := 4.
Definition w := 5.
Definition J_NMDA := 6.
Definition M_e := 7.
Definition ae := 8.
Definition be := 9.
Definition de := 10.
Definition M_i := 11.
Definition ai := 12.
Definition bi := 13.
Definition di := 14.
Definition alfa_i := 15.
Definition alfa_e := 16.
Definition B_e := 17.
Definition B_i := 18.
Definition gamma := 19.
Definition rho := 20.

Definition n_params := 21.
Definition n_state_vars := 3.        (* S_e, S_i, J *)
Definition n_observable_vars := 2.   (* Ie, re *)

(** The local variables of one call of [Naskar2021_dfun]; [y] is assigned
    twice in the source, [ye] and [yi] are its two values. *)
Record locals (arr : Type) := {
  Se : arr; Si : arr; J : arr;
  Ie : arr; Ii : arr;
  ye : arr; re : arr;
  yi : arr; ri : arr;
  dSe : arr; dSi : arr; dJ : arr
}.

Section Model.
Context {F : Type} {M : Type -> Type} {arr arr2 : Type}.
Context {FL : Float64 F} {NP : NumPy F M arr arr2}.
Local Open Scope np_scope.

Definition initial_state (n_rois : nat) : list (list F) :=
  [repeat lit_0_001 n_rois; repeat lit_0_001 n_rois; repeat lit_1 n_rois].

Definition initial_observed (n_rois : nat) : list (list F) :=
  [repeat lit_0 n_rois; repeat lit_0 n_rois].

(** [addr] is the address of the table [self.m]; the dfun reads it through
    [nb.carray(addr, (n_params,))], a one-dimensional view of the first
    [n_params] elements of that memory. *)
Definition body (addr state coupling : arr2) : M (locals arr) :=
  let m := nb_carray addr n_params in
  Se <- clip state.[0,:] lit_0 lit_1 ;;
  Si <- clip state.[1,:] lit_0 lit_1 ;;
  J <- state.[2,:] ;;
  Ie <- m.[We] * m.[I0] + m.[w] * m.[J_NMDA] * $Se
          + m.[J_NMDA] * coupling.[0,:] - $J * $Si ;;
  Ii <- m.[Wi] * m.[I0] + m.[J_NMDA] * $Se - $Si ;;
  ye <- m.[M_e] * (m.[ae] * $Ie - m.[be]) ;;
  re <- $ye / (lit lit_1 - npexp (- m.[de] * $ye)) ;;
  yi <- m.[M_i] * (m.[ai] * $Ii - m.[bi]) ;;
  ri <- $yi / (lit lit_1 - npexp (- m.[di] * $yi)) ;;
  dSe <- - $Se * m.[B_e]
           + m.[alfa_e] * m.[t_glu] * (lit lit_1 - $Se) * $re / lit lit_1000 ;;
  dSi <- - $Si * m.[B_i]
           + m.[alfa_i] * m.[t_gaba] * (lit lit_1 - $Si) * $ri / lit lit_1000 ;;
  dJ <- m.[gamma] * $ri / lit lit_1000 * ($re - m.[rho]) / lit lit_1000 ;;
  mret {| Se := Se; Si := Si; J := J; Ie := Ie; Ii := Ii;
          ye := ye; re := re; yi := yi; ri := ri;
          dSe := dSe; dSi := dSi; dJ := dJ |}.

Definition Naskar2021_dfun (addr state coupling : arr2) : M (arr2 * arr2) :=
  l <- body addr state coupling ;;
  d <- stack [$(dSe l); $(dSi l); $(dJ l)] ;;
  o <- stack [$(Ie l); $(re l)] ;;
  mret (d, o).
End Model.

End Naskar2021.

(** ** The fixed-gain variant: serotonin2A.py *)

Module Deco2018.

(** [self.P], the row of each parameter in the table [self.m]; the base
    class that numbers the rows is not part of the sources, so the
    numbering is a parameter of the model. *)
Record P_index := {
  taon : nat; taog : nat; gamma_e : nat; gamma_i : nat;
  I0 : nat; w : nat; J_NMDA : nat; Jext_e : nat; Jext_i : nat;
  ae : nat; be : nat; de : nat; ai : nat; bi : nat; di : nat;
  J : nat; I_external : nat;
  receptor : nat; w_gain_e : nat; w_gain_i : nat
}.

Definition n_state_vars := 2.        (* S_e, S_i *)
Definition n_observable_vars := 2.   (* Ie, re *)

Record locals (arr : Type) := {
  Se : arr; Si : arr;
  Ie : arr; Ii : arr;
  ye : arr; re : arr;
  yi : arr; ri : arr;
  dSe : arr; dSi : arr
}.

Section Model.
Context {F : Type} {M : Type -> Type} {arr arr2 : Type}.
Context {FL : Float64 F} {NP : NumPy F M arr arr2}.
Variable P : P_index.
Local Open Scope np_scope.

Definition initial_state (n_rois : nat) : list (list F) :=
  [repeat lit_0_001 n_rois; repeat lit_0_001 n_rois].

Definition initial_observed (n_rois : nat) : list (list F) :=
  [repeat lit_0 n_rois; repeat lit_0 n_rois].

(** [m] is the dfun's own copy of the table; [m[np.intp(P.x)]] is the
    row of parameter [x]. *)
Definition body (m state coupling : arr2) : M (locals arr) :=
  Se <- clip state.[0,:] lit_0 lit_1 ;;
  Si <- clip state.[1,:] lit_0 lit_1 ;;
  Ie <- m.[Jext_e P,:] * m.[I0 P,:] + m.[w P,:] * m.[J_NMDA P,:] * $Se
          + m.[J_NMDA P,:] * coupling.[0,:] - m.[J P,:] * $Si
          + m.[I_external P,:] ;;
  Ii <- m.[Jext_i P,:] * m.[I0 P,:] + m.[J_NMDA P,:] * $Se - $Si ;;
  ye <- (m.[ae P,:] * $Ie - m.[be P,:])
          * (lit lit_1 + m.[receptor P,:] * m.[w_gain_e P,:]) ;;
  re <- $ye / (lit lit_1 - npexp (- m.[de P,:] * $ye)) ;;
  yi <- (m.[ai P,:] * $Ii - m.[bi P,:])
          * (lit lit_1 + m.[receptor P,:] * m.[w_gain_i P,:]) ;;
  ri <- $yi / (lit lit_1 - npexp (- m.[di P,:] * $yi)) ;;
  dSe <- - $Se / m.[taon P,:]
           + m.[gamma_e P,:] * (lit lit_1 - $Se) * $re / lit lit_1000 ;;
  dSi <- - $Si / m.[taog P,:] + m.[gamma_i P,:] * $ri / lit lit_1000 ;;
  mret {| Se := Se; Si := Si; Ie := Ie; Ii := Ii;
          ye := ye; re := re; yi := yi; ri := ri;
          dSe := dSe; dSi := dSi |}.

Definition Deco2018_dfun (m state coupling : arr2) : M (arr2 * arr2) :=
  l <- body m state coupling ;;
  d <- stack [$(dSe l); $(dSi l)] ;;
  o <- stack [$(Ie l); $(re l)] ;;
  mret (d, o).

(** The same computation with the receptor terms removed: the
    comparison point of the specification's "gain modulation is a
    no-op at zero". *)
Definition body_no_receptor (m state coupling : arr2) : M (locals arr) :=
  Se <- clip state.[0,:] lit_0 lit_1 ;;
  Si <- clip state.[1,:] lit_0 lit_1 ;;
  Ie <- m.[Jext_e P,:] * m.[I0 P,:] + m.[w P,:] * m.[J_NMDA P,:] * $Se
          + m.[J_NMDA P,:] * coupling.[0,:] - m.[J P,:] * $Si
          + m.[I_external P,:] ;;
  Ii <- m.[Jext_i P,:] * m.[I0 P,:] + m.[J_NMDA P,:] * $Se - $Si ;;
  ye <- m.[ae P,:] * $Ie - m.[be P,:] ;;
  re <- $ye / (lit lit_1 - npexp (- m.[de P,:] * $ye)) ;;
  yi <- m.[ai P,:] * $Ii - m.[bi P,:] ;;
  ri <- $yi / (lit lit_1 - npexp (- m.[di P,:] * $yi)) ;;
  dSe <- - $Se / m.[taon P,:]
           + m.[gamma_e P,:] * (lit lit_1 - $Se) * $re / lit lit_1000 ;;
  dSi <- - $Si / m.[taog P,:] + m.[gamma_i P,:] * $ri / lit lit_1000 ;;
  mret {| Se := Se; Si := Si; Ie := Ie; Ii := Ii;
          ye := ye; re := re; yi := yi; ri := ri;
          dSe := dSe; dSi := dSi |}.

Definition dfun_no_receptor (m state coupling : arr2) : M (arr2 * arr2) :=
  l <- body_no_receptor m state coupling ;;
  d <- stack [$(dSe l); $(dSi l)] ;;
  o <- stack [$(Ie l); $(re l)] ;;
  mret (d, o).
End Model.

End Deco2018.

(** * Properties *)

(** ** Initial state and observables *)

Section InitialState.
Context {F : Type} {FL : Float64 F}.

Definition shape2 (a : list (list F)) (rows cols : nat) : Prop :=
  List.length a = rows /\ Forall (fun r => List.length r = cols) a.

Lemma repeat_shape (x : F) (n : nat) : List.length (repeat x n) = n.
Proof. apply repeat_length. Qed.

Lemma nth_repeat_lt (x d : F) (n i : nat) : i < n -> nth i (repeat x n) d = x.
Proof.
  revert i; induction n as [|n IH]; intros [|i] Hi; simpl; try lia; auto.
  apply IH; lia.
Qed.
End InitialState.

(** ** The store reading: every call only allocates *)

Section Frame.
Context {F : Type} {FL : Float64 F}.

Definition extends (h h' : store F) : Prop := exists k, h' = h ++ k.

(** A computation that leaves every array of the store it starts from as
    it is. *)
Definition grows {A : Type} (c : State F A) : Prop :=
  forall h, extends h (fst (c h)).

Lemma extends_refl h : extends h h.
Proof. exists []; now rewrite app_nil_r. Qed.

Lemma extends_trans h1 h2 h3 : extends h1 h2 -> extends h2 h3 -> extends h1 h3.
Proof. intros [k1 ->] [k2 ->]. exists (k1 ++ k2). now rewrite app_assoc. Qed.

Lemma extends_lookup h h' l :
  extends h h' -> l < List.length h -> nth_error h' l = nth_error h l.
Proof. intros [k ->] Hl. now apply nth_error_app1. Qed.

Lemma grows_ret A (x : A) : grows (mret (NumPy := NumPy_store) x).
Proof. intro h; apply extends_refl. Qed.

Lemma grows_bind A B (c : State F A) (k : A -> State F B) :
  grows c -> (forall x, grows (k x)) -> grows (mbind (NumPy := NumPy_store) c k).
Proof.
  intros Hc Hk h. simpl. specialize (Hc h).
  destruct (c h) as [h1 x]; simpl in *.
  eapply extends_trans; [exact Hc | apply Hk].
Qed.

Lemma grows_alloc c : grows (alloc c).
Proof. intro h; simpl. now exists [c]. Qed.

Lemma grows_fresh a : grows (fresh a).
Proof.
  destruct a as [x|v]; intro h; simpl.
  - apply extends_refl.
  - now exists [Cell1 v].
Qed.

Lemma grows_unop f a : grows (unop f a).
Proof. intro h; unfold unop; apply grows_fresh. Qed.

Lemma grows_binop f a b : grows (binop f a b).
Proof. intro h; unfold binop; apply grows_fresh. Qed.

Lemma grows_item a k : grows (np_item (NumPy := NumPy_store) a k).
Proof. intro h; apply extends_refl. Qed.

Lemma grows_np_stack l : grows (np_stack (NumPy := NumPy_store) l).
Proof. intro h; simpl. eexists; reflexivity. Qed.

Lemma grows_lift1 op a :
  (forall x, grows (op x)) -> grows a -> grows (lift1 (NP := NumPy_store) op a).
Proof. intros Hop Ha; apply grows_bind; auto. Qed.

Lemma grows_lift2 op a b :
  (forall x y, grows (op x y)) -> grows a -> grows b ->
  grows (lift2 (NP := NumPy_store) op a b).
Proof.
  intros Hop Ha Hb; apply grows_bind; auto.
  intro x; apply grows_bind; auto.
Qed.

Lemma grows_stack_args l :
  Forall grows l -> grows (stack_args (NP := NumPy_store) l).
Proof.
  induction 1 as [|c l Hc _ IH]; simpl stack_args.
  - apply grows_ret.
  - apply grows_bind; auto. intro x.
    apply grows_bind; auto. intro xs. apply grows_ret.
Qed.

Lemma grows_stack l : Forall grows l -> grows (stack (NP := NumPy_store) l).
Proof.
  intro H; apply grows_bind.
  - now apply grows_stack_args.
  - apply grows_np_stack.
Qed.
End Frame.

Ltac frame_step :=
  first
    [ apply grows_ret
    | apply grows_item
    | apply grows_lift2; [intros ? ?; apply grows_binop | | ]
    | apply grows_lift1; [intros ?; apply grows_unop | ]
    | apply grows_stack; repeat constructor
    | apply grows_bind; [ | intros ? ]
    | apply grows_unop
    | apply grows_binop ].

Ltac frame := repeat frame_step.

Section FrameDfun.
Context {F : Type} {FL : Float64 F}.

Lemma Naskar2021_body_grows addr state coupling :
  grows (Naskar2021.body (NP := NumPy_store) addr state coupling).
Proof.
  unfold Naskar2021.body, clip, npexp, row, item, lit, var. frame.
Qed.

Lemma Naskar2021_dfun_grows addr state coupling :
  grows (Naskar2021.Naskar2021_dfun (NP := NumPy_store) addr state coupling).
Proof.
  unfold Naskar2021.Naskar2021_dfun.
  apply grows_bind; [apply Naskar2021_body_grows | intro l].
  unfold var. frame.
Qed.

Lemma Deco2018_body_grows P m state coupling :
  grows (Deco2018.body (NP := NumPy_store) P m state coupling).
Proof.
  unfold Deco2018.body, clip, npexp, row, item, lit, var. frame.
Qed.

Lemma Deco2018_dfun_grows P m state coupling :
  grows (Deco2018.Deco2018_dfun (NP := NumPy_store) P m state coupling).
Proof.
  unfold Deco2018.Deco2018_dfun.
  apply grows_bind; [apply Deco2018_body_grows | intro l].
  unfold var. frame.
Qed.
End FrameDfun.

(** ** The value reading, region by region *)

Section Pointwise.
Context {F : Type}.

(** Region [i] exists in operand [a]; a scalar broadcasts to any region. *)
Definition in_range (i : nat) (a : nd F) : Prop :=
  match a with
  | Scalar _ => True
  | Vec v => i < List.length v
  end.

Lemma map2_length (f : F -> F -> F) u v :
  List.length (map2 f u v) = Nat.min (List.length u) (List.length v).
Proof.
  revert v; induction u as [|a u IH]; intros [|b v]; simpl; auto.
Qed.

Lemma nth_map2 (f : F -> F -> F) u v d i :
  i < List.length u -> i < List.length v ->
  nth i (map2 f u v) d = f (nth i u d) (nth i v d).
Proof.
  revert v i; induction u as [|a u IH]; intros [|b v] [|i]; simpl;
    intros Hu Hv; try lia; auto.
  apply IH; lia.
Qed.

Lemma nth_map_lt (f : F -> F) v d i :
  i < List.length v -> nth i (map f v) d = f (nth i v d).
Proof.
  revert i; induction v as [|a v IH]; intros [|i]; simpl; intro H;
    try lia; auto.
  apply IH; lia.
Qed.

Lemma in_range_map f i (a : nd F) : in_range i a -> in_range i (nd_map f a).
Proof. destruct a; simpl; auto. now rewrite length_map. Qed.

Lemma in_range_map2 f i (a b : nd F) :
  in_range i a -> in_range i b -> in_range i (nd_map2 f a b).
Proof.
  destruct a, b; simpl; auto; rewrite ?length_map, ?map2_length; auto.
  intros; lia.
Qed.

Lemma get_map f d i (a : nd F) :
  in_range i a -> nd_get d i (nd_map f a) = f (nd_get d i a).
Proof. destruct a; simpl; auto. apply nth_map_lt. Qed.

Lemma get_map2 f d i (a b : nd F) :
  in_range i a -> in_range i b ->
  nd_get d i (nd_map2 f a b) = f (nd_get d i a) (nd_get d i b).
Proof.
  destruct a, b; simpl; auto; intros Ha Hb.
  - now apply (nth_map_lt (f x)).
  - now apply (nth_map_lt (fun x0 => f x0 x)).
  - now apply nth_map2.
Qed.

Lemma get_scalar d i (x : F) : nd_get d i (Scalar x) = x.
Proof. reflexivity. Qed.

Lemma in_range_row i (a : list (list F)) k :
  i < List.length (nth k a []) -> in_range i (Vec (nth k a [])).
Proof. auto. Qed.

Lemma in_range_scalar i (x : F) : in_range i (Scalar x).
Proof. exact I. Qed.
End Pointwise.

Create HintDb nd discriminated.
#[export] Hint Resolve in_range_map in_range_map2 in_range_row in_range_scalar : nd.

Ltac pointwise :=
  repeat first
    [ rewrite get_map2 by auto 40 with nd
    | rewrite get_map by auto 40 with nd
    | rewrite get_scalar ].

Arguments nd_map : simpl never.
Arguments nd_map2 : simpl never.
Arguments nd_get : simpl never.
Arguments flat_view : simpl never.
Arguments nth : simpl never.

Section NaskarValues.
Context {F : Type} {FL : Float64 F}.
Variables addr state coupling : list (list F).

(** The local variables of the call, as array values. *)
Definition Naskar_locals : Naskar2021.locals (nd F) :=
  Naskar2021.body (NP := NumPy_values) addr state coupling.

(** [m[k]] as the dfun reads it. *)
Definition Naskar_m (k : nat) : F :=
  nd_get lit_0 k (Vec (flat_view addr Naskar2021.n_params)).

(** Lines 166 and 168 on one element. *)
Definition rate (y d : F) : F :=
  fdiv y (fsub lit_1 (fexp (fmul (fneg d) y))).

(** State and coupling rows have a column for region [i]. *)
Definition Naskar_region (i : nat) : Prop :=
  i < List.length (nth 0 state []) /\ i < List.length (nth 1 state []) /\
  i < List.length (nth 2 state []) /\ i < List.length (nth 0 coupling []).

Let l := Naskar_locals.

Lemma Naskar_ye_in_range i : Naskar_region i -> in_range i (Naskar2021.ye l).
Proof. intros (H0 & H1 & H2 & Hc). cbn. auto 60 with nd. Qed.

Lemma Naskar_yi_in_range i : Naskar_region i -> in_range i (Naskar2021.yi l).
Proof. intros (H0 & H1 & H2 & Hc). cbn. auto 60 with nd. Qed.

Lemma Naskar_re_rate i :
  in_range i (Naskar2021.ye l) ->
  nd_get lit_0 i (Naskar2021.re l)
  = rate (nd_get lit_0 i (Naskar2021.ye l)) (Naskar_m Naskar2021.de).
Proof.
  intro H.
  change (Naskar2021.re l) with
    (nd_map2 fdiv (Naskar2021.ye l)
       (nd_map2 fsub (Scalar lit_1)
          (nd_map fexp
             (nd_map2 fmul (nd_map fneg (Scalar (Naskar_m Naskar2021.de)))
                (Naskar2021.ye l))))).
  pointwise. reflexivity.
Qed.

Lemma Naskar_ri_rate i :
  in_range i (Naskar2021.yi l) ->
  nd_get lit_0 i (Naskar2021.ri l)
  = rate (nd_get lit_0 i (Naskar2021.yi l)) (Naskar_m Naskar2021.di).
Proof.
  intro H.
  change (Naskar2021.ri l) with
    (nd_map2 fdiv (Naskar2021.yi l)
       (nd_map2 fsub (Scalar lit_1)
          (nd_map fexp
             (nd_map2 fmul (nd_map fneg (Scalar (Naskar_m Naskar2021.di)))
                (Naskar2021.yi l))))).
  pointwise. reflexivity.
Qed.

Lemma Naskar_re_in_range i : Naskar_region i -> in_range i (Naskar2021.re l).
Proof. intros (H0 & H1 & H2 & Hc). cbn. auto 80 with nd. Qed.

Lemma Naskar_ri_in_range i : Naskar_region i -> in_range i (Naskar2021.ri l).
Proof. intros (H0 & H1 & H2 & Hc). cbn. auto 80 with nd. Qed.

Lemma Naskar_dJ_pointwise i :
  Naskar_region i ->
  nd_get lit_0 i (Naskar2021.dJ l)
  = fdiv (fmul (fdiv (fmul (Naskar_m Naskar2021.gamma)
                            (nd_get lit_0 i (Naskar2021.ri l)))
                      lit_1000)
               (fsub (nd_get lit_0 i (Naskar2021.re l))
                     (Naskar_m Naskar2021.rho)))
         lit_1000.
Proof.
  intro H.
  pose proof (Naskar_re_in_range H) as Hre.
  pose proof (Naskar_ri_in_range H) as Hri.
  change (Naskar2021.dJ l) with
    (nd_map2 fdiv
       (nd_map2 fmul
          (nd_map2 fdiv
             (nd_map2 fmul (Scalar (Naskar_m Naskar2021.gamma)) (Naskar2021.ri l))
             (Scalar lit_1000))
          (nd_map2 fsub (Naskar2021.re l) (Scalar (Naskar_m Naskar2021.rho))))
       (Scalar lit_1000)).
  pointwise. reflexivity.
Qed.

(** The rows that [np.stack] returns are the locals. *)
Lemma Naskar_dfun_rows :
  Naskar2021.Naskar2021_dfun (NP := NumPy_values) addr state coupling
  = ([nd_list (Naskar2021.dSe l); nd_list (Naskar2021.dSi l);
      nd_list (Naskar2021.dJ l)],
     [nd_list (Naskar2021.Ie l); nd_list (Naskar2021.re l)]).
Proof. reflexivity. Qed.
End NaskarValues.

Declare Scope f64_scope.
Delimit Scope f64_scope with f64.
Notation "x + y" := (fadd x y) : f64_scope.
Notation "x - y" := (fsub x y) : f64_scope.
Notation "x * y" := (fmul x y) : f64_scope.
Notation "x / y" := (fdiv x y) : f64_scope.
Notation "- x" := (fneg x) : f64_scope.

Section Rows.
Context {F : Type}.

Definition is_vec (a : nd F) : Prop :=
  match a with
  | Scalar _ => False
  | Vec _ => True
  end.

Lemma is_vec_row (a : list (list F)) k : is_vec (Vec (nth k a [])).
Proof. exact I. Qed.

Lemma is_vec_map f (a : nd F) : is_vec a -> is_vec (nd_map f a).
Proof. now destruct a. Qed.

Lemma is_vec_map2_l f (a b : nd F) : is_vec a -> is_vec (nd_map2 f a b).
Proof. now destruct a, b. Qed.

Lemma is_vec_map2_r f (a b : nd F) : is_vec b -> is_vec (nd_map2 f a b).
Proof. now destruct a, b. Qed.

Lemma nth_nd_list d i (a : nd F) :
  is_vec a -> nth i (nd_list a) d = nd_get d i a.
Proof. now destruct a. Qed.
End Rows.

#[export] Hint Resolve is_vec_row is_vec_map is_vec_map2_l is_vec_map2_r : nd.

Section NaskarRows.
Context {F : Type} {FL : Float64 F}.
Variables addr state coupling : list (list F).
Let l := Naskar_locals addr state coupling.

Lemma Naskar_re_is_vec : is_vec (Naskar2021.re l).
Proof. cbn. auto 80 with nd. Qed.

Lemma Naskar_dJ_is_vec : is_vec (Naskar2021.dJ l).
Proof. cbn. auto 80 with nd. Qed.

Lemma Naskar_ri_is_vec : is_vec (Naskar2021.ri l).
Proof. cbn. auto 80 with nd. Qed.
End NaskarRows.

(** The default attribute values of [class Naskar2021], one per row of the
    table in the order of the indices, for one region. *)
Definition Naskar_defaults_R : list (list R) :=
  map (fun x => [x])
    [7.46; 1.82; 1; 0.7; 0.382; 1.4; 0.15; 1; 310; 125; 0.16;
     1; 615; 177; 0.087; 0.53; 0.072; 0.0066; 0.18; 1; 3]%R.

Definition Naskar_defaults_64 : list (list float) :=
  map (fun x => [x])
    [7.46; 1.82; 1; 0.7; 0.382; 1.4; 0.15; 1; 310; 125; 0.16;
     1; 615; 177; 0.087; 0.53; 0.072; 0.0066; 0.18; 1; 3]%float.

Lemma clip_R_inside (x : R) : (0 <= x <= 1)%R -> fclip x lit_0 lit_1 = x.
Proof.
  intros [H0 H1]; simpl. rewrite Rmax_left by lra. now rewrite Rmin_left by lra.
Qed.

Lemma rate_R_nonzero (y d : R) : (y < 0)%R -> (0 < d)%R -> rate y d <> 0%R.
Proof.
  intros Hy Hd. unfold rate; simpl.
  assert (1 < exp (- d * y))%R as He.
  { rewrite <- exp_0. apply exp_increasing. nra. }
  intro H. apply Rmult_integral in H. destruct H as [H|H]; [lra|].
  assert (1 - exp (- d * y) <> 0)%R by lra.
  now apply Rinv_neq_0_compat in H0.
Qed.


(** ** The table as the dfun sees it

    [self.m] has one row per parameter and one column per region; the dfun
    of the plasticity variant reads it through a flat view of its memory. *)

Section FlatView.
Context {F : Type} {FL : Float64 F}.

(** [self.m[k][i]]: parameter [k] of region [i], as the table holds it. *)
Definition Naskar_param (table : list (list F)) (k i : nat) : F :=
  nth i (nth k table []) lit_0.

Lemma nth_concat_rect {A : Type} (a : list (list A)) (n k : nat) (d : A) :
  Forall (fun r => List.length r = n) a -> 0 < n ->
  nth k (concat a) d = nth (k mod n) (nth (k / n) a []) d.
Proof.
  intros Ha Hn. revert k. induction Ha as [|r a Hr Ha IH]; intro k.
  - cbn [concat]. destruct (k / n); destruct k; destruct (_ mod n); reflexivity.
  - cbn [concat]. destruct (Nat.lt_ge_cases k n) as [Hk | Hk].
    + rewrite app_nth1 by lia.
      rewrite Nat.div_small, Nat.mod_small by assumption. reflexivity.
    + rewrite app_nth2 by lia. rewrite Hr, IH.
      assert (Hq : k / n = S ((k - n) / n)).
      { replace k with ((k - n) + 1 * n) at 1 by lia.
        rewrite Nat.div_add by lia. lia. }
      assert (Hm : k mod n = (k - n) mod n).
      { replace k with ((k - n) + 1 * n) at 1 by lia.
        now rewrite Nat.Div0.mod_add. }
      rewrite Hq, Hm. reflexivity.
Qed.

Lemma Naskar_flat_index (table : list (list F)) (n_rois k : nat) :
  Forall (fun r => List.length r = n_rois) table -> 0 < n_rois ->
  k < Naskar2021.n_params ->
  Naskar_m table k = nth (k mod n_rois) (nth (k / n_rois) table []) lit_0.
Proof.
  intros Ht Hn Hk. unfold Naskar_m, flat_view.
  change (nd_get lit_0 k (Vec ?v)) with (nth k v lit_0).
  assert (Hf : nth k (firstn Naskar2021.n_params (concat table)) lit_0
               = nth k (concat table) lit_0).
  { revert Hk. generalize Naskar2021.n_params (concat table). clear.
    intros p l. revert l k. induction p as [|p IH]; intros [|x l] [|k] H;
      try lia; try reflexivity.
    cbn [firstn]. change (nth k (firstn p l) lit_0 = nth k l lit_0).
    apply IH. lia. }
  rewrite Hf. now apply nth_concat_rect.
Qed.

(** With one region the flat view and the rows coincide: [m[k]] is
    parameter [k] of that region. *)
Lemma Naskar_m_one_region (table : list (list F)) (k : nat) :
  shape2 table Naskar2021.n_params 1 -> k < Naskar2021.n_params ->
  Naskar_m table k = Naskar_param table k 0.
Proof.
  intros [_ Hrows] Hk.
  rewrite (@Naskar_flat_index table 1 k Hrows Nat.lt_0_1 Hk).
  now rewrite Nat.mod_1_r, Nat.div_1_r.
Qed.
End FlatView.

(** ** The plasticity derivative (C3) *)

Lemma Naskar_dJ_row_eq {F : Type} {FL : Float64 F}
  (addr state coupling : list (list F)) (i : nat) :
  Naskar_region state coupling i ->
  nth i (nth 2 (fst (Naskar2021.Naskar2021_dfun (NP := NumPy_values)
                       addr state coupling)) []) lit_0
  = (Naskar_m addr Naskar2021.gamma
     * nd_get lit_0 i (Naskar2021.ri (Naskar_locals addr state coupling))
     / lit_1000
     * (nth i (nth 1 (snd (Naskar2021.Naskar2021_dfun (NP := NumPy_values)
                             addr state coupling)) []) lit_0
        - Naskar_m addr Naskar2021.rho) / lit_1000)%f64.
Proof.
  intros H.
  change (nth i (nd_list (Naskar2021.dJ (Naskar_locals addr state coupling))) lit_0
          = (Naskar_m addr Naskar2021.gamma
             * nd_get lit_0 i (Naskar2021.ri (Naskar_locals addr state coupling))
             / lit_1000
             * (nth i (nd_list (Naskar2021.re (Naskar_locals addr state coupling))) lit_0
                - Naskar_m addr Naskar2021.rho) / lit_1000)%f64).
  rewrite (@nth_nd_list _ lit_0 i _ (Naskar_dJ_is_vec addr state coupling)).
  rewrite (@nth_nd_list _ lit_0 i _ (Naskar_re_is_vec addr state coupling)).
  now apply Naskar_dJ_pointwise.
Qed.

(** C3, as the code has it.  For every table of one region and every state
    and coupling input, the third row of the derivative that
    [Naskar2021_dfun] returns for that region is
    [gamma * ri / 1000 * (re - rho) / 1000], where [re] is the firing-rate
    row of the observables of the same call, [ri] the inhibitory rate of the
    same call, and [gamma], [rho] the gamma and rho rows of the parameter
    table: the division by 1000 applies to [re - rho], not to [re] alone. *)
Theorem Naskar2021_dJ_row {F : Type} {FL : Float64 F}
  (addr state coupling : list (list F)) :
  shape2 addr Naskar2021.n_params 1 ->
  Naskar_region state coupling 0 ->
  let out := Naskar2021.Naskar2021_dfun (NP := NumPy_values) addr state coupling in
  let r_e := nth 0 (nth 1 (snd out) []) lit_0 in
  let r_i := nd_get lit_0 0 (Naskar2021.ri (Naskar_locals addr state coupling)) in
  let gamma := Naskar_param addr Naskar2021.gamma 0 in
  let rho := Naskar_param addr Naskar2021.rho 0 in
  nth 0 (nth 2 (fst out) []) lit_0
  = (gamma * r_i / lit_1000 * (r_e - rho) / lit_1000)%f64.
Proof.
  intros Ht H out r_e r_i gamma rho. unfold out, r_e, r_i, gamma, rho.
  rewrite (Naskar_dJ_row_eq addr H).
  rewrite (Naskar_m_one_region (k := Naskar2021.gamma) Ht)
    by (unfold Naskar2021.gamma, Naskar2021.n_params; lia).
  rewrite (Naskar_m_one_region (k := Naskar2021.rho) Ht)
    by (unfold Naskar2021.rho, Naskar2021.n_params; lia).
  reflexivity.
Qed.

Definition state_R_initial : list (list R) := Naskar2021.initial_state 1.
Definition coupling_R_zero : list (list R) := [[0%R]].

Lemma Naskar_region_initial : Naskar_region state_R_initial coupling_R_zero 0.
Proof.
  unfold Naskar_region; cbv [state_R_initial coupling_R_zero Naskar2021.initial_state
    nth repeat List.length]; repeat split; apply Nat.lt_0_1.
Defined.

Lemma Naskar_defaults_R_shape : shape2 Naskar_defaults_R Naskar2021.n_params 1.
Proof. split; [reflexivity | repeat constructor]. Defined.

Lemma Naskar2021_dJ_row_witness :
  let out := Naskar2021.Naskar2021_dfun (NP := NumPy_values)
               Naskar_defaults_R state_R_initial coupling_R_zero in
  let r_e := nth 0 (nth 1 (snd out) []) lit_0 in
  let r_i := nd_get lit_0 0 (Naskar2021.ri
               (Naskar_locals Naskar_defaults_R state_R_initial coupling_R_zero)) in
  let gamma := Naskar_param Naskar_defaults_R Naskar2021.gamma 0 in
  let rho := Naskar_param Naskar_defaults_R Naskar2021.rho 0 in
  nth 0 (nth 2 (fst out) []) lit_0
  = (gamma * r_i / lit_1000 * (r_e - rho) / lit_1000)%f64.
Proof.
  apply (@Naskar2021_dJ_row R _ Naskar_defaults_R state_R_initial coupling_R_zero).
  - exact Naskar_defaults_R_shape.
  - exact Naskar_region_initial.
Defined.

(** The remaining locals of the plasticity variant, region by region. *)
Section NaskarLocals.
Context {F : Type} {FL : Float64 F}.
Variables addr state coupling : list (list F).
Let l := Naskar_locals addr state coupling.
Let m := Naskar_m addr.
Local Open Scope f64_scope.

Lemma Naskar_Se_pointwise i :
  Naskar_region state coupling i ->
  nd_get lit_0 i (Naskar2021.Se l)
  = fclip (nth i (nth 0 state []) lit_0) lit_0 lit_1.
Proof.
  intros (H0 & H1 & H2 & Hc).
  change (Naskar2021.Se l) with
    (nd_map (fun x => fclip x lit_0 lit_1) (Vec (nth 0 state []))).
  pointwise. reflexivity.
Qed.

Lemma Naskar_Si_pointwise i :
  Naskar_region state coupling i ->
  nd_get lit_0 i (Naskar2021.Si l)
  = fclip (nth i (nth 1 state []) lit_0) lit_0 lit_1.
Proof.
  intros (H0 & H1 & H2 & Hc).
  change (Naskar2021.Si l) with
    (nd_map (fun x => fclip x lit_0 lit_1) (Vec (nth 1 state []))).
  pointwise. reflexivity.
Qed.

Lemma Naskar_Se_in_range i :
  Naskar_region state coupling i -> in_range i (Naskar2021.Se l).
Proof. intros (H0 & H1 & H2 & Hc). cbn. auto 20 with nd. Qed.

Lemma Naskar_Si_in_range i :
  Naskar_region state coupling i -> in_range i (Naskar2021.Si l).
Proof. intros (H0 & H1 & H2 & Hc). cbn. auto 20 with nd. Qed.

Lemma Naskar_Ie_in_range i :
  Naskar_region state coupling i -> in_range i (Naskar2021.Ie l).
Proof. intros (H0 & H1 & H2 & Hc). cbn. auto 40 with nd. Qed.

Lemma Naskar_Ii_in_range i :
  Naskar_region state coupling i -> in_range i (Naskar2021.Ii l).
Proof. intros (H0 & H1 & H2 & Hc). cbn. auto 40 with nd. Qed.

Lemma Naskar_Ie_pointwise i :
  Naskar_region state coupling i ->
  nd_get lit_0 i (Naskar2021.Ie l)
  = m Naskar2021.We * m Naskar2021.I0
    + m Naskar2021.w * m Naskar2021.J_NMDA * nd_get lit_0 i (Naskar2021.Se l)
    + m Naskar2021.J_NMDA * nth i (nth 0 coupling []) lit_0
    - nth i (nth 2 state []) lit_0 * nd_get lit_0 i (Naskar2021.Si l).
Proof.
  intro H.
  pose proof (Naskar_Se_in_range H) as HSe.
  pose proof (Naskar_Si_in_range H) as HSi.
  destruct H as (H0 & H1 & H2 & Hc).
  change (Naskar2021.Ie l) with
    (nd_map2 fsub
       (nd_map2 fadd
          (nd_map2 fadd
             (nd_map2 fmul (Scalar (m Naskar2021.We)) (Scalar (m Naskar2021.I0)))
             (nd_map2 fmul
                (nd_map2 fmul (Scalar (m Naskar2021.w)) (Scalar (m Naskar2021.J_NMDA)))
                (Naskar2021.Se l)))
          (nd_map2 fmul (Scalar (m Naskar2021.J_NMDA)) (Vec (nth 0 coupling []))))
       (nd_map2 fmul (Vec (nth 2 state [])) (Naskar2021.Si l))).
  pointwise. reflexivity.
Qed.

Lemma Naskar_Ii_pointwise i :
  Naskar_region state coupling i ->
  nd_get lit_0 i (Naskar2021.Ii l)
  = m Naskar2021.Wi * m Naskar2021.I0
    + m Naskar2021.J_NMDA * nd_get lit_0 i (Naskar2021.Se l)
    - nd_get lit_0 i (Naskar2021.Si l).
Proof.
  intro H.
  pose proof (Naskar_Se_in_range H). pose proof (Naskar_Si_in_range H).
  change (Naskar2021.Ii l) with
    (nd_map2 fsub
       (nd_map2 fadd
          (nd_map2 fmul (Scalar (m Naskar2021.Wi)) (Scalar (m Naskar2021.I0)))
          (nd_map2 fmul (Scalar (m Naskar2021.J_NMDA)) (Naskar2021.Se l)))
       (Naskar2021.Si l)).
  pointwise. reflexivity.
Qed.

Lemma Naskar_ye_pointwise i :
  Naskar_region state coupling i ->
  nd_get lit_0 i (Naskar2021.ye l)
  = m Naskar2021.M_e
    * (m Naskar2021.ae * nd_get lit_0 i (Naskar2021.Ie l) - m Naskar2021.be).
Proof.
  intro H. pose proof (Naskar_Ie_in_range H).
  change (Naskar2021.ye l) with
    (nd_map2 fmul (Scalar (m Naskar2021.M_e))
       (nd_map2 fsub (nd_map2 fmul (Scalar (m Naskar2021.ae)) (Naskar2021.Ie l))
          (Scalar (m Naskar2021.be)))).
  pointwise. reflexivity.
Qed.

Lemma Naskar_yi_pointwise i :
  Naskar_region state coupling i ->
  nd_get lit_0 i (Naskar2021.yi l)
  = m Naskar2021.M_i
    * (m Naskar2021.ai * nd_get lit_0 i (Naskar2021.Ii l) - m Naskar2021.bi).
Proof.
  intro H. pose proof (Naskar_Ii_in_range H).
  change (Naskar2021.yi l) with
    (nd_map2 fmul (Scalar (m Naskar2021.M_i))
       (nd_map2 fsub (nd_map2 fmul (Scalar (m Naskar2021.ai)) (Naskar2021.Ii l))
          (Scalar (m Naskar2021.bi)))).
  pointwise. reflexivity.
Qed.
End NaskarLocals.

Lemma Naskar_default_ri_nonzero :
  nd_get lit_0 0 (Naskar2021.ri
     (Naskar_locals Naskar_defaults_R state_R_initial coupling_R_zero)) <> 0%R.
Proof.
  pose proof Naskar_region_initial as H.
  rewrite (Naskar_ri_rate (Naskar_yi_in_range Naskar_defaults_R H)).
  rewrite (Naskar_yi_pointwise Naskar_defaults_R H), (Naskar_Ii_pointwise Naskar_defaults_R H).
  rewrite (Naskar_Se_pointwise Naskar_defaults_R H), (Naskar_Si_pointwise Naskar_defaults_R H).
  change (nth 0 (nth 0 state_R_initial []) lit_0) with (1 / 1000)%R.
  change (nth 0 (nth 1 state_R_initial []) lit_0) with (1 / 1000)%R.
  rewrite clip_R_inside by lra.
  change (Naskar_m Naskar_defaults_R Naskar2021.M_i) with 1%R.
  change (Naskar_m Naskar_defaults_R Naskar2021.ai) with 615%R.
  change (Naskar_m Naskar_defaults_R Naskar2021.bi) with 177%R.
  change (Naskar_m Naskar_defaults_R Naskar2021.Wi) with 0.7%R.
  change (Naskar_m Naskar_defaults_R Naskar2021.I0) with 0.382%R.
  change (Naskar_m Naskar_defaults_R Naskar2021.J_NMDA) with 0.15%R.
  change (Naskar_m Naskar_defaults_R Naskar2021.di) with 0.087%R.
  apply rate_R_nonzero; simpl; lra.
Qed.

(** C3 as the specification words it fails: with the default parameters,
    one region at the initial state and no coupling input, the third
    derivative row differs from [gamma * (ri / 1000) * (re / 1000 - rho)],
    [gamma = 1] and [rho = 3] being the gamma and rho rows of the table. *)
Lemma Naskar2021_dJ_spec_formula_fails :
  let out := Naskar2021.Naskar2021_dfun (NP := NumPy_values)
               Naskar_defaults_R state_R_initial coupling_R_zero in
  let r_e := nth 0 (nth 1 (snd out) []) lit_0 in
  let r_i := nd_get lit_0 0 (Naskar2021.ri
               (Naskar_locals Naskar_defaults_R state_R_initial coupling_R_zero)) in
  let gamma := Naskar_param Naskar_defaults_R Naskar2021.gamma 0 in
  let rho := Naskar_param Naskar_defaults_R Naskar2021.rho 0 in
  nth 0 (nth 2 (fst out) []) lit_0
  <> (gamma * (r_i / 1000) * (r_e / 1000 - rho))%R.
Proof.
  intros out r_e r_i gamma rho Heq.
  change gamma with 1%R in Heq. change rho with 3%R in Heq.
  clear gamma rho.
  unfold out in Heq.
  rewrite (Naskar_dJ_row_eq Naskar_defaults_R Naskar_region_initial) in Heq.
  fold out in Heq. fold r_e r_i in Heq.
  change (Naskar_m Naskar_defaults_R Naskar2021.gamma) with 1%R in Heq.
  change (Naskar_m Naskar_defaults_R Naskar2021.rho) with 3%R in Heq.
  cbn [fmul fdiv fsub lit_1000 Float64_R] in Heq.
  apply Naskar_default_ri_nonzero. fold r_i.
  clearbody r_e r_i. clear out. nra.
Qed.

(** ** Initial state and observables (C10) *)

Section Factories.
Context {F : Type} {FL : Float64 F}.

(** Every element of row [k] of [a] is [x], and the row has [n] columns. *)
Definition row_is (a : list (list F)) (k n : nat) (x : F) : Prop :=
  List.length (nth k a []) = n /\ Forall (fun y => y = x) (nth k a []).

Lemma repeat_row_is (x : F) (n : nat) :
  List.length (repeat x n) = n /\ Forall (fun y => y = x) (repeat x n).
Proof.
  split; [apply repeat_length|].
  induction n; simpl; constructor; auto.
Qed.
End Factories.

(** C10.  For every region count [n] (in particular [n >= 1]) the
    initial-state factory of the plasticity variant returns 3 rows of [n]
    columns holding 0.001, 0.001 and 1.0, that of the fixed-gain variant
    2 rows of [n] columns holding 0.001, and the initial-observable factory
    of either variant 2 rows of [n] zeros. *)
Theorem initial_factories {F : Type} {FL : Float64 F} (n : nat) :
  let sN := Naskar2021.initial_state (F := F) n in
  let sD := Deco2018.initial_state (F := F) n in
  let oN := Naskar2021.initial_observed (F := F) n in
  let oD := Deco2018.initial_observed (F := F) n in
  (List.length sN = Naskar2021.n_state_vars
   /\ row_is sN 0 n lit_0_001 /\ row_is sN 1 n lit_0_001 /\ row_is sN 2 n lit_1)
  /\ (List.length sD = Deco2018.n_state_vars
      /\ row_is sD 0 n lit_0_001 /\ row_is sD 1 n lit_0_001)
  /\ (List.length oN = 2 /\ row_is oN 0 n lit_0 /\ row_is oN 1 n lit_0)
  /\ (List.length oD = 2 /\ row_is oD 0 n lit_0 /\ row_is oD 1 n lit_0).
Proof.
  intros sN sD oN oD. unfold row_is.
  repeat split; try reflexivity;
    first [ apply repeat_length | apply (proj2 (repeat_row_is _ n)) ].
Qed.

(** The literal 0.001 in the two readings of the arithmetic. *)
Lemma lit_0_001_R : lit_0_001 = 0.001%R.
Proof. simpl. lra. Qed.

Lemma lit_0_001_binary64 e :
  lit_0_001 (Float64 := Float64_binary64 e) = (1 / 1000)%float.
Proof. reflexivity. Qed.

(** ** The dfuns leave their inputs as they are (C6) *)

Section Unchanged.
Context {F : Type} {FL : Float64 F}.

(** The operand is an array that did not exist in store [h]. *)
Definition allocated_after (h : store F) (r : ref F) : Prop :=
  exists l, r = RArr l /\ List.length h <= l.

Lemma run_bind A B (c : State F A) (k : A -> State F B) h :
  mbind (NumPy := NumPy_store) c k h = k (snd (c h)) (fst (c h)).
Proof. simpl. now destruct (c h). Qed.

Lemma clip_row_allocates (a : loc) (k : nat) lo hi (h h' : store F) r :
  clip (NP := NumPy_store) (row a k) lo hi h = (h', r) ->
  r = RArr (List.length h) /\ h' = h ++ [Cell1 (map (fun x => fclip x lo hi) (nth k (cell2 h a) []))].
Proof.
  unfold clip, row. rewrite run_bind. cbn.
  unfold unop, fresh, deref, nd_map, alloc.
  intro E. inversion E. auto.
Qed.
End Unchanged.

Ltac bind_step :=
  match goal with
  | |- context [@mbind _ _ _ _ NumPy_store _ _ ?c ?k ?h] =>
      rewrite (run_bind c k h);
      let E := fresh "E" in
      destruct (c h) as [? ?] eqn:E; cbn [fst snd]
  end.

Section Unchanged2.
Context {F : Type} {FL : Float64 F}.

Lemma Naskar_clip_locals (h : store F) (addr state coupling : loc) :
  let l := snd (Naskar2021.body (NP := NumPy_store) addr state coupling h) in
  allocated_after h (Naskar2021.Se l) /\ allocated_after h (Naskar2021.Si l).
Proof.
  unfold Naskar2021.body. do 12 bind_step. cbn.
  apply clip_row_allocates in E as [-> ->].
  apply clip_row_allocates in E0 as [-> ->].
  split; eexists; split; try reflexivity; rewrite ?length_app; lia.
Qed.

Lemma Deco_clip_locals P (h : store F) (m state coupling : loc) :
  let l := snd (Deco2018.body (NP := NumPy_store) P m state coupling h) in
  allocated_after h (Deco2018.Se l) /\ allocated_after h (Deco2018.Si l).
Proof.
  unfold Deco2018.body. do 10 bind_step. cbn.
  apply clip_row_allocates in E as [-> ->].
  apply clip_row_allocates in E0 as [-> ->].
  split; eexists; split; try reflexivity; rewrite ?length_app; lia.
Qed.
End Unchanged2.

(** An example numbering of the rows of the fixed-gain table (the order in
    which the class declares its attributes), its default values for one
    region, and a store holding a table, a state and a coupling input. *)
Definition Deco_P_example : Deco2018.P_index := {|
  Deco2018.taon := 0; Deco2018.taog := 1; Deco2018.gamma_e := 2;
  Deco2018.gamma_i := 3; Deco2018.I0 := 4; Deco2018.w := 5;
  Deco2018.J_NMDA := 6; Deco2018.Jext_e := 7; Deco2018.Jext_i := 8;
  Deco2018.ae := 9; Deco2018.be := 10; Deco2018.de := 11;
  Deco2018.ai := 12; Deco2018.bi := 13; Deco2018.di := 14;
  Deco2018.J := 15; Deco2018.I_external := 16;
  Deco2018.receptor := 17; Deco2018.w_gain_e := 18; Deco2018.w_gain_i := 19
|}.

Definition Deco_defaults_64 : list (list float) :=
  map (fun x => [x])
    [100; 10; 0.641; 1; 0.382; 1.4; 0.15; 1; 0.7; 310; 125; 0.16;
     615; 177; 0.087; 1; 0; 0; 0; 0]%float.

Definition store_64_example : store float :=
  [Cell2 Naskar_defaults_64; Cell2 Deco_defaults_64;
   Cell2 [[0.001]; [0.001]; [1]]%float; Cell2 [[0]]%float].

(** C6.  In the store reading, for every store, table, state and coupling
    input that the store holds, a call of either dfun leaves the state array
    and the coupling array as they were, and the clipped [Se] and [Si] are
    arrays that the call itself allocated. *)
Theorem dfuns_leave_inputs_unchanged {F : Type} {FL : Float64 F}
  (P : Deco2018.P_index) (h : store F) (addr m state coupling : loc) :
  state < List.length h -> coupling < List.length h ->
  let hN := fst (Naskar2021.Naskar2021_dfun (NP := NumPy_store) addr state coupling h) in
  let hD := fst (Deco2018.Deco2018_dfun (NP := NumPy_store) P m state coupling h) in
  let lN := snd (Naskar2021.body (NP := NumPy_store) addr state coupling h) in
  let lD := snd (Deco2018.body (NP := NumPy_store) P m state coupling h) in
  (nth_error hN state = nth_error h state
   /\ nth_error hN coupling = nth_error h coupling)
  /\ (nth_error hD state = nth_error h state
      /\ nth_error hD coupling = nth_error h coupling)
  /\ (allocated_after h (Naskar2021.Se lN) /\ allocated_after h (Naskar2021.Si lN))
  /\ (allocated_after h (Deco2018.Se lD) /\ allocated_after h (Deco2018.Si lD)).
Proof.
  intros Hs Hc hN hD lN lD.
  pose proof (Naskar2021_dfun_grows addr state coupling h) as HN.
  pose proof (Deco2018_dfun_grows P m state coupling h) as HD.
  repeat split;
    try (apply extends_lookup; assumption);
    try apply Naskar_clip_locals; apply Deco_clip_locals.
Qed.

Lemma dfuns_leave_inputs_unchanged_witness :
  let FL := Float64_binary64 exp64 in
  let h := store_64_example in
  let hN := fst (Naskar2021.Naskar2021_dfun (NP := NumPy_store) 0 2 3 h) in
  let hD := fst (Deco2018.Deco2018_dfun (NP := NumPy_store) Deco_P_example 1 2 3 h) in
  let lN := snd (Naskar2021.body (NP := NumPy_store) 0 2 3 h) in
  let lD := snd (Deco2018.body (NP := NumPy_store) Deco_P_example 1 2 3 h) in
  (nth_error hN 2 = nth_error h 2 /\ nth_error hN 3 = nth_error h 3)
  /\ (nth_error hD 2 = nth_error h 2 /\ nth_error hD 3 = nth_error h 3)
  /\ (allocated_after h (Naskar2021.Se lN) /\ allocated_after h (Naskar2021.Si lN))
  /\ (allocated_after h (Deco2018.Se lD) /\ allocated_after h (Deco2018.Si lD)).
Proof.
  intros FL h.
  apply (@dfuns_leave_inputs_unchanged float FL Deco_P_example h 0 1 2 3);
    unfold h, store_64_example; simpl; lia.
Defined.

(** ** The rate at its removable singularity (C1) *)

Section Binary64.
Local Open Scope float_scope.

Lemma zero_cases (y : float) : (y =? 0) = true -> y = 0 \/ y = -0.
Proof.
  rewrite eqb_spec. intro H.
  destruct (Prim2SF y) as [s| s | | s m e] eqn:E;
    try (destruct s; discriminate H); try discriminate H.
  destruct s; [right | left]; apply Prim2SF_inj; rewrite E; reflexivity.
Qed.

Lemma mul_zero_cases (d y : float) :
  y = 0 \/ y = -0 -> let p := d * y in p = 0 \/ p = -0 \/ p = nan.
Proof.
  intros Hy p.
  assert (Hp : Prim2SF p = SF64mul (Prim2SF d) (Prim2SF y)) by apply mul_spec.
  assert (Hz : exists s, Prim2SF y = S754_zero s).
  { destruct Hy as [-> | ->]; eexists; reflexivity. }
  destruct Hz as [sy Ey]. rewrite Ey in Hp.
  assert (Hc : (exists s, Prim2SF p = S754_zero s) \/ Prim2SF p = S754_nan).
  { rewrite Hp. unfold SF64mul, SFmul.
    destruct (Prim2SF d); eauto. }
  destruct Hc as [[s Es] | En].
  - destruct s; [right; left | left]; apply Prim2SF_inj; rewrite Es; reflexivity.
  - right; right. apply Prim2SF_inj. rewrite En. reflexivity.
Qed.

(** Lines 166 and 168 (and 102, 106) at an argument that is zero: the
    exponential is 1, the denominator [1 - 1] is 0, and [0 / 0] is NaN. *)
Lemma rate_binary64_singular (e : float -> float) (y d : float) :
  libm_exp e -> (y =? 0) = true ->
  rate (FL := Float64_binary64 e) y d = nan.
Proof.
  intros [E0 E1 En] Hy. apply zero_cases in Hy.
  unfold rate; cbn [fdiv fsub fmul fneg fexp lit_1 Float64_binary64].
  pose proof (mul_zero_cases (- d) Hy) as Hp. cbv zeta in Hp.
  destruct Hp as [-> | [-> | ->]]; rewrite ?E0, ?E1, ?En;
    destruct Hy as [-> | ->]; reflexivity.
Qed.

Lemma exp64_libm : libm_exp exp64.
Proof. split; reflexivity. Qed.
End Binary64.

(** ** The fixed-gain variant as values *)

Section Fits.
Context {F : Type}.

Lemma fits_scalar n (x : F) : nd_fits n (Scalar x).
Proof. exact I. Qed.

Lemma fits_row n (a : list (list F)) k :
  List.length (nth k a []) = n -> nd_fits n (Vec (nth k a [])).
Proof. auto. Qed.

Lemma fits_map n f (a : nd F) : nd_fits n a -> nd_fits n (nd_map f a).
Proof. destruct a; simpl; auto. now rewrite length_map. Qed.

Lemma fits_map2 n f (a b : nd F) :
  nd_fits n a -> nd_fits n b -> nd_fits n (nd_map2 f a b).
Proof.
  destruct a, b; simpl; auto; rewrite ?length_map, ?map2_length; auto.
  intros -> ->. apply Nat.min_id.
Qed.

Lemma fits_in_range n i (a : nd F) : nd_fits n a -> i < n -> in_range i a.
Proof. destruct a; simpl; auto. now intros ->. Qed.

(** Two arrays of [n] elements that agree at every region are equal. *)
Lemma nd_ext n d (a b : nd F) :
  is_vec a -> is_vec b -> nd_fits n a -> nd_fits n b ->
  (forall i, i < n -> nd_get d i a = nd_get d i b) -> a = b.
Proof.
  destruct a as [x|u], b as [y|v]; simpl; try tauto.
  intros _ _ Hu Hv H. f_equal.
  apply (nth_ext u v d d); [congruence | intros i Hi; apply H; lia].
Qed.
End Fits.

#[export] Hint Resolve fits_scalar fits_row fits_map fits_map2 : nd.

Section DecoValues.
Context {F : Type} {FL : Float64 F}.
Variable P : Deco2018.P_index.
Variables m state coupling : list (list F).

Definition Deco_locals : Deco2018.locals (nd F) :=
  Deco2018.body (NP := NumPy_values) P m state coupling.

Definition Deco_locals_no_receptor : Deco2018.locals (nd F) :=
  Deco2018.body_no_receptor (NP := NumPy_values) P m state coupling.

(** The rows of the table that the dfun reads. *)
Definition Deco_rows : list nat :=
  [Deco2018.taon P; Deco2018.taog P; Deco2018.gamma_e P; Deco2018.gamma_i P;
   Deco2018.I0 P; Deco2018.w P; Deco2018.J_NMDA P; Deco2018.Jext_e P;
   Deco2018.Jext_i P; Deco2018.ae P; Deco2018.be P; Deco2018.de P;
   Deco2018.ai P; Deco2018.bi P; Deco2018.di P; Deco2018.J P;
   Deco2018.I_external P; Deco2018.receptor P; Deco2018.w_gain_e P;
   Deco2018.w_gain_i P].

(** The caller's contract on shapes: [n] regions everywhere. *)
Definition Deco_shape (n : nat) : Prop :=
  List.length (nth 0 state []) = n /\ List.length (nth 1 state []) = n /\
  List.length (nth 0 coupling []) = n /\
  Forall (fun k => List.length (nth k m []) = n) Deco_rows.

(** [m[np.intp(P.x)]] at region [i]. *)
Definition Deco_m (k : nat) (i : nat) : F := nth i (nth k m []) lit_0.
End DecoValues.

Ltac deco_shape H :=
  let H0 := fresh "H0" in let H1 := fresh "H1" in let Hc := fresh "Hc" in
  let Hm := fresh "Hm" in
  destruct H as (H0 & H1 & Hc & Hm);
  unfold Deco_rows in Hm;
  repeat (apply Forall_cons_iff in Hm;
          let Hk := fresh "Hk" in destruct Hm as [Hk Hm]);
  clear Hm.

Section DecoFits.
Context {F : Type} {FL : Float64 F}.
Variable P : Deco2018.P_index.
Variables m state coupling : list (list F).
Variable n : nat.
Hypothesis shape : Deco_shape P m state coupling n.
Let l := Deco_locals P m state coupling.
Let l' := Deco_locals_no_receptor P m state coupling.

Lemma Deco_Ie_fits : nd_fits n (Deco2018.Ie l).
Proof. pose proof shape as H. deco_shape H. cbn. auto 40 with nd. Qed.

Lemma Deco_Ii_fits : nd_fits n (Deco2018.Ii l).
Proof. pose proof shape as H. deco_shape H. cbn. auto 40 with nd. Qed.

Lemma Deco_ye_fits : nd_fits n (Deco2018.ye l).
Proof. pose proof shape as H. deco_shape H. cbn. auto 60 with nd. Qed.

Lemma Deco_yi_fits : nd_fits n (Deco2018.yi l).
Proof. pose proof shape as H. deco_shape H. cbn. auto 60 with nd. Qed.

Lemma Deco_ye_fits' : nd_fits n (Deco2018.ye l').
Proof. pose proof shape as H. deco_shape H. cbn. auto 60 with nd. Qed.

Lemma Deco_yi_fits' : nd_fits n (Deco2018.yi l').
Proof. pose proof shape as H. deco_shape H. cbn. auto 60 with nd. Qed.

Lemma Deco_ye_is_vec : is_vec (Deco2018.ye l) /\ is_vec (Deco2018.ye l').
Proof. split; cbn; auto 60 with nd. Qed.

Lemma Deco_yi_is_vec : is_vec (Deco2018.yi l) /\ is_vec (Deco2018.yi l').
Proof. split; cbn; auto 60 with nd. Qed.
End DecoFits.

Section DecoTail.
Context {F : Type} {FL : Float64 F}.
Variable P : Deco2018.P_index.
Variables m state coupling : list (list F).
Let l := Deco_locals P m state coupling.
Let l' := Deco_locals_no_receptor P m state coupling.
Let mrow (k : nat) : nd F := Vec (nth k m []).

(** Lines 102 and 106 on arrays. *)
Definition nd_rate (y d : nd F) : nd F :=
  nd_map2 fdiv y
    (nd_map2 fsub (Scalar lit_1) (nd_map fexp (nd_map2 fmul (nd_map fneg d) y))).

(** What the dfun returns once [y] has its two values (lines 102-110). *)
Definition Deco_tail (ye yi : nd F) : list (list F) * list (list F) :=
  let re := nd_rate ye (mrow (Deco2018.de P)) in
  let ri := nd_rate yi (mrow (Deco2018.di P)) in
  let dSe :=
    nd_map2 fadd
      (nd_map2 fdiv (nd_map fneg (Deco2018.Se l)) (mrow (Deco2018.taon P)))
      (nd_map2 fdiv
         (nd_map2 fmul
            (nd_map2 fmul (mrow (Deco2018.gamma_e P))
               (nd_map2 fsub (Scalar lit_1) (Deco2018.Se l)))
            re)
         (Scalar lit_1000)) in
  let dSi :=
    nd_map2 fadd
      (nd_map2 fdiv (nd_map fneg (Deco2018.Si l)) (mrow (Deco2018.taog P)))
      (nd_map2 fdiv (nd_map2 fmul (mrow (Deco2018.gamma_i P)) ri)
         (Scalar lit_1000)) in
  ([nd_list dSe; nd_list dSi], [nd_list (Deco2018.Ie l); nd_list re]).

Lemma Deco_dfun_tail :
  Deco2018.Deco2018_dfun (NP := NumPy_values) P m state coupling
  = Deco_tail (Deco2018.ye l) (Deco2018.yi l).
Proof. reflexivity. Qed.

Lemma Deco_dfun_no_receptor_tail :
  Deco2018.dfun_no_receptor (NP := NumPy_values) P m state coupling
  = Deco_tail (Deco2018.ye l') (Deco2018.yi l').
Proof. reflexivity. Qed.

Lemma Deco_re_rate :
  Deco2018.re l = nd_rate (Deco2018.ye l) (mrow (Deco2018.de P)).
Proof. reflexivity. Qed.

Lemma Deco_ri_rate :
  Deco2018.ri l = nd_rate (Deco2018.yi l) (mrow (Deco2018.di P)).
Proof. reflexivity. Qed.

Lemma Deco_ye_gain :
  Deco2018.ye l
  = nd_map2 fmul (Deco2018.ye l')
      (nd_map2 fadd (Scalar lit_1)
         (nd_map2 fmul (mrow (Deco2018.receptor P)) (mrow (Deco2018.w_gain_e P)))).
Proof. reflexivity. Qed.

Lemma Deco_yi_gain :
  Deco2018.yi l
  = nd_map2 fmul (Deco2018.yi l')
      (nd_map2 fadd (Scalar lit_1)
         (nd_map2 fmul (mrow (Deco2018.receptor P)) (mrow (Deco2018.w_gain_i P)))).
Proof. reflexivity. Qed.

Lemma nd_rate_pointwise (y d : nd F) i :
  in_range i y -> in_range i d ->
  nd_get lit_0 i (nd_rate y d) = rate (nd_get lit_0 i y) (nd_get lit_0 i d).
Proof. intros Hy Hd. unfold nd_rate. pointwise. reflexivity. Qed.
End DecoTail.

(** ** Zeros, NaN and the unit in binary64 *)

Section Zero64.
Local Open Scope float_scope.

Definition zero64 (x : float) : bool :=
  match Prim2SF x with
  | S754_zero _ => true
  | _ => false
  end.

(** Neither NaN nor an infinity. *)
Definition finite64 (x : float) : bool :=
  match Prim2SF x with
  | S754_zero _ | S754_finite _ _ _ => true
  | _ => false
  end.

Lemma zero64_eqb x : zero64 x = true <-> (x =? 0) = true.
Proof.
  unfold zero64. rewrite eqb_spec.
  destruct (Prim2SF x) as [s | s | | s m e]; split; intro H;
    try discriminate H; try reflexivity; destruct s; try discriminate H;
    reflexivity.
Qed.

Lemma zero64_mul a b : zero64 a = true -> finite64 b = true -> zero64 (a * b) = true.
Proof.
  unfold zero64, finite64. rewrite mul_spec. unfold SF64mul, SFmul.
  destruct (Prim2SF a); try discriminate; destruct (Prim2SF b); try discriminate;
    reflexivity.
Qed.

Lemma zero64_div_1000 a : zero64 a = true -> zero64 (a / 1000) = true.
Proof.
  unfold zero64. rewrite div_spec.
  change (Prim2SF 1000) with (S754_finite false 8796093022208000 (-43)).
  unfold SF64div, SFdiv. destruct (Prim2SF a); try discriminate; reflexivity.
Qed.

Definition nan64 (x : float) : bool :=
  match Prim2SF x with
  | S754_nan => true
  | _ => false
  end.

Lemma nan64_is_nan x : nan64 x = true -> is_nan x = true.
Proof.
  unfold nan64, is_nan. rewrite eqb_spec.
  destruct (Prim2SF x); try discriminate. reflexivity.
Qed.

Lemma nan64_not_zero x : nan64 x = true -> (x =? 0) = false.
Proof.
  unfold nan64. rewrite eqb_spec.
  destruct (Prim2SF x); try discriminate. reflexivity.
Qed.

Lemma nan64_mul_zero a b :
  zero64 a = true -> finite64 b = false -> nan64 (a * b) = true.
Proof.
  unfold zero64, finite64, nan64. rewrite mul_spec. unfold SF64mul, SFmul.
  destruct (Prim2SF a); try discriminate; destruct (Prim2SF b); try discriminate;
    reflexivity.
Qed.

Lemma nan64_mul_l a b : nan64 a = true -> nan64 (a * b) = true.
Proof.
  unfold nan64. rewrite mul_spec. unfold SF64mul, SFmul.
  destruct (Prim2SF a); try discriminate. reflexivity.
Qed.

Lemma nan64_div_1000 a : nan64 a = true -> nan64 (a / 1000) = true.
Proof.
  unfold nan64. rewrite div_spec. unfold SF64div, SFdiv.
  destruct (Prim2SF a); try discriminate. reflexivity.
Qed.

(** Multiplication by 1.0 is exact: the product of the mantissa with
    [2^52] is shifted back by 52 bits with nothing lost. *)
Lemma one_SF : Prim2SF 1 = S754_finite false 4503599627370496 (-52).
Proof. reflexivity. Qed.

Lemma mul_pow52 (m : positive) :
  (m * 4503599627370496)%positive = Pos.iter xO m 52.
Proof. rewrite Pos.mul_comm. reflexivity. Qed.

Lemma digits2_shift (m : positive) :
  digits2_pos (Pos.iter xO m 52) = (digits2_pos m + 52)%positive.
Proof. cbn [Pos.iter digits2_pos]. lia. Qed.

Lemma shr_52 (m : positive) :
  iter_pos shr_1 52
    {| shr_m := Zpos (Pos.iter xO m 52); shr_r := false; shr_s := false |}
  = {| shr_m := Zpos m; shr_r := false; shr_s := false |}.
Proof. reflexivity. Qed.

Lemma SFmul_one (s : bool) (m : positive) (e : Z) :
  bounded prec emax m e = true ->
  SFmul prec emax (S754_finite s m e) (S754_finite false 4503599627370496 (-52))
  = S754_finite s m e.
Proof.
  intro Hb. unfold bounded in Hb. apply andb_prop in Hb. destruct Hb as [Hc He].
  unfold canonical_mantissa in Hc. apply Z.eqb_eq in Hc.
  unfold SFmul, binary_round_aux.
  rewrite xorb_false_r, mul_pow52.
  unfold shr_fexp at 1. unfold Zdigits2 at 1. rewrite digits2_shift.
  replace (Z.pos (digits2_pos m + 52) + (e + -52))%Z
    with (Z.pos (digits2_pos m) + e)%Z by lia.
  rewrite Hc. replace (e - (e + -52))%Z with 52%Z by lia.
  unfold shr_record_of_loc, shr. rewrite shr_52.
  cbn [shr_m loc_of_shr_record round_nearest_even].
  unfold shr_fexp, Zdigits2, shr_record_of_loc.
  replace (e + -52 + 52)%Z with e by lia.
  rewrite Hc, Z.sub_diag. cbn [shr shr_m]. now rewrite He.
Qed.

Lemma mul_1_r_64 (x : float) : x * 1 = x.
Proof.
  apply Prim2SF_inj. rewrite mul_spec, one_SF.
  pose proof (Prim2SF_valid x) as Hv.
  destruct (Prim2SF x) as [s | s | | s m e]; try (destruct s; reflexivity);
    try reflexivity.
  now apply SFmul_one.
Qed.

Lemma add_1_zero64 (z : float) : zero64 z = true -> 1 + z = 1.
Proof.
  unfold zero64. intro H. apply Prim2SF_inj. rewrite add_spec, one_SF.
  destruct (Prim2SF z); try discriminate. reflexivity.
Qed.

(** Line 99 and 103 on one element: with a zero receptor and a finite
    gain the factor [1 + receptor * w_gain] is exactly 1. *)
Lemma gain64_noop (y r g : float) :
  zero64 r = true -> finite64 g = true -> y * (1 + r * g) = y.
Proof.
  intros Hr Hg. rewrite (@add_1_zero64 (r * g) (zero64_mul _ _ Hr Hg)).
  apply mul_1_r_64.
Qed.
End Zero64.

(** ** Receptor gain at zero (C8) *)

Lemma gain_row_noop (P : Deco2018.P_index) (m : list (list R)) (n : nat)
  (y : nd R) (g : nat) :
  is_vec y -> nd_fits n y ->
  List.length (nth (Deco2018.receptor P) m []) = n ->
  List.length (nth g m []) = n ->
  Forall (fun x => x = 0%R) (nth (Deco2018.receptor P) m []) ->
  nd_map2 fmul y
    (nd_map2 fadd (Scalar lit_1)
       (nd_map2 fmul (Vec (nth (Deco2018.receptor P) m [])) (Vec (nth g m []))))
  = y.
Proof.
  intros Hv Hy Hr Hg H0.
  apply (@nd_ext _ n lit_0); auto with nd.
  intros i Hi.
  assert (in_range i y) by (eapply fits_in_range; eauto).
  assert (i < List.length (nth (Deco2018.receptor P) m [])) by lia.
  assert (i < List.length (nth g m [])) by lia.
  pointwise.
  assert (Hz : nd_get lit_0 i (Vec (nth (Deco2018.receptor P) m [])) = 0%R).
  { rewrite Forall_forall in H0. apply H0. now apply nth_In. }
  rewrite Hz. cbn [fmul fadd lit_1 Float64_R]. ring.
Qed.

(** In exact arithmetic the factors [1 + 0 * w_gain] are 1 whatever the
    gains are. *)
Lemma Deco_receptor_zero_noop_exact (P : Deco2018.P_index)
  (m state coupling : list (list R)) (n : nat) :
  Deco_shape P m state coupling n ->
  Forall (fun x => x = 0%R) (nth (Deco2018.receptor P) m []) ->
  Deco2018.Deco2018_dfun (NP := NumPy_values) P m state coupling
  = Deco2018.dfun_no_receptor (NP := NumPy_values) P m state coupling.
Proof.
  intros Hshape H0.
  rewrite Deco_dfun_tail, Deco_dfun_no_receptor_tail.
  rewrite Deco_ye_gain, Deco_yi_gain.
  pose proof (Deco_ye_fits' Hshape) as Hye.
  pose proof (Deco_yi_fits' Hshape) as Hyi.
  pose proof (proj2 (Deco_ye_is_vec P m state coupling)) as Vye.
  pose proof (proj2 (Deco_yi_is_vec P m state coupling)) as Vyi.
  deco_shape Hshape.
  rewrite (@gain_row_noop P m n _ (Deco2018.w_gain_e P)) by assumption.
  rewrite (@gain_row_noop P m n _ (Deco2018.w_gain_i P)) by assumption.
  reflexivity.
Qed.

(** The state at which, with the default parameters, the inhibitory
    argument [ai * Ii - bi] is exactly zero in binary64. *)
Definition state_64_singular : list (list float) :=
  [[0x1.169837cfe9e32p-3]; [0]; [1]]%float.

Definition Deco_state_64_singular : list (list float) :=
  [[0x1.169837cfe9e32p-3]; [0]]%float.

Definition coupling_64_zero : list (list float) := [[0]]%float.

Lemma Naskar_region_singular :
  Naskar_region state_64_singular coupling_64_zero 0.
Proof.
  unfold Naskar_region; cbv [state_64_singular coupling_64_zero nth List.length];
    repeat split; apply Nat.lt_0_1.
Defined.

Lemma Deco_shape_singular :
  Deco_shape Deco_P_example Deco_defaults_64
    Deco_state_64_singular coupling_64_zero 1.
Proof.
  unfold Deco_shape, Deco_rows.
  cbv [Deco_state_64_singular coupling_64_zero Deco_defaults_64
       Deco_P_example Deco2018.taon Deco2018.taog Deco2018.gamma_e
       Deco2018.gamma_i Deco2018.I0 Deco2018.w Deco2018.J_NMDA Deco2018.Jext_e
       Deco2018.Jext_i Deco2018.ae Deco2018.be Deco2018.de Deco2018.ai
       Deco2018.bi Deco2018.di Deco2018.J Deco2018.I_external Deco2018.receptor
       Deco2018.w_gain_e Deco2018.w_gain_i map nth List.length].
  repeat split; repeat constructor.
Defined.

Lemma gain_row_noop_64 (e : float -> float) (P : Deco2018.P_index)
  (m : list (list float)) (n : nat) (y : nd float) (g : nat) :
  is_vec y -> nd_fits n y ->
  List.length (nth (Deco2018.receptor P) m []) = n ->
  List.length (nth g m []) = n ->
  Forall (fun x => zero64 x = true) (nth (Deco2018.receptor P) m []) ->
  Forall (fun x => finite64 x = true) (nth g m []) ->
  nd_map2 (fmul (Float64 := Float64_binary64 e)) y
    (nd_map2 (fadd (Float64 := Float64_binary64 e))
       (Scalar (lit_1 (Float64 := Float64_binary64 e)))
       (nd_map2 (fmul (Float64 := Float64_binary64 e))
          (Vec (nth (Deco2018.receptor P) m [])) (Vec (nth g m []))))
  = y.
Proof.
  intros Hv Hy Hr Hg H0 Hfin.
  apply (@nd_ext _ n (lit_0 (Float64 := Float64_binary64 e))); auto with nd.
  intros i Hi.
  assert (in_range i y) by (eapply fits_in_range; eauto).
  assert (i < List.length (nth (Deco2018.receptor P) m [])) by lia.
  assert (i < List.length (nth g m [])) by lia.
  pointwise.
  rewrite Forall_forall in H0, Hfin.
  apply gain64_noop.
  - apply H0. now apply nth_In.
  - apply Hfin. now apply nth_In.
Qed.

(** C8, as the code has it.  In binary64, for every table, state and
    coupling input of [n] regions whose receptor row is zero and whose two
    gain rows hold finite numbers, [Deco2018_dfun] returns exactly what the
    same computation without the receptor factors returns: the factors
    [1 + 0 * w_gain] are exactly 1, and multiplying by 1 changes nothing. *)
Theorem Deco2018_receptor_zero_noop (e : float -> float)
  (P : Deco2018.P_index) (m state coupling : list (list float)) (n : nat) :
  let FL := Float64_binary64 e in
  Deco_shape P m state coupling n ->
  Forall (fun x => zero64 x = true) (nth (Deco2018.receptor P) m []) ->
  Forall (fun x => finite64 x = true) (nth (Deco2018.w_gain_e P) m []) ->
  Forall (fun x => finite64 x = true) (nth (Deco2018.w_gain_i P) m []) ->
  Deco2018.Deco2018_dfun (NP := NumPy_values) P m state coupling
  = Deco2018.dfun_no_receptor (NP := NumPy_values) P m state coupling.
Proof.
  intros FL Hshape H0 He Hi.
  rewrite Deco_dfun_tail, Deco_dfun_no_receptor_tail.
  rewrite Deco_ye_gain, Deco_yi_gain.
  pose proof (Deco_ye_fits' Hshape) as Hye.
  pose proof (Deco_yi_fits' Hshape) as Hyi.
  pose proof (proj2 (Deco_ye_is_vec P m state coupling)) as Vye.
  pose proof (proj2 (Deco_yi_is_vec P m state coupling)) as Vyi.
  deco_shape Hshape.
  rewrite (@gain_row_noop_64 e P m n _ (Deco2018.w_gain_e P)) by assumption.
  rewrite (@gain_row_noop_64 e P m n _ (Deco2018.w_gain_i P)) by assumption.
  reflexivity.
Qed.

(** What [Deco2018.initial_state] returns for one region. *)
Definition Deco_state_64_initial : list (list float) :=
  [[0.001]; [0.001]]%float.

Lemma Deco_shape_initial_64 :
  Deco_shape Deco_P_example Deco_defaults_64
    Deco_state_64_initial coupling_64_zero 1.
Proof.
  unfold Deco_shape, Deco_rows.
  cbv [Deco_state_64_initial coupling_64_zero Deco_defaults_64
       Deco_P_example Deco2018.taon Deco2018.taog Deco2018.gamma_e
       Deco2018.gamma_i Deco2018.I0 Deco2018.w Deco2018.J_NMDA Deco2018.Jext_e
       Deco2018.Jext_i Deco2018.ae Deco2018.be Deco2018.de Deco2018.ai
       Deco2018.bi Deco2018.di Deco2018.J Deco2018.I_external Deco2018.receptor
       Deco2018.w_gain_e Deco2018.w_gain_i map nth List.length].
  repeat split; repeat constructor.
Defined.

Lemma Deco2018_receptor_zero_noop_witness :
  let FL := Float64_binary64 exp64 in
  Deco2018.Deco2018_dfun (NP := NumPy_values) Deco_P_example
    Deco_defaults_64 Deco_state_64_initial coupling_64_zero
  = Deco2018.dfun_no_receptor (NP := NumPy_values) Deco_P_example
      Deco_defaults_64 Deco_state_64_initial coupling_64_zero.
Proof.
  apply (@Deco2018_receptor_zero_noop exp64 Deco_P_example Deco_defaults_64
           Deco_state_64_initial coupling_64_zero 1).
  - exact Deco_shape_initial_64.
  - vm_compute. repeat constructor.
  - vm_compute. repeat constructor.
  - vm_compute. repeat constructor.
Defined.

(** The default table with an infinite excitatory gain. *)
Definition Deco_infinite_gain_64 : list (list float) :=
  map (fun x => [x])
    [100; 10; 0.641; 1; 0.382; 1.4; 0.15; 1; 0.7; 310; 125; 0.16;
     615; 177; 0.087; 1; 0; 0; infinity; 0]%float.

(** C8 as the specification words it fails: with [receptor = 0] and
    [w_gain_e] infinite, the factor [1 + 0 * w_gain_e] is NaN; the dfun
    returns NaN for the excitatory rate at the initial state, where the
    computation without the receptor factors returns a number. *)
Lemma Deco2018_receptor_zero_infinite_gain :
  let FL := Float64_binary64 exp64 in
  let P := Deco_P_example in
  let out := Deco2018.Deco2018_dfun (NP := NumPy_values) P
               Deco_infinite_gain_64 Deco_state_64_initial coupling_64_zero in
  let out' := Deco2018.dfun_no_receptor (NP := NumPy_values) P
                Deco_infinite_gain_64 Deco_state_64_initial coupling_64_zero in
  nth (Deco2018.receptor P) Deco_infinite_gain_64 [] = [0%float]
  /\ is_nan (nth 0 (nth 1 (snd out) []) lit_0) = true
  /\ is_nan (nth 0 (nth 1 (snd out') []) lit_0) = false
  /\ out <> out'.
Proof.
  intros FL P out out'.
  assert (H1 : is_nan (nth 0 (nth 1 (snd out) []) lit_0) = true)
    by (vm_compute; reflexivity).
  assert (H2 : is_nan (nth 0 (nth 1 (snd out') []) lit_0) = false)
    by (vm_compute; reflexivity).
  repeat split; try assumption.
  intro E. rewrite E in H1. rewrite H1 in H2. discriminate H2.
Qed.

(** C1, as the code has it.  In binary64, with any exponential that returns
    1 at a zero argument, whenever the argument [y] of the transfer function
    is zero at a region, the firing rate that either dfun computes there,
    excitatory or inhibitory, is NaN: [0 / (1 - 1)].  Neither dfun guards
    the denominator. *)
Theorem rate_at_singularity_is_nan (e : float -> float)
  (addr stateN couplingN : list (list float))
  (P : Deco2018.P_index) (m stateD couplingD : list (list float))
  (n i : nat) :
  libm_exp e ->
  Naskar_region stateN couplingN i ->
  Deco_shape P m stateD couplingD n -> i < n ->
  let FL := Float64_binary64 e in
  let lN := Naskar_locals addr stateN couplingN in
  let lD := Deco_locals P m stateD couplingD in
  let at_i := nd_get lit_0 i in
  ((at_i (Naskar2021.ye lN) =? 0)%float = true -> at_i (Naskar2021.re lN) = nan)
  /\ ((at_i (Naskar2021.yi lN) =? 0)%float = true -> at_i (Naskar2021.ri lN) = nan)
  /\ ((at_i (Deco2018.ye lD) =? 0)%float = true -> at_i (Deco2018.re lD) = nan)
  /\ ((at_i (Deco2018.yi lD) =? 0)%float = true -> at_i (Deco2018.ri lD) = nan).
Proof.
  intros He HN HD Hi FL lN lD at_i. subst at_i lN lD.
  assert (Hde : in_range i (Vec (nth (Deco2018.de P) m []))).
  { pose proof HD as H. deco_shape H. simpl. lia. }
  assert (Hdi : in_range i (Vec (nth (Deco2018.di P) m []))).
  { pose proof HD as H. deco_shape H. simpl. lia. }
  pose proof (@fits_in_range _ n i _ (Deco_ye_fits HD) Hi) as Hye.
  pose proof (@fits_in_range _ n i _ (Deco_yi_fits HD) Hi) as Hyi.
  repeat split; intro Hz.
  - rewrite (Naskar_re_rate (Naskar_ye_in_range addr HN)).
    now apply rate_binary64_singular.
  - rewrite (Naskar_ri_rate (Naskar_yi_in_range addr HN)).
    now apply rate_binary64_singular.
  - rewrite Deco_re_rate, nd_rate_pointwise by assumption.
    now apply rate_binary64_singular.
  - rewrite Deco_ri_rate, nd_rate_pointwise by assumption.
    now apply rate_binary64_singular.
Qed.

Lemma rate_at_singularity_is_nan_witness :
  let FL := Float64_binary64 exp64 in
  let lN := Naskar_locals Naskar_defaults_64 state_64_singular coupling_64_zero in
  let lD := Deco_locals Deco_P_example Deco_defaults_64 Deco_state_64_singular
              coupling_64_zero in
  let at_i := nd_get lit_0 0 in
  ((at_i (Naskar2021.ye lN) =? 0)%float = true -> at_i (Naskar2021.re lN) = nan)
  /\ ((at_i (Naskar2021.yi lN) =? 0)%float = true -> at_i (Naskar2021.ri lN) = nan)
  /\ ((at_i (Deco2018.ye lD) =? 0)%float = true -> at_i (Deco2018.re lD) = nan)
  /\ ((at_i (Deco2018.yi lD) =? 0)%float = true -> at_i (Deco2018.ri lD) = nan).
Proof.
  apply (@rate_at_singularity_is_nan exp64
           Naskar_defaults_64 state_64_singular coupling_64_zero
           Deco_P_example Deco_defaults_64 Deco_state_64_singular coupling_64_zero
           1 0).
  - exact exp64_libm.
  - exact Naskar_region_singular.
  - exact Deco_shape_singular.
  - exact Nat.lt_0_1.
Defined.

(** C1 as the specification words it fails: with the default parameters of
    either variant, at [state_64_singular] the inhibitory argument is exactly
    zero, the inhibitory rate is NaN and not [1 / di], and the NaN reaches
    the returned derivative of [S_i]. *)
Lemma rate_at_singularity_not_the_limit :
  let FL := Float64_binary64 exp64 in
  let lN := Naskar_locals Naskar_defaults_64 state_64_singular coupling_64_zero in
  let lD := Deco_locals Deco_P_example Deco_defaults_64 Deco_state_64_singular
              coupling_64_zero in
  let dN := fst (Naskar2021.Naskar2021_dfun (NP := NumPy_values)
                   Naskar_defaults_64 state_64_singular coupling_64_zero) in
  let dD := fst (Deco2018.Deco2018_dfun (NP := NumPy_values) Deco_P_example
                   Deco_defaults_64 Deco_state_64_singular coupling_64_zero) in
  let at_0 := nd_get lit_0 0 in
  ((at_0 (Naskar2021.yi lN) =? 0)%float = true
   /\ is_nan (at_0 (Naskar2021.ri lN)) = true
   /\ (at_0 (Naskar2021.ri lN) =? 1 / Naskar_m Naskar_defaults_64 Naskar2021.di)%float
      = false
   /\ is_nan (nth 0 (nth 1 dN []) lit_0) = true)
  /\ ((at_0 (Deco2018.yi lD) =? 0)%float = true
      /\ is_nan (at_0 (Deco2018.ri lD)) = true
      /\ (at_0 (Deco2018.ri lD)
          =? 1 / Deco_m Deco_defaults_64 (Deco2018.di Deco_P_example) 0)%float
         = false
      /\ is_nan (nth 0 (nth 1 dD []) lit_0) = true).
Proof. vm_compute. repeat split. Qed.

(** ** Plasticity switched off (C9) *)


Definition Naskar_gamma_zero_64 : list (list float) :=
  map (fun x => [x])
    [7.46; 1.82; 1; 0.7; 0.382; 1.4; 0.15; 1; 310; 125; 0.16;
     1; 615; 177; 0.087; 0.53; 0.072; 0.0066; 0.18; 0; 3]%float.

Definition state_64_initial : list (list float) :=
  Naskar2021.initial_state (FL := Float64_binary64 exp64) 1.

Lemma Naskar_region_initial_64 : Naskar_region state_64_initial coupling_64_zero 0.
Proof.
  unfold Naskar_region;
    cbv [state_64_initial coupling_64_zero Naskar2021.initial_state
         nth repeat List.length]; repeat split; apply Nat.lt_0_1.
Defined.

Lemma Naskar_gamma_zero_64_shape :
  shape2 Naskar_gamma_zero_64 Naskar2021.n_params 1.
Proof. split; [reflexivity | repeat constructor]. Defined.

(** C9, as the code has it.  In binary64, for every table of one region
    whose gamma row is zero and every state and coupling input, the third
    derivative row is zero for that region when the inhibitory rate [ri] and
    the difference [re - rho] are finite numbers, and NaN when one of them
    is not. *)
Theorem gamma_zero_freezes_dJ (e : float -> float)
  (addr state coupling : list (list float)) :
  let FL := Float64_binary64 e in
  let out := Naskar2021.Naskar2021_dfun (NP := NumPy_values) addr state coupling in
  let r_e := nth 0 (nth 1 (snd out) []) lit_0 in
  let r_i := nd_get lit_0 0 (Naskar2021.ri (Naskar_locals addr state coupling)) in
  let gamma := Naskar_param addr Naskar2021.gamma 0 in
  let rho := Naskar_param addr Naskar2021.rho 0 in
  let dJ := nth 0 (nth 2 (fst out) []) lit_0 in
  shape2 addr Naskar2021.n_params 1 ->
  Naskar_region state coupling 0 ->
  (gamma =? 0)%float = true ->
  (finite64 r_i && finite64 (r_e - rho)%float = true -> (dJ =? 0)%float = true)
  /\ (finite64 r_i && finite64 (r_e - rho)%float = false -> is_nan dJ = true).
Proof.
  intros FL out r_e r_i gamma rho dJ Ht H Hg.
  assert (HdJ : dJ = (gamma * r_i / 1000 * (r_e - rho) / 1000)%float).
  { unfold dJ, out. rewrite (Naskar_dJ_row_eq addr H).
    rewrite (Naskar_m_one_region (k := Naskar2021.gamma) Ht)
      by (unfold Naskar2021.gamma, Naskar2021.n_params; lia).
    rewrite (Naskar_m_one_region (k := Naskar2021.rho) Ht)
      by (unfold Naskar2021.rho, Naskar2021.n_params; lia).
    reflexivity. }
  apply zero64_eqb in Hg. rewrite HdJ. split; intro Hf.
  - apply andb_prop in Hf. destruct Hf as [Hri Hre].
    apply zero64_eqb, zero64_div_1000.
    apply zero64_mul; [| exact Hre].
    now apply zero64_div_1000, zero64_mul.
  - apply nan64_is_nan, nan64_div_1000.
    destruct (finite64 r_i) eqn:Hri.
    + cbn [andb] in Hf. apply nan64_mul_zero; [| exact Hf].
      now apply zero64_div_1000, zero64_mul.
    + apply nan64_mul_l, nan64_div_1000. now apply nan64_mul_zero.
Qed.

Lemma gamma_zero_freezes_dJ_witness :
  let FL := Float64_binary64 exp64 in
  let out := Naskar2021.Naskar2021_dfun (NP := NumPy_values)
               Naskar_gamma_zero_64 state_64_initial coupling_64_zero in
  (nth 0 (nth 2 (fst out) []) lit_0 =? 0)%float = true.
Proof.
  apply (proj1 (@gamma_zero_freezes_dJ exp64 Naskar_gamma_zero_64 state_64_initial
                  coupling_64_zero Naskar_gamma_zero_64_shape
                  Naskar_region_initial_64 eq_refl)).
  vm_compute; reflexivity.
Defined.

(** C9 as the specification words it fails: with gamma = 0 and the other
    parameters at their defaults, one region at [state_64_singular], the
    third derivative row is NaN, not 0. *)
Lemma gamma_zero_dJ_can_be_nan :
  let FL := Float64_binary64 exp64 in
  let out := Naskar2021.Naskar2021_dfun (NP := NumPy_values)
               Naskar_gamma_zero_64 state_64_singular coupling_64_zero in
  Naskar_param Naskar_gamma_zero_64 Naskar2021.gamma 0 = 0%float
  /\ is_nan (nth 0 (nth 2 (fst out) []) lit_0) = true
  /\ (nth 0 (nth 2 (fst out) []) lit_0 =? 0)%float = false.
Proof. vm_compute. repeat split. Qed.

(** * Spectral post-processing: filterps.py

    Arrays of real numbers; a two-dimensional array is the list of its
    rows.  Python exceptions are results. *)

Module FilterPS.

Inductive pyerr : Type :=
| TypeError
| ValueError
| IndexError
| StopIteration
| ZeroDivisionError.

Inductive result (A : Type) : Type :=
| Ok (a : A)
| Raise (e : pyerr).

Arguments Ok {A} a.
Arguments Raise {A} e.

Definition rbind {A B : Type} (c : result A) (k : A -> result B) : result B :=
  match c with
  | Ok a => k a
  | Raise e => Raise e
  end.

Declare Scope py_scope.
Delimit Scope py_scope with py.
Notation "x <- c ;; k" := (rbind c (fun x => k))
  (at level 61, c at next level, right associativity) : py_scope.

Fixpoint mapM {A B : Type} (f : A -> result B) (l : list A) : result (list B) :=
  match l with
  | [] => Ok []
  | x :: l' =>
      rbind (f x) (fun y => rbind (mapM f l') (fun ys => Ok (y :: ys)))
  end.

Abbreviation vector := (list R) (only parsing).
Abbreviation matrix := (list (list R)) (only parsing).

Local Open Scope R_scope.

Definition ltb (x y : R) : bool := if Rlt_dec x y then true else false.

Definition rsum (v : vector) : R := fold_right Rplus 0 v.

(** ** numpy *)

(** [a.shape] of a two-dimensional array. *)
Definition shape (a : matrix) : nat * nat :=
  (List.length a, List.length (hd [] a)).

(** [a.T]. *)
Definition transpose (a : matrix) : matrix :=
  map (fun j => map (fun r => nth j r 0) a) (seq 0 (snd (shape a))).

(** [a[start:stop]] for integers, negative ones counting from the end. *)
Definition slice_index (len : nat) (k : Z) : nat :=
  if (k <? 0)%Z then Z.to_nat (Z.max (k + Z.of_nat len) 0)
  else Nat.min (Z.to_nat k) len.

Definition slice {A : Type} (a : list A) (start stop : Z) : list A :=
  let i := slice_index (List.length a) start in
  let j := slice_index (List.length a) stop in
  firstn (j - i) (skipn i a).

(** [np.convolve(u, v, 'full')]: the discrete linear convolution
    [(u * v)[k] = sum_j u[j] v[k - j]], of length [len u + len v - 1];
    an empty argument raises. *)
Definition convolve_at (u v : vector) (k : nat) : R :=
  rsum (map (fun j => nth j u 0 * nth (k - j) v 0) (seq 0 (S k))).

Definition np_convolve_full (u v : vector) : result vector :=
  match u, v with
  | [], _ | _, [] => Raise ValueError
  | _, _ =>
      Ok (map (convolve_at u v) (seq 0 (List.length u + List.length v - 1)))
  end.

(** [np.abs(np.fft.fft(x))] of a real sequence: the magnitudes of its
    discrete Fourier transform. *)
Definition dft_re (x : vector) (k : nat) : R :=
  rsum (map (fun j => nth j x 0
                      * cos (2 * PI * INR k * INR j / INR (List.length x)))
          (seq 0 (List.length x))).

Definition dft_im (x : vector) (k : nat) : R :=
  - rsum (map (fun j => nth j x 0
                        * sin (2 * PI * INR k * INR j / INR (List.length x)))
            (seq 0 (List.length x))).

Definition fft_abs (x : vector) : vector :=
  map (fun k => R_sqrt.sqrt (dft_re x k * dft_re x k + dft_im x k * dft_im x k))
    (seq 0 (List.length x)).

(** [np.abs(np.fft.fft(a, axis=1))]: the magnitudes of the transform of
    every row; numpy refuses an axis of no data points. *)
Definition fft_abs_rows (a : matrix) : result matrix :=
  if (snd (shape a) =? 0)%nat then Raise ValueError else Ok (map fft_abs a).

(** [x / y] of two Python numbers. *)
Definition truediv (x y : R) : result R :=
  if Req_dec_T y 0 then Raise ZeroDivisionError else Ok (x / y).

(** [np.arange(0, stop)] for [stop = tmax / 2 - 1]: the integers below it. *)
Definition arange_half (tmax : nat) : vector :=
  map INR (seq 0 ((tmax - 1) / 2)).

Definition mean (v : vector) : R := rsum v / INR (List.length v).

(** [np.argmax] of a one-dimensional array: the first index of the
    largest element; an empty array raises. *)
Fixpoint argmax_from (best : R) (ibest i : nat) (v : vector) : nat :=
  match v with
  | [] => ibest
  | x :: v' =>
      if ltb best x then argmax_from x i (S i) v'
      else argmax_from best ibest (S i) v'
  end.

Definition argmax (v : vector) : result nat :=
  match v with
  | [] => Raise ValueError
  | x :: v' => Ok (argmax_from x 0%nat 1%nat v')
  end.

(** [a[i]] of a one-dimensional array. *)
Definition index (v : vector) (i : nat) : result R :=
  match nth_error v i with
  | Some x => Ok x
  | None => Raise IndexError
  end.

(** [target[...] = src] where the target has shape [(rows, cols)]: numpy
    broadcasts a dimension of size 1 and raises on any other mismatch.
    The result is what the target then holds. *)
Definition broadcast_to (rows cols : nat) (src : matrix) : result matrix :=
  let (r, c) := shape src in
  if ((r =? rows)%nat || (r =? 1)%nat) && ((c =? cols)%nat || (c =? 1)%nat)
  then
    Ok (map (fun i =>
               let row := nth (if (r =? 1)%nat then 0%nat else i) src [] in
               map (fun j => nth (if (c =? 1)%nat then 0%nat else j) row 0)
                 (seq 0 cols))
          (seq 0 rows))
  else Raise ValueError.

(** ** filterps.py *)

Definition conv (u v : vector) : result vector :=
  let npad := (Z.of_nat (List.length v) - 1)%Z in
  (full <- np_convolve_full u v ;;
   let first := (npad - npad / 2)%Z in
   Ok (slice full first (first + Z.of_nat (List.length u))))%py.

Definition gaussfilt (t z : vector) (sigma : R) : result vector :=
  let a := 1 / (R_sqrt.sqrt (2 * PI) * sigma) in
  let sigma2 := sigma * sigma in
  let dt := map2 Rminus (tl t) t in                     (* np.diff(t) *)
  (dt <- index dt 0 ;;
   let filter :=
     map (fun x => dt * a
                   * exp (- (1 / 2) * ((x - mean t) * (x - mean t)) / sigma2)) t in
   let small := fun f => ltb f (dt * a * (1 / 1000000)) in
   let filter := List.filter (fun f => negb (small f)) filter in   (* np.delete *)
   zfilt <- conv z filter ;;
   let onesToFilt := repeat 1 (List.length z) in
   onesFilt <- conv onesToFilt filter ;;
   Ok (map2 Rdiv zfilt onesFilt))%py.

(** The band-pass filter is a capability of the caller. *)
Record BandPassFilter := { bpf_filter : matrix -> matrix }.

(** [TR] is a Python number: [Tmax / TR] is a division of Python numbers,
    evaluated after the left operand of the array division. *)
Definition filt_pow_spetra (signal : matrix) (TR : R) (bpf : BandPassFilter)
  : result matrix :=
  let (nNodes, Tmax) := shape signal in
  let ts_filt_narrow := transpose (bpf_filter bpf (transpose signal)) in
  (pw_filt_narrow <- fft_abs_rows ts_filt_narrow ;;
   let squares :=
     map (map (fun p => p * p))
       (transpose (map (fun r => slice r 0 (Z.of_nat (Tmax / 2))) pw_filt_narrow)) in
   norm <- truediv (INR Tmax) TR ;;
   let PowSpect_filt_narrow := map (map (fun p => p / norm)) squares in
   Ok PowSpect_filt_narrow)%py.

(** A positional call of [filt_pow_spetra]: the definition gives [bpf] no
    default, so a call that leaves it out raises before the body runs. *)
Definition call_filt_pow_spetra (signal : matrix) (TR : R)
  (bpf : option BandPassFilter) : result matrix :=
  match bpf with
  | Some b => filt_pow_spetra signal TR b
  | None => Raise TypeError
  end.

(** The three shapes of input: a dict of subjects in insertion order, one
    two-dimensional array, or a stack of them. *)
Inductive signals : Type :=
| Dict (d : list (string * matrix))
| Array2 (a : matrix)
| Array3 (a : list matrix).

Fixpoint lookup (d : list (string * matrix)) (s : string) : result matrix :=
  match d with
  | [] => Raise IndexError
  | (k, a) :: d' => if String.eqb k s then Ok a else lookup d' s
  end.

(** [np.mean(a, axis=0)] of a stack of [(rows, cols)] arrays. *)
Definition mean_axis0 (a : list matrix) (rows cols : nat) : matrix :=
  map (fun i =>
         map (fun j => mean (map (fun s => nth j (nth i s []) 0) a))
           (seq 0 cols))
    (seq 0 rows).

(** What the three branches leave in [n_nodes], [tmax] and
    [Power_Areas_filt_narrow_unsmoothed]. *)
Definition unsmoothed (signal : signals) (tr : R) (bpf : BandPassFilter)
  : result (nat * nat * matrix) :=
  match signal with
  | Dict d =>
      match d with
      | [] => Raise StopIteration               (* next(iter(...)) *)
      | (_, first) :: _ =>
          let (n_nodes, tmax) := shape first in
          (PowSpect_filt_narrow <-
             mapM (fun s =>
                     a <- lookup d s ;;
                     p <- call_filt_pow_spetra
                            (map (fun r => slice r 0 (Z.of_nat tmax)) a) tr
                            (Some bpf) ;;
                     broadcast_to n_nodes (tmax / 2) (transpose p))
               (map fst d) ;;
           Ok (n_nodes, tmax,
               transpose (mean_axis0 PowSpect_filt_narrow n_nodes (tmax / 2))))%py
      end
  | Array2 a =>
      let (n_nodes, tmax) := shape a in
      (p <- call_filt_pow_spetra a tr None ;;
       Ok (n_nodes, tmax, p))%py
  | Array3 a =>
      let n_nodes := List.length (hd [] a) in
      let tmax := List.length (hd [] (hd [] a)) in
      (PowSpect_filt_narrow <-
         mapM (fun s =>
                 p <- call_filt_pow_spetra s tr (Some bpf) ;;
                 broadcast_to n_nodes (tmax / 2) (transpose p))
           a ;;
       Ok (n_nodes, tmax,
           transpose (mean_axis0 PowSpect_filt_narrow n_nodes (tmax / 2))))%py
  end.

Definition filt_pow_spetra_multiple_subjects (signal : signals) (tr : R)
  (bpf : BandPassFilter) : result vector :=
  (u <- unsmoothed signal tr bpf ;;
   let '(n_nodes, tmax, Power_Areas_filt_narrow_unsmoothed) := u in
   let Ts := INR tmax * tr in
   let freqs := map (fun k => k / Ts) (arange_half tmax) in
   let nfreq := List.length Power_Areas_filt_narrow_unsmoothed in
   columns <-
     mapM (fun seed =>
             z <- gaussfilt freqs
                    (map (fun r => nth seed r 0) Power_Areas_filt_narrow_unsmoothed)
                    (1 / 100) ;;
             c <- broadcast_to nfreq 1 (map (fun x => [x]) z) ;;
             Ok (map (fun r => nth 0 r 0) c))
       (seq 0 n_nodes) ;;
   idxFreqOfMaxPwr <- mapM argmax columns ;;
   mapM (index freqs) idxFreqOfMaxPwr)%py.

End FilterPS.

(** ** Same-length convolution (C7) *)

Section ConvFacts.
Import FilterPS.
Local Open Scope R_scope.

Lemma rsum_nil : rsum [] = 0.
Proof. reflexivity. Qed.

Lemma rsum_cons (x : R) (v : vector) : rsum (x :: v) = x + rsum v.
Proof. reflexivity. Qed.

Lemma rsum_app (u v : vector) : rsum (u ++ v) = rsum u + rsum v.
Proof.
  induction u as [|x u IH].
  - rewrite rsum_nil. simpl app. ring.
  - rewrite <- app_comm_cons, !rsum_cons, IH. ring.
Qed.

Lemma rsum_zero {A : Type} (f : A -> R) (l : list A) :
  (forall x, In x l -> f x = 0) -> rsum (map f l) = 0.
Proof.
  induction l as [|a l IH]; intro H; [reflexivity|].
  cbn [map]. rewrite rsum_cons.
  rewrite H by (left; reflexivity).
  rewrite IH by (intros x Hx; apply H; right; exact Hx). ring.
Qed.

(** Against the kernel [[1.0]] the convolution sum has one term. *)
Lemma convolve_at_identity (u : vector) (k : nat) :
  convolve_at u [1] k = nth k u 0.
Proof.
  unfold convolve_at. rewrite seq_S, map_app, rsum_app. simpl seq.
  rewrite rsum_zero.
  - cbn [map Nat.add]. rewrite rsum_cons, rsum_nil, Nat.sub_diag.
    change (nth 0 [1] 0) with 1. ring.
  - intros j Hj. apply in_seq in Hj.
    destruct (k - j)%nat as [|d] eqn:E; [lia|].
    change (nth (S d) [1] 0) with (nth d [] 0).
    replace (nth d (@nil R) 0) with 0 by (destruct d; reflexivity). ring.
Qed.

Lemma convolve_full_identity (u : vector) :
  u <> [] -> np_convolve_full u [1] = Ok u.
Proof.
  intro Hu. destruct u as [|x u]; [congruence|].
  unfold np_convolve_full.
  cbn [List.length]. replace (S (List.length u) + 1 - 1)%nat with
    (List.length (x :: u)) by (simpl; lia).
  apply (f_equal (@Ok vector)). apply (nth_ext _ _ 0 0).
  - now rewrite length_map, length_seq.
  - intros k Hk. rewrite length_map, length_seq in Hk.
    rewrite (nth_indep _ 0 (convolve_at (x :: u) [1] 0%nat))
      by now rewrite length_map, length_seq.
    rewrite map_nth, seq_nth by assumption.
    apply convolve_at_identity.
Qed.

Lemma convolve_full_length (u v full : vector) :
  np_convolve_full u v = Ok full ->
  u <> [] /\ v <> [] /\
  List.length full = (List.length u + List.length v - 1)%nat.
Proof.
  unfold np_convolve_full.
  destruct u as [|x u]; [discriminate|]. destruct v as [|y v]; [discriminate|].
  intro H. inversion H. rewrite length_map, length_seq.
  repeat split; congruence.
Qed.

Lemma slice_nonneg {A : Type} (a : list A) (i j : nat) :
  (i <= j)%nat -> (j <= List.length a)%nat ->
  slice a (Z.of_nat i) (Z.of_nat j) = firstn (j - i) (skipn i a).
Proof.
  intros Hij Hj. unfold slice, slice_index.
  destruct (Z.ltb_spec (Z.of_nat i) 0); [lia|].
  destruct (Z.ltb_spec (Z.of_nat j) 0); [lia|].
  rewrite !Nat2Z.id. now rewrite !Nat.min_l by lia.
Qed.
End ConvFacts.

(** C7.  For every non-empty signal, [conv signal [1.0]] returns the signal
    unchanged; for every non-empty signal and kernel, [conv signal kernel]
    returns as many elements as the signal has, the slice of the full
    convolution that leaves out [front] elements before it and [back] after
    it, where [front + back = len kernel - 1] and the odd one, if any, is in
    [front]. *)
Theorem conv_same (signal kernel : FilterPS.vector) :
  signal <> [] -> kernel <> [] ->
  let npad := (List.length kernel - 1)%nat in
  let front := (npad - npad / 2)%nat in
  let back := (npad / 2)%nat in
  FilterPS.conv signal [1%R] = FilterPS.Ok signal
  /\ exists full out,
       FilterPS.np_convolve_full signal kernel = FilterPS.Ok full
       /\ FilterPS.conv signal kernel = FilterPS.Ok out
       /\ List.length full = (front + List.length signal + back)%nat
       /\ out = firstn (List.length signal) (skipn front full)
       /\ List.length out = List.length signal
       /\ front = (back + npad mod 2)%nat.
Proof.
  intros Hs Hk npad front back. split.
  - unfold FilterPS.conv. rewrite convolve_full_identity by assumption.
    cbn [FilterPS.rbind List.length]. change (Z.of_nat 1 - 1)%Z with 0%Z.
    change (0 - 0 / 2)%Z with (Z.of_nat 0). rewrite Z.add_0_l.
    rewrite slice_nonneg by lia. rewrite Nat.sub_0_r. simpl skipn.
    now rewrite firstn_all.
  - destruct (FilterPS.np_convolve_full signal kernel) as [full|err] eqn:E.
    2:{ destruct signal; [congruence|]. destruct kernel; [congruence|].
        discriminate E. }
    pose proof (convolve_full_length _ _ E) as (_ & _ & Hlen).
    assert (Hklen : (1 <= List.length kernel)%nat)
      by (destruct kernel; [congruence | simpl; lia]).
    assert (Hfb : (front + back = npad)%nat).
    { subst front back. pose proof (Nat.Div0.div_le_upper_bound npad 2 npad).
      assert (npad / 2 <= npad)%nat by (apply Nat.Div0.div_le_upper_bound; lia).
      lia. }
    exists full, (firstn (List.length signal) (skipn front full)).
    repeat split.
    + unfold FilterPS.conv. rewrite E. cbn [FilterPS.rbind].
      replace (Z.of_nat (List.length kernel) - 1)%Z with (Z.of_nat npad)
        by (subst npad; lia).
      replace (Z.of_nat npad - Z.of_nat npad / 2)%Z with (Z.of_nat front)
        by (subst front; rewrite Nat2Z.inj_sub, Nat2Z.inj_div; [reflexivity|];
            apply Nat.Div0.div_le_upper_bound; lia).
      rewrite <- Nat2Z.inj_add.
      rewrite slice_nonneg by (subst npad; lia).
      now replace (front + List.length signal - front)%nat
        with (List.length signal) by lia.
    + subst npad; lia.
    + rewrite length_firstn, length_skipn. subst npad; lia.
    + subst front back.
      pose proof (Nat.div_mod_eq npad 2). lia.
Qed.

Lemma conv_same_witness :
  let signal := [1; 2; 3]%R in
  let kernel := [1; 1]%R in
  let npad := (List.length kernel - 1)%nat in
  let front := (npad - npad / 2)%nat in
  let back := (npad / 2)%nat in
  FilterPS.conv signal [1%R] = FilterPS.Ok signal
  /\ exists full out,
       FilterPS.np_convolve_full signal kernel = FilterPS.Ok full
       /\ FilterPS.conv signal kernel = FilterPS.Ok out
       /\ List.length full = (front + List.length signal + back)%nat
       /\ out = firstn (List.length signal) (skipn front full)
       /\ List.length out = List.length signal
       /\ front = (back + npad mod 2)%nat.
Proof.
  intros signal kernel.
  apply (@conv_same signal kernel); discriminate.
Defined.

(** ** The power spectrum of one subject (C2) *)

Section Spectrum.
Import FilterPS.
Local Open Scope R_scope.

(** [a] has [r] rows of [c] elements. *)
Definition rect (a : matrix) (r c : nat) : Prop :=
  List.length a = r /\ Forall (fun row => List.length row = c) a.

Lemma rect_row (a : matrix) r c i :
  rect a r c -> (i < r)%nat -> List.length (nth i a []) = c.
Proof.
  intros [Hr Hc] Hi. rewrite Forall_forall in Hc. apply Hc, nth_In. lia.
Qed.

Lemma rect_cols (a : matrix) r c :
  rect a r c -> (1 <= r)%nat -> snd (shape a) = c.
Proof.
  intros H Hr. unfold shape; cbn [snd].
  destruct a as [|row a]; [destruct H; simpl in *; lia|].
  apply (rect_row (i := 0) H). lia.
Qed.

Lemma transpose_rect (a : matrix) r c :
  rect a r c -> (1 <= r)%nat -> rect (transpose a) c r.
Proof.
  intros H Hr. unfold transpose. rewrite (rect_cols H Hr). split.
  - now rewrite length_map, length_seq.
  - apply Forall_forall. intros row Hin. apply in_map_iff in Hin.
    destruct Hin as (j & <- & _). rewrite length_map. apply H.
Qed.

Lemma transpose_nth (a : matrix) r c i j :
  rect a r c -> (i < r)%nat -> (j < c)%nat ->
  nth i (nth j (transpose a) []) 0 = nth j (nth i a []) 0.
Proof.
  intros H Hi Hj. unfold transpose. rewrite (rect_cols H) by lia.
  assert (Hrow : nth j (map (fun j0 => map (fun r0 => nth j0 r0 0) a) (seq 0 c)) []
                 = map (fun r0 => nth j r0 0) a).
  { rewrite (nth_indep _ [] (map (fun r0 => nth 0%nat r0 0) a))
      by now rewrite length_map, length_seq.
    rewrite (map_nth (fun j0 => map (fun r0 => nth j0 r0 0) a) (seq 0 c) 0%nat j).
    now rewrite seq_nth by assumption. }
  rewrite Hrow.
  assert (Hia : (i < List.length a)%nat) by (destruct H as [Hr _]; lia).
  rewrite (nth_indep _ 0 (nth j [] 0)) by now rewrite length_map.
  now rewrite (map_nth (fun r0 => nth j r0 0) a [] i).
Qed.

Lemma fft_abs_length (x : vector) : List.length (fft_abs x) = List.length x.
Proof. unfold fft_abs. now rewrite length_map, length_seq. Qed.

Lemma slice_prefix {A : Type} (a : list A) (k : nat) :
  (k <= List.length a)%nat -> slice a 0 (Z.of_nat k) = firstn k a.
Proof.
  intro H. change 0%Z with (Z.of_nat 0). rewrite slice_nonneg by lia.
  now rewrite Nat.sub_0_r.
Qed.

Lemma nth_firstn_lt {A : Type} (a : list A) (k i : nat) d :
  (i < k)%nat -> nth i (firstn k a) d = nth i a d.
Proof.
  revert a i; induction k as [|k IH]; intros [|x a] [|i] H;
    try lia; try reflexivity.
  cbn [firstn]. change (nth i (firstn k a) d = nth i a d). apply IH; lia.
Qed.
End Spectrum.

Section SpectrumSpec.
Import FilterPS.
Local Open Scope R_scope.

Lemma nth_map_in {A B : Type} (f : A -> B) (l : list A) d d' i :
  (i < List.length l)%nat -> nth i (map f l) d' = f (nth i l d).
Proof.
  intro H. rewrite (nth_indep _ d' (f d)) by now rewrite length_map.
  apply map_nth.
Qed.

Lemma rect_map (a : matrix) r c (f : list R -> list R) c' :
  rect a r c -> (forall row, List.length row = c -> List.length (f row) = c') ->
  rect (map f a) r c'.
Proof.
  intros [Hr Hc] Hf. split; [now rewrite length_map|].
  apply Forall_forall. intros row Hin. apply in_map_iff in Hin.
  destruct Hin as (x & <- & Hx). apply Hf. rewrite Forall_forall in Hc. auto.
Qed.

Lemma shape_rect (a : matrix) r c :
  rect a r c -> (1 <= r)%nat -> shape a = (r, c).
Proof.
  intros H Hr. unfold shape. f_equal; [apply H|].
  now apply (rect_cols H).
Qed.
End SpectrumSpec.

(** What [filt_pow_spetra] computes when neither [np.fft.fft] nor the
    division [Tmax / TR] raises. *)
Definition power_bins (ts : list (list R)) (Tmax : nat) (norm : R)
  : list (list R) :=
  map (map (fun p => p / norm)%R)
    (map (map (fun p => p * p)%R)
       (FilterPS.transpose
          (map (fun r => FilterPS.slice r 0 (Z.of_nat (Tmax / 2)))
             (map FilterPS.fft_abs ts)))).

Lemma truediv_nonzero (x y : R) :
  y <> 0%R -> FilterPS.truediv x y = FilterPS.Ok (x / y)%R.
Proof.
  intro H. unfold FilterPS.truediv. destruct (Req_dec_T y 0); [contradiction|].
  reflexivity.
Qed.

Lemma truediv_zero (x : R) :
  FilterPS.truediv x 0 = FilterPS.Raise FilterPS.ZeroDivisionError.
Proof.
  unfold FilterPS.truediv. destruct (Req_dec_T 0 0); [reflexivity|].
  contradiction.
Qed.

Lemma filt_pow_spetra_returns (signal : list (list R)) (TR : R)
  (bpf : FilterPS.BandPassFilter) (nNodes Tmax : nat) :
  rect signal nNodes Tmax -> (1 <= nNodes)%nat -> (1 <= Tmax)%nat ->
  TR <> 0%R ->
  rect (FilterPS.bpf_filter bpf (FilterPS.transpose signal)) Tmax nNodes ->
  FilterPS.filt_pow_spetra signal TR bpf
  = FilterPS.Ok
      (power_bins
         (FilterPS.transpose (FilterPS.bpf_filter bpf (FilterPS.transpose signal)))
         Tmax (INR Tmax / TR)).
Proof.
  intros Hsig Hn HT HTR Hfilt.
  unfold FilterPS.filt_pow_spetra. rewrite (shape_rect Hsig Hn).
  assert (Hts : rect (FilterPS.transpose
                        (FilterPS.bpf_filter bpf (FilterPS.transpose signal)))
                  nNodes Tmax) by (apply transpose_rect; [assumption | lia]).
  unfold FilterPS.fft_abs_rows. rewrite (rect_cols Hts Hn).
  destruct (Nat.eqb_spec Tmax 0) as [E | _]; [lia|].
  cbn [FilterPS.rbind]. rewrite truediv_nonzero by assumption.
  reflexivity.
Qed.

Lemma power_bins_entries (ts : list (list R)) (nNodes Tmax : nat) (norm : R) :
  rect ts nNodes Tmax -> (1 <= nNodes)%nat ->
  rect (power_bins ts Tmax norm) (Tmax / 2) nNodes
  /\ forall k r, (k < Tmax / 2)%nat -> (r < nNodes)%nat ->
       let X := nth k (FilterPS.fft_abs (nth r ts [])) 0%R in
       nth r (nth k (power_bins ts Tmax norm) []) 0%R = (X * X / norm)%R.
Proof.
  intros Hts Hn. unfold power_bins.
  destruct (Nat.eq_dec (Tmax / 2) 0) as [HK | HK].
  { rewrite HK. change (Z.of_nat 0) with 0%Z.
    assert (Hnil : FilterPS.transpose
                     (map (fun r => FilterPS.slice r 0 0)
                        (map FilterPS.fft_abs ts)) = []).
    { unfold FilterPS.transpose at 1, FilterPS.shape; cbn [snd].
      destruct (map FilterPS.fft_abs ts) as [|row rows]; reflexivity. }
    rewrite Hnil. split; [split; [reflexivity | constructor] | intros; lia]. }
  assert (HT : (2 <= Tmax)%nat).
  { destruct Tmax as [|[|T]]; [simpl in HK; congruence | simpl in HK; congruence | lia]. }
  assert (HKle : (Tmax / 2 <= Tmax)%nat) by (apply Nat.Div0.div_le_upper_bound; lia).
  assert (Hpw : rect (map FilterPS.fft_abs ts) nNodes Tmax).
  { eapply rect_map; [exact Hts|]. intros row <-. apply fft_abs_length. }
  assert (Hsl : rect (map (fun r => FilterPS.slice r 0 (Z.of_nat (Tmax / 2)))
                       (map FilterPS.fft_abs ts)) nNodes (Tmax / 2)).
  { eapply rect_map; [exact Hpw|]. intros row Hrow.
    rewrite slice_prefix by lia. rewrite length_firstn. lia. }
  pose proof (transpose_rect Hsl Hn) as Htr.
  assert (Hsq : rect (map (map (fun p => p * p)%R)
                        (FilterPS.transpose
                           (map (fun r => FilterPS.slice r 0 (Z.of_nat (Tmax / 2)))
                              (map FilterPS.fft_abs ts)))) (Tmax / 2) nNodes).
  { eapply rect_map; [exact Htr|]. intros row <-. now rewrite length_map. }
  split.
  - eapply rect_map; [exact Hsq|]. intros row <-. now rewrite length_map.
  - intros k r Hk Hr. cbv zeta.
    rewrite (nth_map_in _ _ [] []) by (destruct Hsq; lia).
    rewrite (nth_map_in _ _ 0%R 0%R) by (rewrite (rect_row Hsq Hk); lia).
    rewrite (nth_map_in _ _ [] []) by (destruct Htr; lia).
    rewrite (nth_map_in _ _ 0%R 0%R) by (rewrite (rect_row Htr Hk); lia).
    rewrite (transpose_nth Hsl Hr Hk).
    rewrite (nth_map_in _ _ [] []) by (destruct Hpw; lia).
    rewrite slice_prefix by (rewrite (rect_row Hpw Hr); lia).
    rewrite nth_firstn_lt by assumption.
    rewrite (nth_map_in _ _ [] []) by (destruct Hts; lia).
    reflexivity.
Qed.

Lemma filt_pow_spetra_entries (signal : list (list R)) (TR : R)
  (bpf : FilterPS.BandPassFilter) (nNodes Tmax : nat) :
  rect signal nNodes Tmax -> (1 <= nNodes)%nat -> (1 <= Tmax)%nat ->
  TR <> 0%R ->
  rect (FilterPS.bpf_filter bpf (FilterPS.transpose signal)) Tmax nNodes ->
  let ts := FilterPS.transpose
              (FilterPS.bpf_filter bpf (FilterPS.transpose signal)) in
  exists pow,
    FilterPS.filt_pow_spetra signal TR bpf = FilterPS.Ok pow
    /\ rect pow (Tmax / 2) nNodes
    /\ forall k r, (k < Tmax / 2)%nat -> (r < nNodes)%nat ->
         let X := nth k (FilterPS.fft_abs (nth r ts [])) 0%R in
         nth r (nth k pow []) 0%R = (X * X / (INR Tmax / TR))%R.
Proof.
  intros Hsig Hn HT HTR Hfilt ts.
  exists (power_bins ts Tmax (INR Tmax / TR)). split.
  - eapply filt_pow_spetra_returns; eassumption.
  - apply power_bins_entries; [|assumption].
    apply transpose_rect; [assumption | lia].
Qed.

(** C2, as the code has it.  For a time series of [nNodes >= 1] regions and
    [Tmax >= 1] samples, a sampling interval [TR] other than zero, and a
    filter that returns the shape it is given, the estimator returns
    [Tmax / 2] rows (frequency bins) of [nNodes] entries, and the entry of
    bin [k] and region [r] is the squared magnitude of Fourier coefficient
    [k] of the filtered series of region [r] divided by [Tmax / TR]: the
    divisor is the number of samples over the sampling interval, not half of
    it. *)
Theorem filt_pow_spetra_bins (signal : list (list R)) (TR : R)
  (bpf : FilterPS.BandPassFilter) (nNodes Tmax : nat) :
  rect signal nNodes Tmax -> (1 <= nNodes)%nat -> (1 <= Tmax)%nat ->
  TR <> 0%R ->
  rect (FilterPS.bpf_filter bpf (FilterPS.transpose signal)) Tmax nNodes ->
  let ts := FilterPS.transpose
              (FilterPS.bpf_filter bpf (FilterPS.transpose signal)) in
  exists pow,
    FilterPS.filt_pow_spetra signal TR bpf = FilterPS.Ok pow
    /\ rect pow (Tmax / 2) nNodes
    /\ forall k r, (k < Tmax / 2)%nat -> (r < nNodes)%nat ->
         let X := nth k (FilterPS.fft_abs (nth r ts [])) 0%R in
         nth r (nth k pow []) 0%R = (X * X / (INR Tmax / TR))%R.
Proof. intros. now apply filt_pow_spetra_entries. Qed.

(** One region, two samples, sampling interval 1, and a filter that returns
    its input. *)
Definition two_samples : list (list R) := [[1; 1]]%R.
Definition pass_all : FilterPS.BandPassFilter :=
  {| FilterPS.bpf_filter := fun x => x |}.

Lemma two_samples_rect :
  rect two_samples 1 2
  /\ rect (FilterPS.bpf_filter pass_all (FilterPS.transpose two_samples)) 2 1.
Proof. repeat split; repeat constructor. Defined.

Lemma filt_pow_spetra_bins_witness :
  let ts := FilterPS.transpose
              (FilterPS.bpf_filter pass_all (FilterPS.transpose two_samples)) in
  exists pow,
    FilterPS.filt_pow_spetra two_samples 1 pass_all = FilterPS.Ok pow
    /\ rect pow (2 / 2) 1
    /\ forall k r, (k < 2 / 2)%nat -> (r < 1)%nat ->
         let X := nth k (FilterPS.fft_abs (nth r ts [])) 0%R in
         nth r (nth k pow []) 0%R = (X * X / (INR 2 / 1))%R.
Proof.
  apply (@filt_pow_spetra_bins two_samples 1%R pass_all 1 2).
  - exact (proj1 two_samples_rect).
  - exact (le_n 1).
  - exact (le_S 1 1 (le_n 1)).
  - exact R1_neq_R0.
  - exact (proj2 two_samples_rect).
Defined.

Lemma fft_abs_two_samples :
  nth 0 (FilterPS.fft_abs [1; 1]%R) 0%R = 2%R.
Proof.
  unfold FilterPS.fft_abs. cbn [List.length seq map].
  change (nth 0 (?x :: ?l) 0%R) with x.
  assert (Hre : FilterPS.dft_re [1; 1]%R 0 = 2%R).
  { unfold FilterPS.dft_re. cbn [List.length seq map].
    change (nth 0 [1; 1]%R 0%R) with 1%R. change (nth 1 [1; 1]%R 0%R) with 1%R.
    rewrite !rsum_cons, rsum_nil. cbn [INR].
    replace (2 * PI * 0 * 0 / (1 + 1))%R with 0%R by (field; lra).
    replace (2 * PI * 0 * 1 / (1 + 1))%R with 0%R by (field; lra).
    rewrite cos_0. ring. }
  assert (Him : FilterPS.dft_im [1; 1]%R 0 = 0%R).
  { unfold FilterPS.dft_im. cbn [List.length seq map].
    change (nth 0 [1; 1]%R 0%R) with 1%R. change (nth 1 [1; 1]%R 0%R) with 1%R.
    rewrite !rsum_cons, rsum_nil. cbn [INR].
    replace (2 * PI * 0 * 0 / (1 + 1))%R with 0%R by (field; lra).
    replace (2 * PI * 0 * 1 / (1 + 1))%R with 0%R by (field; lra).
    rewrite sin_0. ring. }
  rewrite Hre, Him.
  replace (2 * 2 + 0 * 0)%R with (2 * 2)%R by ring.
  apply sqrt_square. lra.
Qed.

(** C2 as the specification words it fails: for [two_samples] the single
    entry of the spectrum is [|X|^2 / (Tmax / TR) = 2], not
    [|X|^2 / ((Tmax / 2) / TR) = 4]. *)
Lemma filt_pow_spetra_not_half_normalised :
  let X := nth 0 (FilterPS.fft_abs (nth 0 two_samples [])) 0%R in
  exists pow,
    FilterPS.filt_pow_spetra two_samples 1 pass_all = FilterPS.Ok pow
    /\ nth 0 (nth 0 pow []) 0%R = 2%R
    /\ (X * X / ((INR 2 / 2) / 1))%R = 4%R
    /\ nth 0 (nth 0 pow []) 0%R <> (X * X / ((INR 2 / 2) / 1))%R.
Proof.
  intros X.
  assert (HX : X = 2%R) by apply fft_abs_two_samples.
  destruct (@filt_pow_spetra_entries two_samples 1%R pass_all 1 2
              (proj1 two_samples_rect) (le_n 1) (le_S 1 1 (le_n 1)) R1_neq_R0
              (proj2 two_samples_rect)) as (pow & Hok & _ & Hentry).
  exists pow. split; [exact Hok|].
  assert (Hpow : nth 0 (nth 0 pow []) 0%R = (X * X / (INR 2 / 1))%R).
  { apply Hentry; repeat constructor. }
  rewrite Hpow, HX. cbn [INR].
  repeat split; try (field_simplify; lra); lra.
Qed.

(** ** The multi-subject estimator (C4, C5) *)

(** C5: what the code does.  For every two-dimensional input the
    single-subject branch calls [filt_pow_spetra] with two arguments and the
    call raises [TypeError]; no dominant-frequency vector is returned. *)
Theorem single_subject_branch_raises (a : list (list R)) (tr : R)
  (bpf : FilterPS.BandPassFilter) :
  FilterPS.filt_pow_spetra_multiple_subjects (FilterPS.Array2 a) tr bpf
  = FilterPS.Raise FilterPS.TypeError.
Proof.
  unfold FilterPS.filt_pow_spetra_multiple_subjects, FilterPS.unsmoothed.
  destruct (FilterPS.shape a) as [n_nodes tmax]. reflexivity.
Qed.

(** Two subjects of one region: six samples, then four. *)
Definition cohort_6_4 : list (string * list (list R)) :=
  [("a"%string, [[1; 1; 1; 1; 1; 1]]%R); ("b"%string, [[1; 1; 1; 1]]%R)].

(** C4: what the code does.  The common length is the length of the first
    subject of the dict; a later subject that is shorter keeps its own
    length, and storing its spectrum raises [ValueError]. *)
Theorem shorter_later_subject_raises :
  FilterPS.filt_pow_spetra_multiple_subjects (FilterPS.Dict cohort_6_4) 1 pass_all
  = FilterPS.Raise FilterPS.ValueError.
Proof.
  unfold FilterPS.filt_pow_spetra_multiple_subjects, FilterPS.unsmoothed,
    FilterPS.call_filt_pow_spetra, FilterPS.filt_pow_spetra, FilterPS.truediv,
    cohort_6_4.
  destruct (Req_dec_T 1 0) as [E | E]; [lra|]. reflexivity.
Qed.

(** * Further properties of the code *)

(** ** The parameter table of the plasticity variant

    [Naskar2021._init_dependant] (lines 108-130) fills the table
    [self.m] that [get_numba_dfun] (lines 145-155) hands to the dfun by its
    address. *)

Section NaskarTable.
Context {F : Type} {FL : Float64 F}.

(** The attributes of [class Naskar2021], each a scalar or one value per
    region. *)
Record Naskar_attrs := {
  attr_t_glu : nd F; attr_t_gaba : nd F; attr_We : nd F; attr_Wi : nd F;
  attr_I0 : nd F; attr_w : nd F; attr_J_NMDA : nd F; attr_M_e : nd F;
  attr_ae : nd F; attr_be : nd F; attr_de : nd F; attr_ai : nd F;
  attr_bi : nd F; attr_di : nd F; attr_M_i : nd F; attr_alfa_e : nd F;
  attr_alfa_i : nd F; attr_B_e : nd F; attr_B_i : nd F; attr_gamma : nd F;
  attr_rho : nd F
}.

(** Modelled from the spec: [Model.as_array], of the base class that is not
    among the sources; the specification's Parameter Vector Builder
    broadcasts a scalar across all region columns and takes a per-region
    array as it is. *)
Definition as_array (n_rois : nat) (x : nd F) : list F :=
  match x with
  | Scalar v => repeat v n_rois
  | Vec v => v
  end.

(** [m[k] = row]. *)
Fixpoint set_row (m : list (list F)) (k : nat) (row : list F) : list (list F) :=
  match m, k with
  | [], _ => []
  | _ :: m', 0 => row :: m'
  | r :: m', S k' => r :: set_row m' k' row
  end.

(** [empty] is what [np.empty((n_params, n_rois))] returns: an array of
    that shape with whatever the memory held. *)
Definition Naskar_init_dependant (a : Naskar_attrs) (n_rois : nat)
  (empty : list (list F)) : list (list F) :=
  let m := empty in
  let m := set_row m Naskar2021.t_glu (as_array n_rois (attr_t_glu a)) in
  let m := set_row m Naskar2021.t_gaba (as_array n_rois (attr_t_gaba a)) in
  let m := set_row m Naskar2021.We (as_array n_rois (attr_We a)) in
  let m := set_row m Naskar2021.Wi (as_array n_rois (attr_Wi a)) in
  let m := set_row m Naskar2021.I0 (as_array n_rois (attr_I0 a)) in
  let m := set_row m Naskar2021.w (as_array n_rois (attr_w a)) in
  let m := set_row m Naskar2021.J_NMDA (as_array n_rois (attr_J_NMDA a)) in
  let m := set_row m Naskar2021.M_e (as_array n_rois (attr_M_e a)) in
  let m := set_row m Naskar2021.ae (as_array n_rois (attr_ae a)) in
  let m := set_row m Naskar2021.be (as_array n_rois (attr_be a)) in
  let m := set_row m Naskar2021.de (as_array n_rois (attr_de a)) in
  let m := set_row m Naskar2021.ai (as_array n_rois (attr_ai a)) in
  let m := set_row m Naskar2021.bi (as_array n_rois (attr_bi a)) in
  let m := set_row m Naskar2021.di (as_array n_rois (attr_di a)) in
  let m := set_row m Naskar2021.M_i (as_array n_rois (attr_M_i a)) in
  let m := set_row m Naskar2021.alfa_e (as_array n_rois (attr_alfa_e a)) in
  let m := set_row m Naskar2021.alfa_i (as_array n_rois (attr_alfa_i a)) in
  let m := set_row m Naskar2021.B_e (as_array n_rois (attr_B_e a)) in
  let m := set_row m Naskar2021.B_i (as_array n_rois (attr_B_i a)) in
  let m := set_row m Naskar2021.gamma (as_array n_rois (attr_gamma a)) in
  let m := set_row m Naskar2021.rho (as_array n_rois (attr_rho a)) in
  m.

(** The attributes in the order of their indices. *)
Definition Naskar_attr_list (a : Naskar_attrs) : list (nd F) :=
  [attr_t_glu a; attr_t_gaba a; attr_We a; attr_Wi a; attr_I0 a; attr_w a;
   attr_J_NMDA a; attr_M_e a; attr_ae a; attr_be a; attr_de a; attr_M_i a;
   attr_ai a; attr_bi a; attr_di a; attr_alfa_i a; attr_alfa_e a; attr_B_e a;
   attr_B_i a; attr_gamma a; attr_rho a].

Lemma length_21 {A : Type} (l : list A) :
  List.length l = 21 ->
  exists x0 x1 x2 x3 x4 x5 x6 x7 x8 x9 x10 x11 x12 x13 x14 x15 x16 x17 x18 x19 x20,
    l = [x0; x1; x2; x3; x4; x5; x6; x7; x8; x9; x10; x11; x12; x13; x14; x15;
         x16; x17; x18; x19; x20].
Proof.
  intro H.
  do 21 (destruct l as [|? l]; [discriminate H|]).
  destruct l; [|discriminate H].
  repeat eexists.
Qed.

Lemma Naskar_table_rows (a : Naskar_attrs) (n_rois : nat)
  (empty : list (list F)) :
  List.length empty = Naskar2021.n_params ->
  Naskar_init_dependant a n_rois empty
  = map (as_array n_rois) (Naskar_attr_list a).
Proof.
  intro H. apply length_21 in H.
  destruct H as (x0 & x1 & x2 & x3 & x4 & x5 & x6 & x7 & x8 & x9 & x10 & x11
                 & x12 & x13 & x14 & x15 & x16 & x17 & x18 & x19 & x20 & ->).
  reflexivity.
Qed.


(** X2.  What [nb.carray(addr, (n_params,))] exposes: [m[k]] is element [k]
    of the table's memory, which lies in row [k / n_rois] at column
    [k mod n_rois]. *)
Theorem Naskar_m_is_flat (table : list (list F)) (n_rois k : nat) :
  Forall (fun r => List.length r = n_rois) table -> 0 < n_rois ->
  k < Naskar2021.n_params ->
  Naskar_m table k = nth (k mod n_rois) (nth (k / n_rois) table []) lit_0.
Proof. exact (@Naskar_flat_index F FL table n_rois k). Qed.
End NaskarTable.

Section NaskarReads.
Context {F : Type} {FL : Float64 F}.

(** X3.  With scalar attributes [vs] (in index order) and [n_rois] regions,
    the dfun's [m[k]] is the attribute of index [k / n_rois]: the attribute of
    index [k] itself exactly when there is one region. *)
Theorem Naskar_m_reads_attribute (a : Naskar_attrs) (vs : list F)
  (n_rois k : nat) (empty : list (list F)) :
  Naskar_attr_list a = map Scalar vs ->
  List.length empty = Naskar2021.n_params ->
  0 < n_rois -> k < Naskar2021.n_params ->
  Naskar_m (Naskar_init_dependant a n_rois empty) k = nth (k / n_rois) vs lit_0.
Proof.
  intros Ha He Hn Hk.
  rewrite Naskar_table_rows by assumption.
  rewrite Ha, map_map. cbn [as_array].
  assert (Hlen : List.length vs = 21).
  { apply (f_equal (@List.length _)) in Ha. rewrite length_map in Ha.
    symmetry. exact Ha. }
  rewrite (@Naskar_flat_index _ _ _ n_rois k); try assumption.
  - assert (Hq : k / n_rois < List.length vs).
    { rewrite Hlen. apply Nat.Div0.div_lt_upper_bound.
      unfold Naskar2021.n_params in Hk. nia. }
    rewrite (nth_indep _ [] (repeat lit_0 n_rois)) by now rewrite length_map.
    rewrite (map_nth (fun v => repeat v n_rois) vs lit_0).
    apply nth_repeat_lt. apply Nat.mod_upper_bound. lia.
  - apply Forall_forall. intros r Hr. apply in_map_iff in Hr.
    destruct Hr as (v & <- & _). apply repeat_length.
Qed.
End NaskarReads.

(** The default attributes of [class Naskar2021]. *)
Definition Naskar_default_attrs : Naskar_attrs (F := float) := {|
  attr_t_glu := Scalar 7.46%float; attr_t_gaba := Scalar 1.82%float;
  attr_We := Scalar 1%float; attr_Wi := Scalar 0.7%float;
  attr_I0 := Scalar 0.382%float; attr_w := Scalar 1.4%float;
  attr_J_NMDA := Scalar 0.15%float; attr_M_e := Scalar 1%float;
  attr_ae := Scalar 310%float; attr_be := Scalar 125%float;
  attr_de := Scalar 0.16%float; attr_ai := Scalar 615%float;
  attr_bi := Scalar 177%float; attr_di := Scalar 0.087%float;
  attr_M_i := Scalar 1%float; attr_alfa_e := Scalar 0.072%float;
  attr_alfa_i := Scalar 0.53%float; attr_B_e := Scalar 0.0066%float;
  attr_B_i := Scalar 0.18%float; attr_gamma := Scalar 1%float;
  attr_rho := Scalar 3%float
|}.

(** With the defaults and two regions, [m[gamma]] is the attribute of index
    9, [be = 125]. *)
Lemma Naskar_m_reads_attribute_witness :
  Naskar_m (FL := Float64_binary64 exp64)
    (Naskar_init_dependant Naskar_default_attrs 2 (repeat [] 21))
    Naskar2021.gamma
  = nth (Naskar2021.gamma / 2)
      [7.46; 1.82; 1; 0.7; 0.382; 1.4; 0.15; 1; 310; 125; 0.16;
       1; 615; 177; 0.087; 0.53; 0.072; 0.0066; 0.18; 1; 3]%float 0%float.
Proof.
  apply (@Naskar_m_reads_attribute float (Float64_binary64 exp64)
           Naskar_default_attrs _ 2 Naskar2021.gamma (repeat [] 21)).
  - reflexivity.
  - reflexivity.
  - exact Nat.lt_0_2.
  - unfold Naskar2021.gamma, Naskar2021.n_params. repeat constructor.
Defined.


Lemma Naskar_m_is_flat_witness :
  Naskar_m (FL := Float64_binary64 exp64) Naskar_defaults_64 Naskar2021.rho
  = nth (Naskar2021.rho mod 1) (nth (Naskar2021.rho / 1) Naskar_defaults_64 [])
      0%float.
Proof.
  apply (@Naskar_m_is_flat float (Float64_binary64 exp64) Naskar_defaults_64 1
           Naskar2021.rho).
  - repeat constructor.
  - exact Nat.lt_0_1.
  - unfold Naskar2021.rho, Naskar2021.n_params. repeat constructor.
Defined.

(** ** Shapes of what the dfuns return *)

Section DfunShapes.
Context {F : Type} {FL : Float64 F}.

Lemma fits_list_length n (a : nd F) :
  is_vec a -> nd_fits n a -> List.length (nd_list a) = n.
Proof. destruct a; simpl; tauto. Qed.

(** The caller's contract for the plasticity variant: [n] regions. *)
Definition Naskar_shape (state coupling : list (list F)) (n : nat) : Prop :=
  List.length (nth 0 state []) = n /\ List.length (nth 1 state []) = n /\
  List.length (nth 2 state []) = n /\ List.length (nth 0 coupling []) = n.

Lemma Naskar_outputs_fit addr state coupling n :
  Naskar_shape state coupling n ->
  let l := Naskar_locals addr state coupling in
  (is_vec (Naskar2021.dSe l) /\ nd_fits n (Naskar2021.dSe l))
  /\ (is_vec (Naskar2021.dSi l) /\ nd_fits n (Naskar2021.dSi l))
  /\ (is_vec (Naskar2021.dJ l) /\ nd_fits n (Naskar2021.dJ l))
  /\ (is_vec (Naskar2021.Ie l) /\ nd_fits n (Naskar2021.Ie l))
  /\ (is_vec (Naskar2021.re l) /\ nd_fits n (Naskar2021.re l)).
Proof.
  intros (H0 & H1 & H2 & Hc) l. subst l.
  repeat split; cbn; auto 100 with nd.
Qed.

Lemma Deco_outputs_fit P m state coupling n :
  Deco_shape P m state coupling n ->
  let l := Deco_locals P m state coupling in
  (is_vec (Deco2018.dSe l) /\ nd_fits n (Deco2018.dSe l))
  /\ (is_vec (Deco2018.dSi l) /\ nd_fits n (Deco2018.dSi l))
  /\ (is_vec (Deco2018.Ie l) /\ nd_fits n (Deco2018.Ie l))
  /\ (is_vec (Deco2018.re l) /\ nd_fits n (Deco2018.re l)).
Proof.
  intros H l. subst l. deco_shape H.
  repeat split; cbn; auto 100 with nd.
Qed.

(** X4.  For inputs of [n] regions, [Naskar2021_dfun] returns a derivative of
    3 rows and observables of 2 rows, [Deco2018_dfun] a derivative of 2 rows
    and observables of 2 rows, every row with [n] entries. *)
Theorem dfun_shapes (addr stateN couplingN : list (list F))
  (P : Deco2018.P_index) (m stateD couplingD : list (list F)) (n : nat) :
  Naskar_shape stateN couplingN n ->
  Deco_shape P m stateD couplingD n ->
  let outN := Naskar2021.Naskar2021_dfun (NP := NumPy_values) addr stateN couplingN in
  let outD := Deco2018.Deco2018_dfun (NP := NumPy_values) P m stateD couplingD in
  (shape2 (fst outN) Naskar2021.n_state_vars n
   /\ shape2 (snd outN) Naskar2021.n_observable_vars n)
  /\ (shape2 (fst outD) Deco2018.n_state_vars n
      /\ shape2 (snd outD) Deco2018.n_observable_vars n).
Proof.
  intros HN HD outN outD.
  pose proof (Naskar_outputs_fit addr HN) as (A1 & A2 & A3 & A4 & A5).
  pose proof (Deco_outputs_fit HD) as (B1 & B2 & B3 & B4).
  unfold outN, outD. rewrite Naskar_dfun_rows.
  change (Deco2018.Deco2018_dfun (NP := NumPy_values) P m stateD couplingD)
    with ([nd_list (Deco2018.dSe (Deco_locals P m stateD couplingD));
           nd_list (Deco2018.dSi (Deco_locals P m stateD couplingD))],
          [nd_list (Deco2018.Ie (Deco_locals P m stateD couplingD));
           nd_list (Deco2018.re (Deco_locals P m stateD couplingD))]).
  cbn [fst snd]. unfold shape2.
  repeat split; try reflexivity;
    repeat (apply Forall_cons || apply Forall_nil);
    apply fits_list_length; tauto.
Qed.
End DfunShapes.

Lemma Naskar_shape_initial_64 : Naskar_shape state_64_initial coupling_64_zero 1.
Proof. repeat split. Defined.

Lemma dfun_shapes_witness :
  let FL := Float64_binary64 exp64 in
  let outN := Naskar2021.Naskar2021_dfun (NP := NumPy_values)
                Naskar_defaults_64 state_64_initial coupling_64_zero in
  let outD := Deco2018.Deco2018_dfun (NP := NumPy_values) Deco_P_example
                Deco_defaults_64 Deco_state_64_singular coupling_64_zero in
  (shape2 (fst outN) Naskar2021.n_state_vars 1
   /\ shape2 (snd outN) Naskar2021.n_observable_vars 1)
  /\ (shape2 (fst outD) Deco2018.n_state_vars 1
      /\ shape2 (snd outD) Deco2018.n_observable_vars 1).
Proof.
  apply (@dfun_shapes float (Float64_binary64 exp64)
           Naskar_defaults_64 state_64_initial coupling_64_zero
           Deco_P_example Deco_defaults_64 Deco_state_64_singular
           coupling_64_zero 1).
  - exact Naskar_shape_initial_64.
  - exact Deco_shape_singular.
Defined.

(** ** The dfuns region by region

    The equations of one region, read off lines 157-172 of naskar2021.py and
    lines 92-109 of serotonin2A.py with every array replaced by its element
    for that region. *)

Section RegionEquations.
Context {F : Type} {FL : Float64 F}.
Local Open Scope f64_scope.

Record Naskar_out := {
  N_dSe : F; N_dSi : F; N_dJ : F; N_Ie : F; N_re : F
}.

Definition Naskar_equations (m : nat -> F) (s_e s_i j c : F) : Naskar_out :=
  let Se := fclip s_e lit_0 lit_1 in
  let Si := fclip s_i lit_0 lit_1 in
  let Ie := m Naskar2021.We * m Naskar2021.I0
            + m Naskar2021.w * m Naskar2021.J_NMDA * Se
            + m Naskar2021.J_NMDA * c - j * Si in
  let Ii := m Naskar2021.Wi * m Naskar2021.I0 + m Naskar2021.J_NMDA * Se - Si in
  let ye := m Naskar2021.M_e * (m Naskar2021.ae * Ie - m Naskar2021.be) in
  let re := rate ye (m Naskar2021.de) in
  let yi := m Naskar2021.M_i * (m Naskar2021.ai * Ii - m Naskar2021.bi) in
  let ri := rate yi (m Naskar2021.di) in
  {| N_dSe := - Se * m Naskar2021.B_e
              + m Naskar2021.alfa_e * m Naskar2021.t_glu * (lit_1 - Se) * re
                / lit_1000;
     N_dSi := - Si * m Naskar2021.B_i
              + m Naskar2021.alfa_i * m Naskar2021.t_gaba * (lit_1 - Si) * ri
                / lit_1000;
     N_dJ := m Naskar2021.gamma * ri / lit_1000 * (re - m Naskar2021.rho)
             / lit_1000;
     N_Ie := Ie;
     N_re := re |}.

Variables addr state coupling : list (list F).
Let l := Naskar_locals addr state coupling.
Let m := Naskar_m addr.

Lemma Naskar_dSe_pointwise i :
  Naskar_region state coupling i ->
  nd_get lit_0 i (Naskar2021.dSe l)
  = - nd_get lit_0 i (Naskar2021.Se l) * m Naskar2021.B_e
    + m Naskar2021.alfa_e * m Naskar2021.t_glu
      * (lit_1 - nd_get lit_0 i (Naskar2021.Se l))
      * nd_get lit_0 i (Naskar2021.re l) / lit_1000.
Proof.
  intro H.
  pose proof (Naskar_Se_in_range addr H) as HSe.
  pose proof (Naskar_re_in_range addr H) as Hre.
  change (Naskar2021.dSe l) with
    (nd_map2 fadd
       (nd_map2 fmul (nd_map fneg (Naskar2021.Se l)) (Scalar (m Naskar2021.B_e)))
       (nd_map2 fdiv
          (nd_map2 fmul
             (nd_map2 fmul
                (nd_map2 fmul (Scalar (m Naskar2021.alfa_e))
                   (Scalar (m Naskar2021.t_glu)))
                (nd_map2 fsub (Scalar lit_1) (Naskar2021.Se l)))
             (Naskar2021.re l))
          (Scalar lit_1000))).
  pointwise. reflexivity.
Qed.

Lemma Naskar_dSi_pointwise i :
  Naskar_region state coupling i ->
  nd_get lit_0 i (Naskar2021.dSi l)
  = - nd_get lit_0 i (Naskar2021.Si l) * m Naskar2021.B_i
    + m Naskar2021.alfa_i * m Naskar2021.t_gaba
      * (lit_1 - nd_get lit_0 i (Naskar2021.Si l))
      * nd_get lit_0 i (Naskar2021.ri l) / lit_1000.
Proof.
  intro H.
  pose proof (Naskar_Si_in_range addr H) as HSi.
  pose proof (Naskar_ri_in_range addr H) as Hri.
  change (Naskar2021.dSi l) with
    (nd_map2 fadd
       (nd_map2 fmul (nd_map fneg (Naskar2021.Si l)) (Scalar (m Naskar2021.B_i)))
       (nd_map2 fdiv
          (nd_map2 fmul
             (nd_map2 fmul
                (nd_map2 fmul (Scalar (m Naskar2021.alfa_i))
                   (Scalar (m Naskar2021.t_gaba)))
                (nd_map2 fsub (Scalar lit_1) (Naskar2021.Si l)))
             (Naskar2021.ri l))
          (Scalar lit_1000))).
  pointwise. reflexivity.
Qed.

Lemma Naskar_rows_is_vec :
  is_vec (Naskar2021.dSe l) /\ is_vec (Naskar2021.dSi l)
  /\ is_vec (Naskar2021.Ie l).
Proof. repeat split; cbn; auto 100 with nd. Qed.

(** Column [i] of what [Naskar2021_dfun] returns. *)
Definition Naskar_column (i : nat) : Naskar_out :=
  let out := Naskar2021.Naskar2021_dfun (NP := NumPy_values) addr state coupling in
  {| N_dSe := nth i (nth 0 (fst out) []) lit_0;
     N_dSi := nth i (nth 1 (fst out) []) lit_0;
     N_dJ := nth i (nth 2 (fst out) []) lit_0;
     N_Ie := nth i (nth 0 (snd out) []) lit_0;
     N_re := nth i (nth 1 (snd out) []) lit_0 |}.

Lemma Naskar_column_locals i :
  Naskar_column i
  = {| N_dSe := nd_get lit_0 i (Naskar2021.dSe l);
       N_dSi := nd_get lit_0 i (Naskar2021.dSi l);
       N_dJ := nd_get lit_0 i (Naskar2021.dJ l);
       N_Ie := nd_get lit_0 i (Naskar2021.Ie l);
       N_re := nd_get lit_0 i (Naskar2021.re l) |}.
Proof.
  destruct Naskar_rows_is_vec as (V1 & V2 & V3).
  unfold Naskar_column.
  change (Naskar2021.Naskar2021_dfun (NP := NumPy_values) addr state coupling)
    with ([nd_list (Naskar2021.dSe l); nd_list (Naskar2021.dSi l);
           nd_list (Naskar2021.dJ l)],
          [nd_list (Naskar2021.Ie l); nd_list (Naskar2021.re l)]).
  cbv zeta. cbn [fst snd].
  change (nth 0 [?a; ?b; ?c] []) with a. change (nth 1 [?a; ?b; ?c] []) with b.
  change (nth 2 [?a; ?b; ?c] []) with c.
  change (nth 0 [?a; ?b] []) with a. change (nth 1 [?a; ?b] []) with b.
  rewrite (@nth_nd_list _ lit_0 i _ V1), (@nth_nd_list _ lit_0 i _ V2),
    (@nth_nd_list _ lit_0 i _ V3).
  unfold l.
  rewrite (@nth_nd_list _ lit_0 i _ (Naskar_dJ_is_vec addr state coupling)).
  rewrite (@nth_nd_list _ lit_0 i _ (Naskar_re_is_vec addr state coupling)).
  reflexivity.
Qed.

Lemma Naskar_column_equations (i : nat) :
  Naskar_region state coupling i ->
  Naskar_column i
  = Naskar_equations m
      (nth i (nth 0 state []) lit_0) (nth i (nth 1 state []) lit_0)
      (nth i (nth 2 state []) lit_0) (nth i (nth 0 coupling []) lit_0).
Proof.
  intro H. rewrite Naskar_column_locals.
  rewrite (Naskar_dSe_pointwise H), (Naskar_dSi_pointwise H).
  unfold l, m.
  rewrite (Naskar_dJ_pointwise addr H).
  rewrite (Naskar_re_rate (Naskar_ye_in_range addr H)).
  rewrite (Naskar_ri_rate (Naskar_yi_in_range addr H)).
  rewrite (Naskar_ye_pointwise addr H), (Naskar_yi_pointwise addr H).
  rewrite (Naskar_Ie_pointwise addr H), (Naskar_Ii_pointwise addr H).
  rewrite (Naskar_Se_pointwise addr H), (Naskar_Si_pointwise addr H).
  reflexivity.
Qed.

(** X7.  At every region, the arrays that [Naskar2021_dfun] returns hold
    what the equations give on that region's state and coupling input. *)
Theorem Naskar2021_dfun_pointwise (i : nat) :
  Naskar_region state coupling i ->
  Naskar_column i
  = Naskar_equations m
      (nth i (nth 0 state []) lit_0) (nth i (nth 1 state []) lit_0)
      (nth i (nth 2 state []) lit_0) (nth i (nth 0 coupling []) lit_0).
Proof. exact (@Naskar_column_equations i). Qed.
End RegionEquations.

Ltac to_ranges Hi :=
  repeat match goal with
         | Hk : List.length (nth ?k ?a []) = ?n |- _ =>
             let Hr := fresh "Hr" in
             assert (Hr : _ < List.length (nth k a []))
               by (rewrite Hk; exact Hi);
             clear Hk
         end.

Section DecoEquations.
Context {F : Type} {FL : Float64 F}.
Local Open Scope f64_scope.

Record Deco_out := {
  D_dSe : F; D_dSi : F; D_Ie : F; D_re : F
}.

(** [p x] is the element of row [x] of the table for the region. *)
Definition Deco_equations (P : Deco2018.P_index) (p : nat -> F)
  (s_e s_i c : F) : Deco_out :=
  let Se := fclip s_e lit_0 lit_1 in
  let Si := fclip s_i lit_0 lit_1 in
  let Ie := p (Deco2018.Jext_e P) * p (Deco2018.I0 P)
            + p (Deco2018.w P) * p (Deco2018.J_NMDA P) * Se
            + p (Deco2018.J_NMDA P) * c - p (Deco2018.J P) * Si
            + p (Deco2018.I_external P) in
  let Ii := p (Deco2018.Jext_i P) * p (Deco2018.I0 P)
            + p (Deco2018.J_NMDA P) * Se - Si in
  let ye := (p (Deco2018.ae P) * Ie - p (Deco2018.be P))
            * (lit_1 + p (Deco2018.receptor P) * p (Deco2018.w_gain_e P)) in
  let re := rate ye (p (Deco2018.de P)) in
  let yi := (p (Deco2018.ai P) * Ii - p (Deco2018.bi P))
            * (lit_1 + p (Deco2018.receptor P) * p (Deco2018.w_gain_i P)) in
  let ri := rate yi (p (Deco2018.di P)) in
  {| D_dSe := - Se / p (Deco2018.taon P)
              + p (Deco2018.gamma_e P) * (lit_1 - Se) * re / lit_1000;
     D_dSi := - Si / p (Deco2018.taog P)
              + p (Deco2018.gamma_i P) * ri / lit_1000;
     D_Ie := Ie;
     D_re := re |}.

Variable P : Deco2018.P_index.
Variables m state coupling : list (list F).
Variable n : nat.
Hypothesis shape : Deco_shape P m state coupling n.
Let l := Deco_locals P m state coupling.
Let mrow (k : nat) : nd F := Vec (nth k m []).

Definition Deco_column (i : nat) : Deco_out :=
  let out := Deco2018.Deco2018_dfun (NP := NumPy_values) P m state coupling in
  {| D_dSe := nth i (nth 0 (fst out) []) lit_0;
     D_dSi := nth i (nth 1 (fst out) []) lit_0;
     D_Ie := nth i (nth 0 (snd out) []) lit_0;
     D_re := nth i (nth 1 (snd out) []) lit_0 |}.

Lemma Deco_column_locals i :
  Deco_column i
  = {| D_dSe := nd_get lit_0 i (Deco2018.dSe l);
       D_dSi := nd_get lit_0 i (Deco2018.dSi l);
       D_Ie := nd_get lit_0 i (Deco2018.Ie l);
       D_re := nd_get lit_0 i (Deco2018.re l) |}.
Proof.
  pose proof (Deco_outputs_fit shape) as ((V1 & _) & (V2 & _) & (V3 & _) & (V4 & _)).
  unfold Deco_column.
  change (Deco2018.Deco2018_dfun (NP := NumPy_values) P m state coupling)
    with ([nd_list (Deco2018.dSe l); nd_list (Deco2018.dSi l)],
          [nd_list (Deco2018.Ie l); nd_list (Deco2018.re l)]).
  cbv zeta. cbn [fst snd].
  change (nth 0 [?a; ?b] []) with a. change (nth 1 [?a; ?b] []) with b.
  unfold l.
  rewrite (@nth_nd_list _ lit_0 i _ V1), (@nth_nd_list _ lit_0 i _ V2),
    (@nth_nd_list _ lit_0 i _ V3), (@nth_nd_list _ lit_0 i _ V4).
  reflexivity.
Qed.

Lemma Deco_locals_pointwise i :
  i < n ->
  let at_i := nd_get lit_0 i in
  let p := fun k => Deco_m m k i in
  at_i (Deco2018.Se l) = fclip (nth i (nth 0 state []) lit_0) lit_0 lit_1
  /\ at_i (Deco2018.Si l) = fclip (nth i (nth 1 state []) lit_0) lit_0 lit_1
  /\ at_i (Deco2018.Ie l)
     = p (Deco2018.Jext_e P) * p (Deco2018.I0 P)
       + p (Deco2018.w P) * p (Deco2018.J_NMDA P) * at_i (Deco2018.Se l)
       + p (Deco2018.J_NMDA P) * nth i (nth 0 coupling []) lit_0
       - p (Deco2018.J P) * at_i (Deco2018.Si l)
       + p (Deco2018.I_external P)
  /\ at_i (Deco2018.Ii l)
     = p (Deco2018.Jext_i P) * p (Deco2018.I0 P)
       + p (Deco2018.J_NMDA P) * at_i (Deco2018.Se l) - at_i (Deco2018.Si l)
  /\ at_i (Deco2018.ye l)
     = (p (Deco2018.ae P) * at_i (Deco2018.Ie l) - p (Deco2018.be P))
       * (lit_1 + p (Deco2018.receptor P) * p (Deco2018.w_gain_e P))
  /\ at_i (Deco2018.yi l)
     = (p (Deco2018.ai P) * at_i (Deco2018.Ii l) - p (Deco2018.bi P))
       * (lit_1 + p (Deco2018.receptor P) * p (Deco2018.w_gain_i P))
  /\ at_i (Deco2018.re l) = rate (at_i (Deco2018.ye l)) (p (Deco2018.de P))
  /\ at_i (Deco2018.ri l) = rate (at_i (Deco2018.yi l)) (p (Deco2018.di P))
  /\ at_i (Deco2018.dSe l)
     = - at_i (Deco2018.Se l) / p (Deco2018.taon P)
       + p (Deco2018.gamma_e P) * (lit_1 - at_i (Deco2018.Se l))
         * at_i (Deco2018.re l) / lit_1000
  /\ at_i (Deco2018.dSi l)
     = - at_i (Deco2018.Si l) / p (Deco2018.taog P)
       + p (Deco2018.gamma_i P) * at_i (Deco2018.ri l) / lit_1000.
Proof.
  intros Hi at_i p. subst at_i p. unfold Deco_m.
  pose proof shape as H. deco_shape H. to_ranges Hi.
  assert (RSe : in_range i (Deco2018.Se l)) by (cbn; auto 20 with nd).
  assert (RSi : in_range i (Deco2018.Si l)) by (cbn; auto 20 with nd).
  assert (RIe : in_range i (Deco2018.Ie l)) by (cbn; auto 60 with nd).
  assert (RIi : in_range i (Deco2018.Ii l)) by (cbn; auto 60 with nd).
  assert (Rye : in_range i (Deco2018.ye l)) by (cbn; auto 80 with nd).
  assert (Ryi : in_range i (Deco2018.yi l)) by (cbn; auto 80 with nd).
  assert (Rre : in_range i (Deco2018.re l)) by (cbn; auto 100 with nd).
  assert (Rri : in_range i (Deco2018.ri l)) by (cbn; auto 100 with nd).
  repeat split.
  - change (Deco2018.Se l) with
      (nd_map (fun x => fclip x lit_0 lit_1) (Vec (nth 0 state []))).
    pointwise. reflexivity.
  - change (Deco2018.Si l) with
      (nd_map (fun x => fclip x lit_0 lit_1) (Vec (nth 1 state []))).
    pointwise. reflexivity.
  - change (Deco2018.Ie l) with
      (nd_map2 fadd
         (nd_map2 fsub
            (nd_map2 fadd
               (nd_map2 fadd
                  (nd_map2 fmul (mrow (Deco2018.Jext_e P)) (mrow (Deco2018.I0 P)))
                  (nd_map2 fmul
                     (nd_map2 fmul (mrow (Deco2018.w P)) (mrow (Deco2018.J_NMDA P)))
                     (Deco2018.Se l)))
               (nd_map2 fmul (mrow (Deco2018.J_NMDA P)) (Vec (nth 0 coupling []))))
            (nd_map2 fmul (mrow (Deco2018.J P)) (Deco2018.Si l)))
         (mrow (Deco2018.I_external P))).
    unfold mrow. pointwise. reflexivity.
  - change (Deco2018.Ii l) with
      (nd_map2 fsub
         (nd_map2 fadd
            (nd_map2 fmul (mrow (Deco2018.Jext_i P)) (mrow (Deco2018.I0 P)))
            (nd_map2 fmul (mrow (Deco2018.J_NMDA P)) (Deco2018.Se l)))
         (Deco2018.Si l)).
    unfold mrow. pointwise. reflexivity.
  - change (Deco2018.ye l) with
      (nd_map2 fmul
         (nd_map2 fsub (nd_map2 fmul (mrow (Deco2018.ae P)) (Deco2018.Ie l))
            (mrow (Deco2018.be P)))
         (nd_map2 fadd (Scalar lit_1)
            (nd_map2 fmul (mrow (Deco2018.receptor P)) (mrow (Deco2018.w_gain_e P))))).
    unfold mrow. pointwise. reflexivity.
  - change (Deco2018.yi l) with
      (nd_map2 fmul
         (nd_map2 fsub (nd_map2 fmul (mrow (Deco2018.ai P)) (Deco2018.Ii l))
            (mrow (Deco2018.bi P)))
         (nd_map2 fadd (Scalar lit_1)
            (nd_map2 fmul (mrow (Deco2018.receptor P)) (mrow (Deco2018.w_gain_i P))))).
    unfold mrow. pointwise. reflexivity.
  - unfold l. rewrite Deco_re_rate. rewrite nd_rate_pointwise by auto with nd.
    reflexivity.
  - unfold l. rewrite Deco_ri_rate. rewrite nd_rate_pointwise by auto with nd.
    reflexivity.
  - change (Deco2018.dSe l) with
      (nd_map2 fadd
         (nd_map2 fdiv (nd_map fneg (Deco2018.Se l)) (mrow (Deco2018.taon P)))
         (nd_map2 fdiv
            (nd_map2 fmul
               (nd_map2 fmul (mrow (Deco2018.gamma_e P))
                  (nd_map2 fsub (Scalar lit_1) (Deco2018.Se l)))
               (Deco2018.re l))
            (Scalar lit_1000))).
    unfold mrow. pointwise. reflexivity.
  - change (Deco2018.dSi l) with
      (nd_map2 fadd
         (nd_map2 fdiv (nd_map fneg (Deco2018.Si l)) (mrow (Deco2018.taog P)))
         (nd_map2 fdiv (nd_map2 fmul (mrow (Deco2018.gamma_i P)) (Deco2018.ri l))
            (Scalar lit_1000))).
    unfold mrow. pointwise. reflexivity.
Qed.

Lemma Deco_column_equations (i : nat) :
  i < n ->
  Deco_column i
  = Deco_equations P (fun k => Deco_m m k i)
      (nth i (nth 0 state []) lit_0) (nth i (nth 1 state []) lit_0)
      (nth i (nth 0 coupling []) lit_0).
Proof.
  intro Hi. rewrite Deco_column_locals.
  destruct (Deco_locals_pointwise Hi)
    as (ESe & ESi & EIe & EIi & Eye & Eyi & Ere & Eri & EdSe & EdSi).
  cbv zeta in *.
  rewrite EdSe, EdSi, Ere, Eri, Eye, Eyi, EIe, EIi, ESe, ESi.
  reflexivity.
Qed.

(** X8.  At every region, the arrays that [Deco2018_dfun] returns hold what
    the equations give on that region's parameters, state and coupling
    input. *)
Theorem Deco2018_dfun_pointwise (i : nat) :
  i < n ->
  Deco_column i
  = Deco_equations P (fun k => Deco_m m k i)
      (nth i (nth 0 state []) lit_0) (nth i (nth 1 state []) lit_0)
      (nth i (nth 0 coupling []) lit_0).
Proof. exact (@Deco_column_equations i). Qed.
End DecoEquations.

Lemma Naskar2021_dfun_pointwise_witness :
  let FL := Float64_binary64 exp64 in
  Naskar_column Naskar_defaults_64 state_64_initial coupling_64_zero 0
  = Naskar_equations (Naskar_m Naskar_defaults_64)
      (nth 0 (nth 0 state_64_initial []) lit_0)
      (nth 0 (nth 1 state_64_initial []) lit_0)
      (nth 0 (nth 2 state_64_initial []) lit_0)
      (nth 0 (nth 0 coupling_64_zero []) lit_0).
Proof.
  apply (@Naskar2021_dfun_pointwise float (Float64_binary64 exp64)
           Naskar_defaults_64 state_64_initial coupling_64_zero 0).
  exact Naskar_region_initial_64.
Defined.

Lemma Deco2018_dfun_pointwise_witness :
  let FL := Float64_binary64 exp64 in
  Deco_column Deco_P_example Deco_defaults_64 Deco_state_64_singular
    coupling_64_zero 0
  = Deco_equations Deco_P_example (fun k => Deco_m Deco_defaults_64 k 0)
      (nth 0 (nth 0 Deco_state_64_singular []) lit_0)
      (nth 0 (nth 1 Deco_state_64_singular []) lit_0)
      (nth 0 (nth 0 coupling_64_zero []) lit_0).
Proof.
  apply (@Deco2018_dfun_pointwise float (Float64_binary64 exp64) Deco_P_example
           Deco_defaults_64 Deco_state_64_singular coupling_64_zero 1
           Deco_shape_singular 0).
  exact Nat.lt_0_1.
Defined.

(** ** No coupling between regions inside a dfun *)

(** X9.  What a dfun returns for region [i] depends on the state and the
    coupling input of region [i] only: two inputs that agree at column [i]
    give the same column [i], whatever the other regions hold. *)
Theorem dfun_region_local {F : Type} {FL : Float64 F}
  (addr stateN stateN' couplingN couplingN' : list (list F))
  (P : Deco2018.P_index) (m stateD stateD' couplingD couplingD' : list (list F))
  (n i : nat) :
  Naskar_region stateN couplingN i -> Naskar_region stateN' couplingN' i ->
  Deco_shape P m stateD couplingD n -> Deco_shape P m stateD' couplingD' n ->
  i < n ->
  (forall k, nth i (nth k stateN []) lit_0 = nth i (nth k stateN' []) lit_0) ->
  nth i (nth 0 couplingN []) lit_0 = nth i (nth 0 couplingN' []) lit_0 ->
  (forall k, nth i (nth k stateD []) lit_0 = nth i (nth k stateD' []) lit_0) ->
  nth i (nth 0 couplingD []) lit_0 = nth i (nth 0 couplingD' []) lit_0 ->
  Naskar_column addr stateN couplingN i = Naskar_column addr stateN' couplingN' i
  /\ Deco_column P m stateD couplingD i = Deco_column P m stateD' couplingD' i.
Proof.
  intros HN HN' HD HD' Hi EsN EcN EsD EcD. split.
  - rewrite (Naskar_column_equations addr HN).
    rewrite (Naskar_column_equations addr HN').
    now rewrite !EsN, EcN.
  - rewrite (Deco_column_equations HD Hi).
    rewrite (Deco_column_equations HD' Hi).
    now rewrite !EsD, EcD.
Qed.

(** Two regions: the inputs differ in region 1 only. *)
Definition state_64_two : list (list float) :=
  [[0.001; 0.5]; [0.001; 0.25]; [1; 2]]%float.
Definition state_64_two' : list (list float) :=
  [[0.001; 0.75]; [0.001; 0]; [1; 3]]%float.
Definition coupling_64_two : list (list float) := [[0; 0.5]]%float.
Definition coupling_64_two' : list (list float) := [[0; 1]]%float.
Definition Deco_table_64_two : list (list float) :=
  map (fun x => [x; x])
    [100; 10; 0.641; 1; 0.382; 1.4; 0.15; 1; 0.7; 310; 125; 0.16;
     615; 177; 0.087; 1; 0; 0; 0; 0]%float.

Lemma Deco_shape_two (s c : list (list float)) :
  List.length (nth 0 s []) = 2 -> List.length (nth 1 s []) = 2 ->
  List.length (nth 0 c []) = 2 ->
  Deco_shape Deco_P_example Deco_table_64_two s c 2.
Proof.
  intros H0 H1 Hc. unfold Deco_shape, Deco_rows. repeat split; try assumption.
  cbv [Deco_table_64_two
       Deco_P_example Deco2018.taon Deco2018.taog Deco2018.gamma_e
       Deco2018.gamma_i Deco2018.I0 Deco2018.w Deco2018.J_NMDA Deco2018.Jext_e
       Deco2018.Jext_i Deco2018.ae Deco2018.be Deco2018.de Deco2018.ai
       Deco2018.bi Deco2018.di Deco2018.J Deco2018.I_external Deco2018.receptor
       Deco2018.w_gain_e Deco2018.w_gain_i map nth List.length].
  repeat constructor.
Defined.

Lemma dfun_region_local_witness :
  let FL := Float64_binary64 exp64 in
  Naskar_column Naskar_defaults_64 state_64_two coupling_64_two 0
  = Naskar_column Naskar_defaults_64 state_64_two' coupling_64_two' 0
  /\ Deco_column Deco_P_example Deco_table_64_two state_64_two coupling_64_two 0
     = Deco_column Deco_P_example Deco_table_64_two state_64_two'
         coupling_64_two' 0.
Proof.
  apply (@dfun_region_local float (Float64_binary64 exp64)
           Naskar_defaults_64 state_64_two state_64_two'
           coupling_64_two coupling_64_two'
           Deco_P_example Deco_table_64_two state_64_two state_64_two'
           coupling_64_two coupling_64_two' 2 0).
  - repeat split; repeat constructor.
  - repeat split; repeat constructor.
  - apply Deco_shape_two; reflexivity.
  - apply Deco_shape_two; reflexivity.
  - exact Nat.lt_0_2.
  - intros [|[|[|k]]]; reflexivity.
  - reflexivity.
  - intros [|[|[|k]]]; reflexivity.
  - reflexivity.
Defined.

(** ** The stored state is seen through the clip only *)

Lemma clip_R_idempotent (x : R) :
  fclip (fclip x lit_0 lit_1) lit_0 lit_1 = fclip x lit_0 lit_1.
Proof.
  cbn [fclip lit_0 lit_1 Float64_R].
  unfold Rmin, Rmax.
  repeat (destruct Rle_dec; try lra).
Qed.

Lemma clip_R_bounds (x : R) : (0 <= fclip x lit_0 lit_1 <= 1)%R.
Proof.
  cbn [fclip lit_0 lit_1 Float64_R].
  unfold Rmin, Rmax.
  repeat (destruct Rle_dec; try lra).
Qed.

Lemma clip64_idempotent (x : float) :
  clip64 (clip64 x 0 1) 0 1 = clip64 x 0 1.
Proof.
  unfold clip64.
  destruct (PrimFloat.ltb x 0) eqn:E0; [reflexivity|].
  destruct (PrimFloat.ltb 1 x) eqn:E1; [reflexivity|].
  now rewrite E0, E1.
Qed.

Section ClipOnly.
Context {F : Type} {FL : Float64 F}.
Hypothesis clip_idempotent :
  forall x : F, fclip (fclip x lit_0 lit_1) lit_0 lit_1 = fclip x lit_0 lit_1.

(** The state with [S_e] and [S_i] replaced by their clipped values. *)
Definition clipped (state : list (list F)) : list (list F) :=
  map (fun x => fclip x lit_0 lit_1) (nth 0 state [])
  :: map (fun x => fclip x lit_0 lit_1) (nth 1 state [])
  :: tl (tl state).

Lemma clipped_row0 state i :
  i < List.length (nth 0 state []) ->
  nth i (nth 0 (clipped state) []) lit_0
  = fclip (nth i (nth 0 state []) lit_0) lit_0 lit_1.
Proof.
  intro H. unfold clipped. change (nth 0 (?a :: ?b) []) with a.
  now apply (nth_map_lt (fun x => fclip x lit_0 lit_1)).
Qed.

Lemma clipped_row1 state i :
  i < List.length (nth 1 state []) ->
  nth i (nth 1 (clipped state) []) lit_0
  = fclip (nth i (nth 1 state []) lit_0) lit_0 lit_1.
Proof.
  intro H. unfold clipped. change (nth 1 (?a :: ?b :: ?c) []) with b.
  now apply (nth_map_lt (fun x => fclip x lit_0 lit_1)).
Qed.

Lemma clipped_row2 state : nth 2 (clipped state) [] = nth 2 state [].
Proof. destruct state as [|r0 [|r1 [|r2 s]]]; reflexivity. Qed.

Lemma clipped_lengths state :
  List.length (nth 0 (clipped state) []) = List.length (nth 0 state [])
  /\ List.length (nth 1 (clipped state) []) = List.length (nth 1 state []).
Proof.
  unfold clipped. change (nth 0 (?a :: ?b) []) with a.
  change (nth 1 (?a :: ?b :: ?c) []) with b. split; apply length_map.
Qed.

Lemma Naskar_clipped_column addr state coupling i :
  Naskar_region state coupling i ->
  Naskar_column addr (clipped state) coupling i
  = Naskar_column addr state coupling i.
Proof.
  intros H. pose proof H as (H0 & H1 & H2 & Hc).
  destruct (clipped_lengths state) as [L0 L1].
  assert (H' : Naskar_region (clipped state) coupling i).
  { unfold Naskar_region. rewrite L0, L1, clipped_row2. auto. }
  rewrite (Naskar_column_equations addr H').
  rewrite (Naskar_column_equations addr H).
  rewrite clipped_row0, clipped_row1, clipped_row2 by assumption.
  unfold Naskar_equations. now rewrite !clip_idempotent.
Qed.

Lemma Deco_clipped_column P m state coupling n i :
  Deco_shape P m state coupling n -> i < n ->
  Deco_column P m (clipped state) coupling i
  = Deco_column P m state coupling i.
Proof.
  intros H Hi. pose proof H as (H0 & H1 & Hc & Hm).
  destruct (clipped_lengths state) as [L0 L1].
  assert (H' : Deco_shape P m (clipped state) coupling n).
  { unfold Deco_shape. rewrite L0, L1. auto. }
  rewrite (Deco_column_equations H' Hi).
  rewrite (Deco_column_equations H Hi).
  rewrite clipped_row0, clipped_row1 by lia.
  unfold Deco_equations. now rewrite !clip_idempotent.
Qed.
End ClipOnly.

(** X10.  In both readings of the arithmetic and for both variants, a dfun called
    on a state whose [S_e] and [S_i] rows were clipped to [0, 1] beforehand
    returns, at every region, what it returns on the state as stored: values
    of [S] outside [0, 1] act as the nearer bound. *)
Theorem dfun_sees_clipped_state (e : float -> float)
  (addr stateN couplingN : list (list float))
  (P : Deco2018.P_index) (m stateD couplingD : list (list float))
  (addrR stateR couplingR : list (list R)) (n i : nat) :
  Naskar_region stateN couplingN i ->
  Deco_shape P m stateD couplingD n -> i < n ->
  Naskar_region stateR couplingR i ->
  (Naskar_column (FL := Float64_binary64 e) addr
     (clipped (FL := Float64_binary64 e) stateN) couplingN i
   = Naskar_column (FL := Float64_binary64 e) addr stateN couplingN i)
  /\ (Deco_column (FL := Float64_binary64 e) P m
        (clipped (FL := Float64_binary64 e) stateD) couplingD i
      = Deco_column (FL := Float64_binary64 e) P m stateD couplingD i)
  /\ (Naskar_column addrR (clipped stateR) couplingR i
      = Naskar_column addrR stateR couplingR i).
Proof.
  intros HN HD Hi HR. repeat split.
  - apply (Naskar_clipped_column (FL := Float64_binary64 e) clip64_idempotent).
    assumption.
  - apply (Deco_clipped_column (FL := Float64_binary64 e) clip64_idempotent HD Hi).
  - apply Naskar_clipped_column; [apply clip_R_idempotent | assumption].
Qed.

(** A stored state outside [0, 1]. *)
Definition state_64_outside : list (list float) := [[1.5]; [-0.25]; [1]]%float.
Definition Deco_state_64_outside : list (list float) := [[1.5]; [-0.25]]%float.
Definition state_R_outside : list (list R) := [[1.5]; [-0.25]; [1]]%R.

Lemma dfun_sees_clipped_state_witness :
  (Naskar_column (FL := Float64_binary64 exp64) Naskar_defaults_64
     (clipped (FL := Float64_binary64 exp64) state_64_outside) coupling_64_zero 0
   = Naskar_column (FL := Float64_binary64 exp64) Naskar_defaults_64
       state_64_outside coupling_64_zero 0)
  /\ (Deco_column (FL := Float64_binary64 exp64) Deco_P_example Deco_defaults_64
        (clipped (FL := Float64_binary64 exp64) Deco_state_64_outside)
        coupling_64_zero 0
      = Deco_column (FL := Float64_binary64 exp64) Deco_P_example
          Deco_defaults_64 Deco_state_64_outside coupling_64_zero 0)
  /\ (Naskar_column Naskar_defaults_R (clipped state_R_outside) coupling_R_zero 0
      = Naskar_column Naskar_defaults_R state_R_outside coupling_R_zero 0).
Proof.
  apply (@dfun_sees_clipped_state exp64 Naskar_defaults_64 state_64_outside
           coupling_64_zero Deco_P_example Deco_defaults_64
           Deco_state_64_outside coupling_64_zero
           Naskar_defaults_R state_R_outside coupling_R_zero 1 0).
  - repeat split; repeat constructor.
  - unfold Deco_shape, Deco_rows.
    cbv [Deco_state_64_outside coupling_64_zero Deco_defaults_64
         Deco_P_example Deco2018.taon Deco2018.taog Deco2018.gamma_e
         Deco2018.gamma_i Deco2018.I0 Deco2018.w Deco2018.J_NMDA Deco2018.Jext_e
         Deco2018.Jext_i Deco2018.ae Deco2018.be Deco2018.de Deco2018.ai
         Deco2018.bi Deco2018.di Deco2018.J Deco2018.I_external Deco2018.receptor
         Deco2018.w_gain_e Deco2018.w_gain_i map nth List.length].
    repeat split; repeat constructor.
  - exact Nat.lt_0_1.
  - repeat split; repeat constructor.
Defined.

(** ** The two readings agree

    The dfuns are written once and read twice.  What the store reading
    leaves in the arrays it returns is what the value reading computes from
    the contents of the input arrays. *)

Section Agreement.
Context {F : Type} {FL : Float64 F}.

Definition ref_in (h : store F) (r : ref F) : Prop :=
  match r with
  | RFloat _ => True
  | RArr l | RRow l _ | RFlat l _ => l < List.length h
  end.

(** Operand [r] is an operand of store [h] and reads as [v] there. *)
Definition holds (h : store F) (r : ref F) (v : nd F) : Prop :=
  ref_in h r /\ deref h r = v.

Definition holds2 (h : store F) (l : loc) (a : list (list F)) : Prop :=
  l < List.length h /\ cell2 h l = a.

(** Run in any store that extends [h0], the computation [c] only allocates,
    and its result is related to [b] in the store it leaves. *)
Definition computes {A B : Type} (R : store F -> A -> B -> Prop)
  (h0 : store F) (c : State F A) (b : B) : Prop :=
  forall h, extends h0 h ->
    extends h (fst (c h)) /\ R (fst (c h)) (snd (c h)) b.

Lemma extends_length (h h' : store F) :
  extends h h' -> List.length h <= List.length h'.
Proof. intros [k ->]. rewrite length_app. lia. Qed.

Lemma cell2_extends (h h' : store F) l :
  extends h h' -> l < List.length h -> cell2 h' l = cell2 h l.
Proof. intros He Hl. unfold cell2. now rewrite (extends_lookup He Hl). Qed.

Lemma holds2_extends (h h' : store F) l a :
  extends h h' -> holds2 h l a -> holds2 h' l a.
Proof.
  intros He [Hl <-]. split.
  - pose proof (extends_length He). lia.
  - now apply cell2_extends.
Qed.

Lemma holds_extends (h h' : store F) r v :
  extends h h' -> holds h r v -> holds h' r v.
Proof.
  intros He [Hin <-]. pose proof (extends_length He) as Hlen.
  destruct r as [x | l | l i | l n]; cbn [ref_in] in Hin; split;
    cbn [ref_in deref]; try lia; try reflexivity.
  - now rewrite (extends_lookup He Hin).
  - now rewrite (cell2_extends He Hin).
  - now rewrite (cell2_extends He Hin).
Qed.

Lemma computes_bind {A A' B B' : Type}
  (R1 : store F -> A -> A' -> Prop) (R2 : store F -> B -> B' -> Prop)
  (h0 : store F) (c : State F A) (k : A -> State F B) (b : A') (k' : A' -> B') :
  computes R1 h0 c b ->
  (forall h1 x v, extends h0 h1 -> R1 h1 x v -> computes R2 h1 (k x) (k' v)) ->
  computes R2 h0 (mbind (NumPy := NumPy_store) c k)
    (mbind (NumPy := NumPy_values) (b : Id A') (k' : A' -> Id B')).
Proof.
  intros Hc Hk h He. rewrite run_bind.
  destruct (Hc h He) as [He1 H1].
  destruct (Hk _ _ _ (extends_trans He He1) H1 _ (extends_refl _)) as [He2 H2].
  split; [eapply extends_trans; eassumption | exact H2].
Qed.

Lemma computes_ret {A B : Type} (R : store F -> A -> B -> Prop)
  (h0 : store F) (x : A) (b : B) :
  (forall h, extends h0 h -> R h x b) ->
  computes R h0 (mret (NumPy := NumPy_store) x)
    (mret (NumPy := NumPy_values) b : Id B).
Proof. intros H h He. split; [apply extends_refl | now apply H]. Qed.

Lemma computes_var (h0 : store F) r v :
  holds h0 r v ->
  computes holds h0 (var (NP := NumPy_store) r) (var (NP := NumPy_values) v).
Proof.
  intro H. apply computes_ret. intros h He. now apply (holds_extends He).
Qed.

Lemma computes_lit (h0 : store F) (x : F) :
  computes holds h0 (lit (NP := NumPy_store) x) (lit (NP := NumPy_values) x).
Proof. apply computes_ret. intros h _. now split. Qed.

Lemma computes_row (h0 : store F) l a i :
  holds2 h0 l a ->
  computes holds h0 (row (NP := NumPy_store) l i) (row (NP := NumPy_values) a i).
Proof.
  intro H. apply computes_ret. intros h He.
  destruct (holds2_extends He H) as [Hl <-]. now split.
Qed.

Lemma computes_item (h0 : store F) l a n k :
  holds2 h0 l a ->
  computes holds h0
    (item (NP := NumPy_store) (nb_carray (NumPy := NumPy_store) l n) k)
    (item (NP := NumPy_values) (nb_carray (NumPy := NumPy_values) a n) k).
Proof.
  intros H h He. destruct (holds2_extends He H) as [Hl <-].
  split; [apply extends_refl | now split].
Qed.

Lemma fresh_holds (h : store F) (v : nd F) :
  extends h (fst (fresh v h)) /\ holds (fst (fresh v h)) (snd (fresh v h)) v.
Proof.
  destruct v as [x | v]; cbn.
  - split; [apply extends_refl | now split].
  - split; [now exists [Cell1 v] | split].
    + cbn. rewrite length_app. cbn. lia.
    + cbn. rewrite nth_error_app2 by lia. now rewrite Nat.sub_diag.
Qed.

Lemma computes_lift1 (h0 : store F) (f : F -> F) (a : State F (ref F)) va :
  computes holds h0 a va ->
  computes holds h0 (lift1 (NP := NumPy_store) (unop f) a)
    (lift1 (NP := NumPy_values) (nd_map f) va).
Proof.
  intro Ha. unfold lift1. eapply computes_bind; [exact Ha|].
  intros h1 x v _ Hx h He.
  destruct (holds_extends He Hx) as [_ <-].
  unfold unop. apply fresh_holds.
Qed.

Lemma computes_lift2 (h0 : store F) (f : F -> F -> F)
  (a b : State F (ref F)) va vb :
  computes holds h0 a va -> computes holds h0 b vb ->
  computes holds h0 (lift2 (NP := NumPy_store) (binop f) a b)
    (lift2 (NP := NumPy_values) (nd_map2 f) va vb).
Proof.
  intros Ha Hb. unfold lift2. eapply computes_bind; [exact Ha|].
  intros h1 x v He1 Hx. eapply computes_bind.
  - intros h He. apply Hb. eapply extends_trans; eassumption.
  - intros h2 y w He2 Hy h He.
    destruct (holds_extends (extends_trans He2 He) Hx) as [_ <-].
    destruct (holds_extends He Hy) as [_ <-].
    unfold binop. apply fresh_holds.
Qed.

Lemma computes_clip (h0 : store F) (a : State F (ref F)) va lo hi :
  computes holds h0 a va ->
  computes holds h0 (clip (NP := NumPy_store) a lo hi)
    (clip (NP := NumPy_values) va lo hi).
Proof.
  intro Ha. unfold clip. eapply computes_bind; [exact Ha|].
  intros h1 x v _ Hx h He.
  destruct (holds_extends He Hx) as [_ <-].
  cbn [np_clip NumPy_store NumPy_values]. unfold unop. apply fresh_holds.
Qed.

Lemma computes_stack_args (h0 : store F) (cs : list (State F (ref F)))
  (vs : list (nd F)) :
  Forall2 (computes holds h0) cs vs ->
  computes (fun h rs ws => Forall2 (holds h) rs ws) h0
    (stack_args (NP := NumPy_store) cs)
    (stack_args (NP := NumPy_values) (vs : list (Id (nd F)))).
Proof.
  intro H. revert h0 H. revert vs.
  induction cs as [|c cs IH]; intros vs h0 H; inversion H; subst.
  - apply computes_ret. intros; constructor.
  - cbn [stack_args]. eapply computes_bind; [eassumption|].
    intros h1 x v He1 Hx. eapply computes_bind.
    + apply IH. eapply Forall2_impl; [|eassumption].
      intros c' v' Hc h He. apply Hc. eapply extends_trans; eassumption.
    + intros h2 xs ws He2 Hxs. apply computes_ret. intros h He.
      constructor.
      * apply (holds_extends (extends_trans He2 He) Hx).
      * eapply Forall2_impl; [|exact Hxs].
        intros r w Hr. apply (holds_extends He Hr).
Qed.

Lemma computes_stack (h0 : store F) (cs : list (State F (ref F)))
  (vs : list (nd F)) :
  Forall2 (computes holds h0) cs vs ->
  computes holds2 h0 (stack (NP := NumPy_store) cs)
    (stack (NP := NumPy_values) (vs : list (Id (nd F)))).
Proof.
  intro H. unfold stack. eapply computes_bind.
  - apply computes_stack_args. exact H.
  - intros h1 rs ws _ Hrs h He. cbn. split; [now exists
      [Cell2 (map (fun r => nd_list (deref h r)) rs)]|].
    split.
    + rewrite length_app. cbn. lia.
    + unfold cell2. rewrite nth_error_app2 by lia. rewrite Nat.sub_diag. cbn.
      clear - Hrs He. induction Hrs as [|r w rs ws Hr _ IH]; [reflexivity|].
      cbn [map]. destruct (holds_extends He Hr) as [_ ->]. now rewrite IH.
Qed.
End Agreement.

Ltac rebase He :=
  repeat match goal with
  | H : holds ?h _ _ |- _ =>
      lazymatch type of He with
      | extends h _ => apply (holds_extends He) in H
      end
  | H : holds2 ?h _ _ |- _ =>
      lazymatch type of He with
      | extends h _ => apply (holds2_extends He) in H
      end
  end.

Ltac agree_step :=
  first
    [ apply computes_var; assumption
    | apply computes_lit
    | apply computes_row; assumption
    | apply computes_item; assumption
    | apply computes_clip
    | apply computes_lift2
    | apply computes_lift1 ].

Ltac agree_bind :=
  eapply computes_bind;
  [ repeat agree_step
  | let h1 := fresh "h" in
    let x := fresh "x" in
    let v := fresh "v" in
    let He := fresh "He" in
    let Hx := fresh "Hx" in
    intros h1 x v He Hx; rebase He; clear He ].

Section AgreementDfun.
Context {F : Type} {FL : Float64 F}.

Definition Naskar_locals_hold (h : store F)
  (l : Naskar2021.locals (ref F)) (v : Naskar2021.locals (nd F)) : Prop :=
  holds h (Naskar2021.Se l) (Naskar2021.Se v)
  /\ holds h (Naskar2021.Si l) (Naskar2021.Si v)
  /\ holds h (Naskar2021.J l) (Naskar2021.J v)
  /\ holds h (Naskar2021.Ie l) (Naskar2021.Ie v)
  /\ holds h (Naskar2021.Ii l) (Naskar2021.Ii v)
  /\ holds h (Naskar2021.ye l) (Naskar2021.ye v)
  /\ holds h (Naskar2021.re l) (Naskar2021.re v)
  /\ holds h (Naskar2021.yi l) (Naskar2021.yi v)
  /\ holds h (Naskar2021.ri l) (Naskar2021.ri v)
  /\ holds h (Naskar2021.dSe l) (Naskar2021.dSe v)
  /\ holds h (Naskar2021.dSi l) (Naskar2021.dSi v)
  /\ holds h (Naskar2021.dJ l) (Naskar2021.dJ v).

Lemma Naskar_body_computes (h0 : store F) (addr state coupling : loc)
  (va vs vc : list (list F)) :
  holds2 h0 addr va -> holds2 h0 state vs -> holds2 h0 coupling vc ->
  computes Naskar_locals_hold h0
    (Naskar2021.body (NP := NumPy_store) addr state coupling)
    (Naskar2021.body (NP := NumPy_values) va vs vc).
Proof.
  intros Ha Hs Hc. unfold Naskar2021.body, npexp. cbv zeta.
  do 12 agree_bind.
  apply computes_ret. intros hfin Hfin. rebase Hfin.
  unfold Naskar_locals_hold. cbn.
  repeat match goal with |- holds _ _ _ /\ _ => split; [assumption|] end.
  assumption.
Qed.

Definition Deco_locals_hold (h : store F)
  (l : Deco2018.locals (ref F)) (v : Deco2018.locals (nd F)) : Prop :=
  holds h (Deco2018.Se l) (Deco2018.Se v)
  /\ holds h (Deco2018.Si l) (Deco2018.Si v)
  /\ holds h (Deco2018.Ie l) (Deco2018.Ie v)
  /\ holds h (Deco2018.Ii l) (Deco2018.Ii v)
  /\ holds h (Deco2018.ye l) (Deco2018.ye v)
  /\ holds h (Deco2018.re l) (Deco2018.re v)
  /\ holds h (Deco2018.yi l) (Deco2018.yi v)
  /\ holds h (Deco2018.ri l) (Deco2018.ri v)
  /\ holds h (Deco2018.dSe l) (Deco2018.dSe v)
  /\ holds h (Deco2018.dSi l) (Deco2018.dSi v).

Lemma Deco_body_computes (P : Deco2018.P_index) (h0 : store F)
  (m state coupling : loc) (vm vs vc : list (list F)) :
  holds2 h0 m vm -> holds2 h0 state vs -> holds2 h0 coupling vc ->
  computes Deco_locals_hold h0
    (Deco2018.body (NP := NumPy_store) P m state coupling)
    (Deco2018.body (NP := NumPy_values) P vm vs vc).
Proof.
  intros Hm Hs Hc. unfold Deco2018.body, npexp.
  do 10 agree_bind.
  apply computes_ret. intros hfin Hfin. rebase Hfin.
  unfold Deco_locals_hold. cbn.
  repeat match goal with |- holds _ _ _ /\ _ => split; [assumption|] end.
  assumption.
Qed.

(** The two arrays a dfun returns, in the store and as values. *)
Definition pair_holds (h : store F) (p : loc * loc)
  (q : list (list F) * list (list F)) : Prop :=
  holds2 h (fst p) (fst q) /\ holds2 h (snd p) (snd q).

Lemma Naskar_dfun_computes (h0 : store F) (addr state coupling : loc)
  (va vs vc : list (list F)) :
  holds2 h0 addr va -> holds2 h0 state vs -> holds2 h0 coupling vc ->
  computes pair_holds h0
    (Naskar2021.Naskar2021_dfun (NP := NumPy_store) addr state coupling)
    (Naskar2021.Naskar2021_dfun (NP := NumPy_values) va vs vc).
Proof.
  intros Ha Hs Hc. unfold Naskar2021.Naskar2021_dfun.
  eapply computes_bind; [now apply Naskar_body_computes|].
  intros h1 l lv _ (_ & _ & _ & HIe & _ & _ & Hre & _ & _ & HdSe & HdSi & HdJ).
  eapply computes_bind;
    [apply computes_stack;
     repeat (apply Forall2_cons; [apply computes_var; assumption|]);
     apply Forall2_nil|].
  intros h2 d vd He2 Hd. rebase He2.
  eapply computes_bind;
    [apply computes_stack;
     repeat (apply Forall2_cons; [apply computes_var; assumption|]);
     apply Forall2_nil|].
  intros h3 o vo He3 Ho. rebase He3.
  apply computes_ret. intros hfin Hfin. rebase Hfin. now split.
Qed.

Lemma Deco_dfun_computes (P : Deco2018.P_index) (h0 : store F)
  (m state coupling : loc) (vm vs vc : list (list F)) :
  holds2 h0 m vm -> holds2 h0 state vs -> holds2 h0 coupling vc ->
  computes pair_holds h0
    (Deco2018.Deco2018_dfun (NP := NumPy_store) P m state coupling)
    (Deco2018.Deco2018_dfun (NP := NumPy_values) P vm vs vc).
Proof.
  intros Hm Hs Hc. unfold Deco2018.Deco2018_dfun.
  eapply computes_bind; [now apply Deco_body_computes|].
  intros h1 l lv _ (_ & _ & HIe & _ & _ & Hre & _ & _ & HdSe & HdSi).
  eapply computes_bind;
    [apply computes_stack;
     repeat (apply Forall2_cons; [apply computes_var; assumption|]);
     apply Forall2_nil|].
  intros h2 d vd He2 Hd. rebase He2.
  eapply computes_bind;
    [apply computes_stack;
     repeat (apply Forall2_cons; [apply computes_var; assumption|]);
     apply Forall2_nil|].
  intros h3 o vo He3 Ho. rebase He3.
  apply computes_ret. intros hfin Hfin. rebase Hfin. now split.
Qed.

(** What a call in store [h] returns, read back from the store it leaves. *)
Definition returned (c : State F (loc * loc)) (h : store F)
  : list (list F) * list (list F) :=
  let '(h', (d, o)) := c h in (cell2 h' d, cell2 h' o).

Lemma computes_returned (c : State F (loc * loc)) (h : store F)
  (q : list (list F) * list (list F)) :
  computes pair_holds h c q -> returned c h = q.
Proof.
  intro H. destruct (H h (extends_refl h)) as [_ [[_ H1] [_ H2]]].
  unfold returned. destruct (c h) as [h' [d o]]. cbn in H1, H2.
  destruct q. now rewrite H1, H2.
Qed.
End AgreementDfun.

(** The store reading returns the value reading.  For every store and
    every table, state and coupling array that the store holds, the two
    arrays that a dfun leaves behind in the store are the two arrays that
    the dfun, read as a function on values, computes from the contents of
    its inputs. *)
Lemma store_reading_returns_values {F : Type} {FL : Float64 F}
  (P : Deco2018.P_index) (h : store F) (addr m state coupling : loc) :
  addr < List.length h -> m < List.length h ->
  state < List.length h -> coupling < List.length h ->
  returned (Naskar2021.Naskar2021_dfun (NP := NumPy_store) addr state coupling) h
  = Naskar2021.Naskar2021_dfun (NP := NumPy_values)
      (cell2 h addr) (cell2 h state) (cell2 h coupling)
  /\ returned (Deco2018.Deco2018_dfun (NP := NumPy_store) P m state coupling) h
     = Deco2018.Deco2018_dfun (NP := NumPy_values) P
         (cell2 h m) (cell2 h state) (cell2 h coupling).
Proof.
  intros Ha Hm Hs Hc. split; apply computes_returned.
  - apply Naskar_dfun_computes; now split.
  - apply Deco_dfun_computes; now split.
Qed.
